(** * LoRaWAN class B end-device application (classB/SKiM980A/main.c)

    A shallow embedding of the application layer of the class B demo:
    the device state machine of [main], the MAC callbacks
    ([McpsConfirm], [McpsIndication], [MlmeConfirm], [MlmeIndication]),
    the timer callbacks, the frame builder and the compliance test
    protocol, followed by the properties proved about them.

    The file-scope variables of main.c are the fields of [Globals]; every
    C function becomes a function from system state to system state. The
    MAC engine (LoRaMac.c) is outside this translation unit: it is an
    abstract state with the operations main.c calls on it ([MacEngine]).
    Diagnostic output (printf) has no effect on the state and is left out. *)

From Stdlib Require Import ZArith Bool Lia Ascii.
From stdpp Require Import base numbers list.

Local Open Scope Z_scope.

(** ** Fixed-width integers *)

Definition to_uint8 (z : Z) : Z := z mod 256.
Definition to_uint16 (z : Z) : Z := z mod 65536.
Definition to_uint32 (z : Z) : Z := z mod 4294967296.

(** ** Compile-time constants of main.c *)

Definition APP_TX_DUTYCYCLE : Z := 30000.
Definition APP_TX_DUTYCYCLE_RND : Z := 5000.
Definition DR_0 : Z := 0.
Definition LORAWAN_DEFAULT_DATARATE : Z := DR_0.
Definition LORAWAN_DEFAULT_PING_SLOT_PERIODICITY : Z := 0.
Definition LORAWAN_CONFIRMED_MSG_ON : bool := false.
Definition LORAWAN_ADR_ON : bool := true.
Definition LORAWAN_DUTYCYCLE_ON : bool := true.
Definition LORAWAN_APP_PORT : Z := 3.
Definition LORAWAN_APP_DATA_MAX_SIZE : Z := 242.

(** DeviceClass_t, as the comment of compliance step 9 gives it. *)
Definition CLASS_A : Z := 0.
Definition CLASS_B : Z := 1.
Definition CLASS_C : Z := 2.

(** Compile-time switches. [USE_BEACON_TIMING] is the commented-out define of
    main.c; the others come from Commissioning.h and the compiler options. *)
Record BuildConfig := mkBuild {
  USE_BEACON_TIMING : bool;
  OVER_THE_AIR_ACTIVATION : bool;
  STATIC_DEVICE_ADDRESS : bool;
  DUTYCYCLE_REGION : bool; (* REGION_EU868 || RU864 || CN779 || EU433 *)
  LORAWAN_PUBLIC_NETWORK : bool;
  LORAWAN_DEVICE_ADDRESS : Z;
  LORAWAN_NETWORK_ID : Z;
  ABP_ACTIVATION_LRWAN_VERSION : Z
}.

(** ** Enumerations *)

Inductive eDeviceState :=
  | DEVICE_STATE_RESTORE
  | DEVICE_STATE_START
  | DEVICE_STATE_JOIN
  | DEVICE_STATE_SEND
  | DEVICE_STATE_REQ_DEVICE_TIME
  | DEVICE_STATE_REQ_PINGSLOT_ACK
  | DEVICE_STATE_REQ_BEACON_TIMING
  | DEVICE_STATE_BEACON_ACQUISITION
  | DEVICE_STATE_SWITCH_CLASS
  | DEVICE_STATE_CYCLE
  | DEVICE_STATE_SLEEP.

(** In the order of [MacStatusStrings]. *)
Inductive LoRaMacStatus_t :=
  | LORAMAC_STATUS_OK
  | LORAMAC_STATUS_BUSY
  | LORAMAC_STATUS_SERVICE_UNKNOWN
  | LORAMAC_STATUS_PARAMETER_INVALID
  | LORAMAC_STATUS_FREQUENCY_INVALID
  | LORAMAC_STATUS_DATARATE_INVALID
  | LORAMAC_STATUS_FREQ_AND_DR_INVALID
  | LORAMAC_STATUS_NO_NETWORK_JOINED
  | LORAMAC_STATUS_LENGTH_ERROR
  | LORAMAC_STATUS_REGION_NOT_SUPPORTED
  | LORAMAC_STATUS_SKIPPED_APP_DATA
  | LORAMAC_STATUS_DUTYCYCLE_RESTRICTED
  | LORAMAC_STATUS_NO_CHANNEL_FOUND
  | LORAMAC_STATUS_NO_FREE_CHANNEL_FOUND
  | LORAMAC_STATUS_BUSY_BEACON_RESERVED_TIME
  | LORAMAC_STATUS_BUSY_PING_SLOT_WINDOW_TIME
  | LORAMAC_STATUS_BUSY_UPLINK_COLLISION
  | LORAMAC_STATUS_CRYPTO_ERROR
  | LORAMAC_STATUS_FCNT_HANDLER_ERROR
  | LORAMAC_STATUS_MAC_COMMAD_ERROR
  | LORAMAC_STATUS_CLASS_B_ERROR
  | LORAMAC_STATUS_CONFIRM_QUEUE_ERROR
  | LORAMAC_STATUS_MC_GROUP_UNDEFINED
  | LORAMAC_STATUS_ERROR.

(** In the order of [EventInfoStatusStrings]. *)
Inductive LoRaMacEventInfoStatus_t :=
  | LORAMAC_EVENT_INFO_STATUS_OK
  | LORAMAC_EVENT_INFO_STATUS_ERROR
  | LORAMAC_EVENT_INFO_STATUS_TX_TIMEOUT
  | LORAMAC_EVENT_INFO_STATUS_RX1_TIMEOUT
  | LORAMAC_EVENT_INFO_STATUS_RX2_TIMEOUT
  | LORAMAC_EVENT_INFO_STATUS_RX1_ERROR
  | LORAMAC_EVENT_INFO_STATUS_RX2_ERROR
  | LORAMAC_EVENT_INFO_STATUS_JOIN_FAIL
  | LORAMAC_EVENT_INFO_STATUS_DOWNLINK_REPEATED
  | LORAMAC_EVENT_INFO_STATUS_TX_DR_PAYLOAD_SIZE_ERROR
  | LORAMAC_EVENT_INFO_STATUS_DOWNLINK_TOO_MANY_FRAMES_LOSS
  | LORAMAC_EVENT_INFO_STATUS_ADDRESS_FAIL
  | LORAMAC_EVENT_INFO_STATUS_MIC_FAIL
  | LORAMAC_EVENT_INFO_STATUS_MULTICAST_FAIL
  | LORAMAC_EVENT_INFO_STATUS_BEACON_LOCKED
  | LORAMAC_EVENT_INFO_STATUS_BEACON_LOST
  | LORAMAC_EVENT_INFO_STATUS_BEACON_NOT_FOUND.

Inductive Mcps_t :=
  | MCPS_UNCONFIRMED
  | MCPS_CONFIRMED
  | MCPS_MULTICAST
  | MCPS_PROPRIETARY.

(** The MLME kinds main.c names; [MLME_OTHER] stands for every other value of
    the enumeration, which the switches send to their default branch. *)
Inductive Mlme_t :=
  | MLME_JOIN
  | MLME_LINK_CHECK
  | MLME_TXCW
  | MLME_TXCW_1
  | MLME_SCHEDULE_UPLINK
  | MLME_DEVICE_TIME
  | MLME_BEACON
  | MLME_BEACON_ACQUISITION
  | MLME_PING_SLOT_INFO
  | MLME_BEACON_TIMING
  | MLME_BEACON_LOST
  | MLME_OTHER.

Inductive ActivationType_t :=
  | ACTIVATION_TYPE_NONE
  | ACTIVATION_TYPE_ABP
  | ACTIVATION_TYPE_OTAA.

Inductive LoRaMacHandlerMsgTypes_t :=
  | LORAMAC_HANDLER_UNCONFIRMED_MSG
  | LORAMAC_HANDLER_CONFIRMED_MSG.

(** ** Requests sent to the MAC engine *)

(** MlmeReq_t: the request kind with the member of the union it uses. *)
Inductive MlmeReq_t :=
  | MlmeReq_Join (Datarate : Z)
  | MlmeReq_LinkCheck
  | MlmeReq_TxCw (Timeout : Z)
  | MlmeReq_TxCw1 (Timeout Frequency Power : Z)
  | MlmeReq_DeviceTime
  | MlmeReq_BeaconTiming
  | MlmeReq_BeaconAcquisition
  | MlmeReq_PingSlotInfo (PingSlotValue : Z).

Definition MlmeReq_Type (r : MlmeReq_t) : Mlme_t :=
  match r with
  | MlmeReq_Join _ => MLME_JOIN
  | MlmeReq_LinkCheck => MLME_LINK_CHECK
  | MlmeReq_TxCw _ => MLME_TXCW
  | MlmeReq_TxCw1 _ _ _ => MLME_TXCW_1
  | MlmeReq_DeviceTime => MLME_DEVICE_TIME
  | MlmeReq_BeaconTiming => MLME_BEACON_TIMING
  | MlmeReq_BeaconAcquisition => MLME_BEACON_ACQUISITION
  | MlmeReq_PingSlotInfo _ => MLME_PING_SLOT_INFO
  end.

(** McpsReq_t. [fBuffer] is [None] for the NULL pointer and otherwise the
    [fBufferSize] bytes the MAC reads at AppDataBuffer; [fPort] is [None]
    where [SendFrame] leaves the member unassigned. *)
Record McpsReq_t := mkMcpsReq {
  mcps_Type : Mcps_t;
  fPort : option Z;
  fBuffer : option (list Z);
  fBufferSize : Z;
  NbTrials : option Z;
  mcps_Datarate : Z
}.

(** The MIB parameters main.c writes. *)
Inductive MibSet_t :=
  | MIB_ADR (AdrEnable : bool)
  | MIB_DEVICE_CLASS (Class : Z)
  | MIB_PUBLIC_NETWORK (EnablePublicNetwork : bool)
  | MIB_SYSTEM_MAX_RX_ERROR (SystemMaxRxError : Z)
  | MIB_NETWORK_ACTIVATION (NetworkActivation : ActivationType_t)
  | MIB_ABP_LORAWAN_VERSION (Value : Z)
  | MIB_NET_ID (NetID : Z)
  | MIB_DEV_ADDR (DevAddr : Z).

(** The MIB parameters main.c reads for its printout only. *)
Module Get.
Inductive Mib_t :=
  | MIB_DEVICE_CLASS
  | MIB_CHANNELS
  | MIB_CHANNELS_MASK
  | MIB_DEV_ADDR
  | MIB_CHANNELS_DATARATE
  | MIB_DEV_EUI
  | MIB_JOIN_EUI
  | MIB_SE_PIN.
End Get.

(** ** The MAC engine, as main.c uses it

    Requests return a status and change the engine. A MIB read is a query: it
    returns a status (and a value) and leaves the engine as it is. The read of
    the network activation decides a branch and returns the value read; the
    other reads feed printf, and of them only the status is kept.
    LoRaMac.c and NvmCtxMgmt.c are not under src/: nothing is assumed about
    what these operations return. *)
Class MacEngine (M : Type) := {
  LoRaMacMlmeRequest : MlmeReq_t → M → LoRaMacStatus_t * M;
  LoRaMacMcpsRequest : McpsReq_t → M → LoRaMacStatus_t * M;
  LoRaMacQueryTxPossible : Z → M → LoRaMacStatus_t;
  LoRaMacMibGetNetworkActivation : M → LoRaMacStatus_t * ActivationType_t;
  LoRaMacMibGetRequestConfirm : Get.Mib_t → M → LoRaMacStatus_t;
  LoRaMacMibSetRequestConfirm : MibSet_t → M → M;
  LoRaMacTestSetDutyCycleOn : bool → M → M;
  LoRaMacStart : M → M;
  (* NvmCtxMgmt.c reads and writes the context of the engine; [true] is
     NVMCTXMGMT_STATUS_SUCCESS *)
  NvmCtxMgmtRestore : M → bool * M;
  NvmCtxMgmtStore : M → bool * M
}.

(** ** Callback arguments *)

(** McpsIndication_t. [Buffer] is the memory behind the pointer, by offset:
    main.c reads Buffer[0] and Buffer[1] without looking at [BufferSize]. *)
Record McpsIndication_t := mkMcpsIndication {
  ind_Status : LoRaMacEventInfoStatus_t;
  ind_McpsIndication : Mcps_t;
  FramePending : bool;
  RxData : bool;
  Port : Z;
  Buffer : Z → Z;
  BufferSize : Z
}.

Record McpsConfirm_t := mkMcpsConfirm {
  cnf_Status : LoRaMacEventInfoStatus_t;
  McpsRequest : Mcps_t
}.

Record MlmeConfirm_t := mkMlmeConfirm {
  Status : LoRaMacEventInfoStatus_t;
  MlmeRequest : Mlme_t;
  cnf_DemodMargin : Z;
  cnf_NbGateways : Z
}.

Record MlmeIndication_t := mkMlmeIndication {
  mi_Status : LoRaMacEventInfoStatus_t;
  MlmeIndication_kind : Mlme_t
}.

(** ** Program state *)

(** struct ComplianceTest_s. The members IsTxConfirmed, AppPort and
    AppDataSize exist in the struct and main.c never touches them. *)
Record ComplianceTest_s := mkComplianceTest {
  Running : bool;
  State : Z;
  ct_IsTxConfirmed : bool;
  ct_AppPort : Z;
  ct_AppDataSize : Z;
  DownLinkCounter : Z;
  LinkCheck : bool;
  DemodMargin : Z;
  NbGateways : Z
}.

(** LoRaMacHandlerAppData_t; [ad_Buffer] tells whether the pointer is
    AppDataBuffer ([true]) or NULL. *)
Record LoRaMacHandlerAppData_t := mkAppData {
  MsgType : LoRaMacHandlerMsgTypes_t;
  ad_Port : option Z;
  ad_BufferSize : Z;
  ad_Buffer : bool
}.

(** The file-scope variables of main.c. *)
Record Globals := mkGlobals {
  DevAddr : Z;
  AppPort : Z;
  AppDataSize : Z;
  AppDataSizeBackup : Z;
  AppDataBuffer : list Z;
  IsTxConfirmed : bool;
  TxDutyCycleTime : Z;
  AppLedStateOn : bool;
  NextTx : bool;
  IsMacProcessPending : Z;
  DeviceState : eDeviceState;
  WakeUpState : eDeviceState;
  ComplianceTest : ComplianceTest_s;
  AppData : LoRaMacHandlerAppData_t
}.

(** Modelled from the spec: the timer and GPIO drivers (timer.c, gpio.c) are
    not under src/. A timer is a one-shot countdown with a duration that is
    started and stopped; an indicator output holds the last value written. *)
Record TimerEvent_t := mkTimer {
  ReloadValue : Z;
  IsStarted : bool
}.

Record Board := mkBoard {
  TxNextPacketTimer : TimerEvent_t;
  Led4Timer : TimerEvent_t;
  Led2Timer : TimerEvent_t;
  LedBeaconTimer : TimerEvent_t;
  Led4 : Z;
  Led2 : Z;
  Led3 : Z
}.

Definition TimerInit : TimerEvent_t := mkTimer 0 false.
Definition TimerSetValue (v : Z) (t : TimerEvent_t) : TimerEvent_t :=
  mkTimer v (IsStarted t).
Definition TimerStart (t : TimerEvent_t) : TimerEvent_t :=
  mkTimer (ReloadValue t) true.
Definition TimerStop (t : TimerEvent_t) : TimerEvent_t :=
  mkTimer (ReloadValue t) false.

(** What the board hands to one pass of the main loop. *)
Record BoardInputs := mkBoardInputs {
  BoardGetPotiLevel : Z;
  BoardGetBatteryVoltage : Z;
  rand1 : Z
}.

(** Modelled from the spec: randr of utilities.c is not under src/. The spec
    gives the jitter as a draw from the window between the two bounds; the
    draw [raw] of the generator is reduced into [min, max]. *)
Definition randr (min max raw : Z) : Z := raw mod (max - min + 1) + min.

(** ** Field updates *)

Definition set_Running v (c : ComplianceTest_s) :=
  let '(mkComplianceTest _ b c d e f g h i) := c in mkComplianceTest v b c d e f g h i.
Definition set_State v (c : ComplianceTest_s) :=
  let '(mkComplianceTest a _ c d e f g h i) := c in mkComplianceTest a v c d e f g h i.
Definition set_DownLinkCounter v (c : ComplianceTest_s) :=
  let '(mkComplianceTest a b c d e _ g h i) := c in mkComplianceTest a b c d e v g h i.
Definition set_LinkCheck v (c : ComplianceTest_s) :=
  let '(mkComplianceTest a b c d e f _ h i) := c in mkComplianceTest a b c d e f v h i.
Definition set_DemodMargin v (c : ComplianceTest_s) :=
  let '(mkComplianceTest a b c d e f g _ i) := c in mkComplianceTest a b c d e f g v i.
Definition set_NbGateways v (c : ComplianceTest_s) :=
  let '(mkComplianceTest a b c d e f g h _) := c in mkComplianceTest a b c d e f g h v.

Definition set_DevAddr v (x : Globals) :=
  let '(mkGlobals _ b c d e f g h i j k l m n) := x in mkGlobals v b c d e f g h i j k l m n.
Definition set_AppPort v (x : Globals) :=
  let '(mkGlobals a _ c d e f g h i j k l m n) := x in mkGlobals a v c d e f g h i j k l m n.
Definition set_AppDataSize v (x : Globals) :=
  let '(mkGlobals a b _ d e f g h i j k l m n) := x in mkGlobals a b v d e f g h i j k l m n.
Definition set_AppDataSizeBackup v (x : Globals) :=
  let '(mkGlobals a b c _ e f g h i j k l m n) := x in mkGlobals a b c v e f g h i j k l m n.
Definition set_AppDataBuffer v (x : Globals) :=
  let '(mkGlobals a b c d _ f g h i j k l m n) := x in mkGlobals a b c d v f g h i j k l m n.
Definition set_IsTxConfirmed v (x : Globals) :=
  let '(mkGlobals a b c d e _ g h i j k l m n) := x in mkGlobals a b c d e v g h i j k l m n.
Definition set_TxDutyCycleTime v (x : Globals) :=
  let '(mkGlobals a b c d e f _ h i j k l m n) := x in mkGlobals a b c d e f v h i j k l m n.
Definition set_AppLedStateOn v (x : Globals) :=
  let '(mkGlobals a b c d e f g _ i j k l m n) := x in mkGlobals a b c d e f g v i j k l m n.
Definition set_NextTx v (x : Globals) :=
  let '(mkGlobals a b c d e f g h _ j k l m n) := x in mkGlobals a b c d e f g h v j k l m n.
Definition set_IsMacProcessPending v (x : Globals) :=
  let '(mkGlobals a b c d e f g h i _ k l m n) := x in mkGlobals a b c d e f g h i v k l m n.
Definition set_DeviceState v (x : Globals) :=
  let '(mkGlobals a b c d e f g h i j _ l m n) := x in mkGlobals a b c d e f g h i j v l m n.
Definition set_WakeUpState v (x : Globals) :=
  let '(mkGlobals a b c d e f g h i j k _ m n) := x in mkGlobals a b c d e f g h i j k v m n.
Definition set_ComplianceTest v (x : Globals) :=
  let '(mkGlobals a b c d e f g h i j k l _ n) := x in mkGlobals a b c d e f g h i j k l v n.
Definition set_AppData v (x : Globals) :=
  let '(mkGlobals a b c d e f g h i j k l m _) := x in mkGlobals a b c d e f g h i j k l m v.

Definition set_TxNextPacketTimer v (x : Board) :=
  let '(mkBoard _ b c d e f g) := x in mkBoard v b c d e f g.
Definition set_Led4Timer v (x : Board) :=
  let '(mkBoard a _ c d e f g) := x in mkBoard a v c d e f g.
Definition set_Led2Timer v (x : Board) :=
  let '(mkBoard a b _ d e f g) := x in mkBoard a b v d e f g.
Definition set_LedBeaconTimer v (x : Board) :=
  let '(mkBoard a b c _ e f g) := x in mkBoard a b c v e f g.
Definition set_Led4 v (x : Board) :=
  let '(mkBoard a b c d _ f g) := x in mkBoard a b c d v f g.
Definition set_Led2 v (x : Board) :=
  let '(mkBoard a b c d e _ g) := x in mkBoard a b c d e v g.
Definition set_Led3 v (x : Board) :=
  let '(mkBoard a b c d e f _) := x in mkBoard a b c d e f v.

(** ** System state: the variables of main.c, the board and the MAC engine *)

Record Sys (M : Type) := mkSys {
  g : Globals;
  hw : Board;
  mac : M
}.

Arguments mkSys {M} _ _ _.
Arguments g {M} _.
Arguments hw {M} _.
Arguments mac {M} _.

Definition upd_g {M} (f : Globals → Globals) (s : Sys M) : Sys M :=
  mkSys (f (g s)) (hw s) (mac s).
Definition upd_ct {M} (f : ComplianceTest_s → ComplianceTest_s) (s : Sys M) : Sys M :=
  upd_g (fun x => set_ComplianceTest (f (ComplianceTest x)) x) s.
Definition upd_hw {M} (f : Board → Board) (s : Sys M) : Sys M :=
  mkSys (g s) (f (hw s)) (mac s).
Definition set_mac {M} (m : M) (s : Sys M) : Sys M :=
  mkSys (g s) (hw s) m.

(** AppDataBuffer[i] = v *)
Definition write_buf (i : nat) (v : Z) (x : Globals) : Globals :=
  set_AppDataBuffer (<[i := v]> (AppDataBuffer x)) x.

(** The bytes an uplink carries: AppDataSize bytes read at AppDataBuffer
    (reads past the 242 bytes of the array are not modelled). *)
Definition tx_payload (x : Globals) : list Z :=
  take (Z.to_nat (AppDataSize x)) (AppDataBuffer x).

(** The loop of compliance step 4:
    for (i = 1; i < bound; i++) AppDataBuffer[i] = Buffer[i] + 1;
    [bound] is at most 242, so the uint8 counter never wraps. *)
Definition echo_loop (bound : Z) (rx : Z → Z) (buf : list Z) : list Z :=
  foldl (fun b i => <[i := to_uint8 (rx (Z.of_nat i) + 1)]> b) buf
        (seq 1 (Z.to_nat bound - 1)).

(** The static initialisers of main.c. *)
Definition ComplianceTest_init : ComplianceTest_s :=
  mkComplianceTest false 0 false 0 0 0 false 0 0.

Definition AppData_init : LoRaMacHandlerAppData_t :=
  mkAppData LORAMAC_HANDLER_UNCONFIRMED_MSG (Some 0) 0 false.

Definition Board_init : Board :=
  mkBoard TimerInit TimerInit TimerInit TimerInit 0 0 0.

(** ** PrintHexBuffer

    The characters the function hands to printf, in order. *)

Definition hex_digit (d : Z) : ascii :=
  match d with
  | 0 => "0" | 1 => "1" | 2 => "2" | 3 => "3"
  | 4 => "4" | 5 => "5" | 6 => "6" | 7 => "7"
  | 8 => "8" | 9 => "9" | 10 => "A" | 11 => "B"
  | 12 => "C" | 13 => "D" | 14 => "E" | 15 => "F"
  | _ => "?"
  end%char.

Definition newline_char : ascii := "010"%char.

(** printf( "%02X ", b ) for a uint8 b *)
Definition hex_byte (b : Z) : list ascii :=
  [hex_digit (b / 16); hex_digit (b mod 16); " "%char].

(** The for loop: [remaining] is size - i, [newline] the local flag. *)
Fixpoint PrintHexBuffer_loop (buffer : Z → Z) (remaining : nat) (i newline : Z)
  : list ascii :=
  match remaining with
  | O => []
  | S r =>
      (if negb (newline =? 0) then [newline_char] else [])
      ++ hex_byte (to_uint8 (buffer i))
      ++ PrintHexBuffer_loop buffer r (i + 1) (if (i + 1) mod 16 =? 0 then 1 else 0)
  end.

Definition PrintHexBuffer (buffer : Z → Z) (size : Z) : list ascii :=
  PrintHexBuffer_loop buffer (Z.to_nat size) 0 0 ++ [newline_char].

Section Program.

Context {M : Type} {mac_engine : MacEngine M}.
Variable cfg : BuildConfig.

(** The state of the post-join acquisition branch chosen by the build. *)
Definition timing_request_state : eDeviceState :=
  if USE_BEACON_TIMING cfg then DEVICE_STATE_REQ_BEACON_TIMING
  else DEVICE_STATE_REQ_DEVICE_TIME.

(** LoRaMacTestSetDutyCycleOn, compiled in for the duty-cycle regions only. *)
Definition TestSetDutyCycleOn (b : bool) (s : Sys M) : Sys M :=
  if DUTYCYCLE_REGION cfg then set_mac (LoRaMacTestSetDutyCycleOn b (mac s)) s else s.

Definition MibSet (r : MibSet_t) (s : Sys M) : Sys M :=
  set_mac (LoRaMacMibSetRequestConfirm r (mac s)) s.

(** Issues an MLME request and keeps the status. *)
Definition MlmeRequest_st (r : MlmeReq_t) (s : Sys M) : LoRaMacStatus_t * Sys M :=
  let (status, m) := LoRaMacMlmeRequest r (mac s) in (status, set_mac m s).

(** ** JoinNetwork *)
Definition JoinNetwork (s : Sys M) : Sys M :=
  let mlmeReq := MlmeReq_Join LORAWAN_DEFAULT_DATARATE in
  let (status, s) := MlmeRequest_st mlmeReq s in
  match status with
  | LORAMAC_STATUS_OK => upd_g (set_DeviceState DEVICE_STATE_SLEEP) s
  | _ => upd_g (set_DeviceState DEVICE_STATE_CYCLE) s
  end.

(** ** PrepareTxFrame *)
Definition PrepareTxFrame (inp : BoardInputs) (port : Z) (s : Sys M) : Sys M :=
  if port =? 3 then
    let potiPercentage := to_uint8 (BoardGetPotiLevel inp) in
    let vdd := to_uint16 (BoardGetBatteryVoltage inp) in
    upd_g (fun x =>
      let x := set_AppDataSize 4 x in
      let x := set_AppDataSizeBackup 4 x in
      let x := write_buf 0 (if AppLedStateOn x then 1 else 0) x in
      let x := write_buf 1 potiPercentage x in
      let x := write_buf 2 (Z.land (Z.shiftr vdd 8) 255) x in
      write_buf 3 (Z.land vdd 255) x) s
  else if port =? 224 then
    let ct := ComplianceTest (g s) in
    if LinkCheck ct then
      let s := upd_ct (set_LinkCheck false) s in
      let s := upd_g (set_AppDataSize 3) s in
      let s := upd_g (write_buf 0 5) s in
      let s := upd_g (write_buf 1 (DemodMargin ct)) s in
      let s := upd_g (write_buf 2 (NbGateways ct)) s in
      upd_ct (set_State 1) s
    else if State ct =? 4 then
      upd_ct (set_State 1) s
    else if State ct =? 1 then
      let s := upd_g (set_AppDataSize 2) s in
      let s := upd_g (write_buf 0 (to_uint8 (Z.shiftr (DownLinkCounter ct) 8))) s in
      upd_g (write_buf 1 (to_uint8 (DownLinkCounter ct))) s
    else s
  else s.

(** ** SendFrame: the request built, then the request submitted.
    The result is [true] when the frame was not accepted. *)
Definition SendFrame_request (s : Sys M) : McpsReq_t :=
  let x := g s in
  match LoRaMacQueryTxPossible (AppDataSize x) (mac s) with
  | LORAMAC_STATUS_OK =>
      if negb (IsTxConfirmed x) then
        mkMcpsReq MCPS_UNCONFIRMED (Some (AppPort x)) (Some (tx_payload x))
                  (AppDataSize x) None LORAWAN_DEFAULT_DATARATE
      else
        mkMcpsReq MCPS_CONFIRMED (Some (AppPort x)) (Some (tx_payload x))
                  (AppDataSize x) (Some 8) LORAWAN_DEFAULT_DATARATE
  | _ =>
      (* empty frame, to flush the MAC commands *)
      mkMcpsReq MCPS_UNCONFIRMED None None 0 None LORAWAN_DEFAULT_DATARATE
  end.

Definition SendFrame (s : Sys M) : bool * Sys M :=
  let mcpsReq := SendFrame_request s in
  let s := upd_g (set_AppData
             (mkAppData
                (match mcps_Type mcpsReq with
                 | MCPS_CONFIRMED => LORAMAC_HANDLER_CONFIRMED_MSG
                 | _ => LORAMAC_HANDLER_UNCONFIRMED_MSG
                 end)
                (fPort mcpsReq)
                (fBufferSize mcpsReq)
                (match fBuffer mcpsReq with Some _ => true | None => false end))) s in
  let (status, m) := LoRaMacMcpsRequest mcpsReq (mac s) in
  let s := set_mac m s in
  match status with
  | LORAMAC_STATUS_OK => (false, s)
  | _ => (true, s)
  end.

(** ** Timer callbacks *)
Definition OnTxNextPacketTimerEvent (s : Sys M) : Sys M :=
  let s := upd_hw (fun b => set_TxNextPacketTimer (TimerStop (TxNextPacketTimer b)) b) s in
  let (status, activation) := LoRaMacMibGetNetworkActivation (mac s) in
  match status with
  | LORAMAC_STATUS_OK =>
      match activation with
      | ACTIVATION_TYPE_NONE => JoinNetwork s
      | _ => upd_g (fun x => set_NextTx true (set_DeviceState (WakeUpState x) x)) s
      end
  | _ => s
  end.

Definition OnLed4TimerEvent (s : Sys M) : Sys M :=
  upd_hw (fun b => set_Led4 0 (set_Led4Timer (TimerStop (Led4Timer b)) b)) s.

Definition OnLed2TimerEvent (s : Sys M) : Sys M :=
  upd_hw (fun b => set_Led2 0 (set_Led2Timer (TimerStop (Led2Timer b)) b)) s.

Definition OnLedBeaconTimerEvent (s : Sys M) : Sys M :=
  upd_hw (fun b =>
    let b := set_Led2 1 b in
    let b := set_Led2Timer (TimerStart (Led2Timer b)) b in
    set_LedBeaconTimer (TimerStart (LedBeaconTimer b)) b) s.

Definition OnMacProcessNotify (s : Sys M) : Sys M :=
  upd_g (set_IsMacProcessPending 1) s.

(** ** McpsConfirm *)
Definition McpsConfirm (mcpsConfirm : McpsConfirm_t) (s : Sys M) : Sys M :=
  let s :=
    match cnf_Status mcpsConfirm with
    | LORAMAC_EVENT_INFO_STATUS_OK =>
        upd_hw (fun b => set_Led4Timer (TimerStart (Led4Timer b)) (set_Led4 1 b)) s
    | _ => s
    end in
  (* whatever the status: the class is read and printed, then the channel
     list and the channel mask, each printed when its read returns OK *)
  let class_read := LoRaMacMibGetRequestConfirm Get.MIB_DEVICE_CLASS (mac s) in
  let channels_read := LoRaMacMibGetRequestConfirm Get.MIB_CHANNELS (mac s) in
  let mask_read := LoRaMacMibGetRequestConfirm Get.MIB_CHANNELS_MASK (mac s) in
  s.

(** ** McpsIndication *)

(** The compliance test enable command: four bytes, all 0x01. *)
Definition is_enable_command (ind : McpsIndication_t) : bool :=
  (BufferSize ind =? 4) && (Buffer ind 0 =? 1) && (Buffer ind 1 =? 1)
  && (Buffer ind 2 =? 1) && (Buffer ind 3 =? 1).

(** The block that compliance steps 0 and 6 both start with. *)
Definition compliance_disable (s : Sys M) : Sys M :=
  let s := upd_g (set_IsTxConfirmed LORAWAN_CONFIRMED_MSG_ON) s in
  let s := upd_g (set_AppPort LORAWAN_APP_PORT) s in
  let s := upd_g (fun x => set_AppDataSize (AppDataSizeBackup x) x) s in
  let s := upd_ct (set_DownLinkCounter 0) s in
  let s := upd_ct (set_Running false) s in
  let s := MibSet (MIB_ADR LORAWAN_ADR_ON) s in
  TestSetDutyCycleOn LORAWAN_DUTYCYCLE_ON s.

(** case 224 of the port switch, ComplianceTest.Running == false *)
Definition compliance_enable (ind : McpsIndication_t) (s : Sys M) : Sys M :=
  if is_enable_command ind then
    let s := upd_g (set_IsTxConfirmed false) s in
    let s := upd_g (set_AppPort 224) s in
    let s := upd_g (fun x => set_AppDataSizeBackup (AppDataSize x) x) s in
    let s := upd_g (set_AppDataSize 2) s in
    let s := upd_ct (set_DownLinkCounter 0) s in
    let s := upd_ct (set_LinkCheck false) s in
    let s := upd_ct (set_DemodMargin 0) s in
    let s := upd_ct (set_NbGateways 0) s in
    let s := upd_ct (set_Running true) s in
    let s := upd_ct (set_State 1) s in
    let s := MibSet (MIB_ADR true) s in
    TestSetDutyCycleOn false s
  else s.

(** case 224 of the port switch, ComplianceTest.Running == true *)
Definition compliance_command (ind : McpsIndication_t) (s : Sys M) : Sys M :=
  let s := upd_ct (set_State (Buffer ind 0)) s in
  let st := State (ComplianceTest (g s)) in
  if st =? 0 then compliance_disable s
  else if st =? 1 then upd_g (set_AppDataSize 2) s
  else if st =? 2 then
    upd_ct (set_State 1) (upd_g (set_IsTxConfirmed true) s)
  else if st =? 3 then
    upd_ct (set_State 1) (upd_g (set_IsTxConfirmed false) s)
  else if st =? 4 then
    let s := upd_g (set_AppDataSize (BufferSize ind)) s in
    let s := upd_g (write_buf 0 4) s in
    upd_g (fun x =>
      set_AppDataBuffer
        (echo_loop (Z.min (AppDataSize x) LORAWAN_APP_DATA_MAX_SIZE)
                   (Buffer ind) (AppDataBuffer x)) x) s
  else if st =? 5 then
    snd (MlmeRequest_st MlmeReq_LinkCheck s)
  else if st =? 6 then
    JoinNetwork (compliance_disable s)
  else if st =? 7 then
    let timeout :=
      to_uint16 (Z.lor (Z.shiftl (Buffer ind 1) 8) (Buffer ind 2)) in
    let s :=
      if BufferSize ind =? 3 then
        snd (MlmeRequest_st (MlmeReq_TxCw timeout) s)
      else if BufferSize ind =? 7 then
        snd (MlmeRequest_st
               (MlmeReq_TxCw1 timeout
                  (to_uint32
                     (to_uint32 (Z.lor (Z.lor (Z.shiftl (Buffer ind 3) 16)
                                              (Z.shiftl (Buffer ind 4) 8))
                                       (Buffer ind 5)) * 100))
                  (Buffer ind 6)) s)
      else s in
    upd_ct (set_State 1) s
  else if st =? 8 then
    let s := snd (MlmeRequest_st MlmeReq_DeviceTime s) in
    let s := upd_g (set_WakeUpState DEVICE_STATE_SEND) s in
    upd_g (set_DeviceState DEVICE_STATE_SEND) s
  else if st =? 9 then
    let s := MibSet (MIB_DEVICE_CLASS (Buffer ind 1)) s in
    upd_g (set_DeviceState DEVICE_STATE_SEND) s
  else if st =? 10 then
    let s := snd (MlmeRequest_st (MlmeReq_PingSlotInfo (Buffer ind 1)) s) in
    let s := upd_g (set_WakeUpState DEVICE_STATE_SEND) s in
    upd_g (set_DeviceState DEVICE_STATE_SEND) s
  else if st =? 11 then
    let s := snd (MlmeRequest_st MlmeReq_BeaconTiming s) in
    let s := upd_g (set_WakeUpState DEVICE_STATE_SEND) s in
    upd_g (set_DeviceState DEVICE_STATE_SEND) s
  else s.

(** switch( mcpsIndication->Port ) *)
Definition port_dispatch (ind : McpsIndication_t) (s : Sys M) : Sys M :=
  if (Port ind =? 1) || (Port ind =? 2) then
    if BufferSize ind =? 1 then
      let s := upd_g (set_AppLedStateOn (negb (Z.land (Buffer ind 0) 1 =? 0))) s in
      upd_hw (set_Led3 (if AppLedStateOn (g s) then 1 else 0)) s
    else s
  else if Port ind =? 224 then
    if negb (Running (ComplianceTest (g s))) then compliance_enable ind s
    else compliance_command ind s
  else s.

Definition McpsIndication (ind : McpsIndication_t) (s : Sys M) : Sys M :=
  match ind_Status ind with
  | LORAMAC_EVENT_INFO_STATUS_OK =>
      let s := if FramePending ind then OnTxNextPacketTimerEvent s else s in
      let s :=
        if Running (ComplianceTest (g s)) then
          upd_ct (fun c => set_DownLinkCounter (to_uint16 (DownLinkCounter c + 1)) c) s
        else s in
      let s := if RxData ind then port_dispatch ind s else s in
      (* LED 2 is switched on for each received downlink *)
      upd_hw (fun b => set_Led2Timer (TimerStart (Led2Timer b)) (set_Led2 1 b)) s
  | _ => s
  end.

(** ** MlmeConfirm *)
Definition MlmeConfirm (mlmeConfirm : MlmeConfirm_t) (s : Sys M) : Sys M :=
  match MlmeRequest mlmeConfirm with
  | MLME_JOIN =>
      match Status mlmeConfirm with
      | LORAMAC_EVENT_INFO_STATUS_OK =>
          (* the device address and the data rate are read and printed *)
          let addr_read := LoRaMacMibGetRequestConfirm Get.MIB_DEV_ADDR (mac s) in
          let datarate_read :=
            LoRaMacMibGetRequestConfirm Get.MIB_CHANNELS_DATARATE (mac s) in
          upd_g (set_DeviceState timing_request_state) s
      | _ => JoinNetwork s
      end
  | MLME_LINK_CHECK =>
      match Status mlmeConfirm with
      | LORAMAC_EVENT_INFO_STATUS_OK =>
          if Running (ComplianceTest (g s)) then
            let s := upd_ct (set_LinkCheck true) s in
            let s := upd_ct (set_DemodMargin (cnf_DemodMargin mlmeConfirm)) s in
            upd_ct (set_NbGateways (cnf_NbGateways mlmeConfirm)) s
          else s
      | _ => s
      end
  | MLME_DEVICE_TIME =>
      let s := upd_g (set_WakeUpState DEVICE_STATE_SEND) s in
      let s := upd_g (set_DeviceState DEVICE_STATE_BEACON_ACQUISITION) s in
      upd_g (set_NextTx true) s
  | MLME_BEACON_TIMING =>
      let s := upd_g (set_WakeUpState DEVICE_STATE_SEND) s in
      let s := upd_g (set_DeviceState DEVICE_STATE_BEACON_ACQUISITION) s in
      upd_g (set_NextTx true) s
  | MLME_BEACON_ACQUISITION =>
      match Status mlmeConfirm with
      | LORAMAC_EVENT_INFO_STATUS_OK =>
          upd_g (set_WakeUpState DEVICE_STATE_REQ_PINGSLOT_ACK) s
      | _ => upd_g (set_WakeUpState timing_request_state) s
      end
  | MLME_PING_SLOT_INFO =>
      match Status mlmeConfirm with
      | LORAMAC_EVENT_INFO_STATUS_OK =>
          let s := MibSet (MIB_DEVICE_CLASS CLASS_B) s in
          let s := upd_g (set_WakeUpState DEVICE_STATE_SEND) s in
          let s := upd_g (fun x => set_DeviceState (WakeUpState x) x) s in
          upd_g (set_NextTx true) s
      | _ => upd_g (set_WakeUpState DEVICE_STATE_REQ_PINGSLOT_ACK) s
      end
  | _ => s
  end.

(** ** MlmeIndication *)
Definition MlmeIndication (mlmeIndication : MlmeIndication_t) (s : Sys M) : Sys M :=
  match MlmeIndication_kind mlmeIndication with
  | MLME_SCHEDULE_UPLINK => OnTxNextPacketTimerEvent s
  | MLME_BEACON_LOST =>
      let s := MibSet (MIB_DEVICE_CLASS CLASS_A) s in
      let s := upd_g (set_WakeUpState timing_request_state) s in
      upd_hw (fun b => set_LedBeaconTimer (TimerStop (LedBeaconTimer b)) b) s
  | MLME_BEACON =>
      match mi_Status mlmeIndication with
      | LORAMAC_EVENT_INFO_STATUS_BEACON_LOCKED =>
          upd_hw (fun b => set_LedBeaconTimer (TimerStart (LedBeaconTimer b)) b) s
      | _ =>
          upd_hw (fun b => set_LedBeaconTimer (TimerStop (LedBeaconTimer b)) b) s
      end
  | _ => s
  end.

(** ** One pass of the switch in the main loop *)
Definition main_step (inp : BoardInputs) (s : Sys M) : Sys M :=
  match DeviceState (g s) with
  | DEVICE_STATE_RESTORE =>
      let (restored, m) := NvmCtxMgmtRestore (mac s) in
      let s := set_mac m s in
      let s :=
        if restored then s
        else
          (* DEV_EUI, JOIN_EUI and SE_PIN are read into locals of main that
             nothing reads afterwards *)
          let dev_eui_read := LoRaMacMibGetRequestConfirm Get.MIB_DEV_EUI (mac s) in
          let join_eui_read := LoRaMacMibGetRequestConfirm Get.MIB_JOIN_EUI (mac s) in
          let se_pin_read := LoRaMacMibGetRequestConfirm Get.MIB_SE_PIN (mac s) in
          if OVER_THE_AIR_ACTIVATION cfg then s
          else
            let s :=
              MibSet (MIB_ABP_LORAWAN_VERSION (ABP_ACTIVATION_LRWAN_VERSION cfg)) s in
            let s := MibSet (MIB_NET_ID (LORAWAN_NETWORK_ID cfg)) s in
            let s :=
              if STATIC_DEVICE_ADDRESS cfg then s
              else upd_g (set_DevAddr (to_uint32 (randr 0 33554431 (rand1 inp)))) s in
            MibSet (MIB_DEV_ADDR (DevAddr (g s))) s in
      upd_g (set_DeviceState DEVICE_STATE_START) s
  | DEVICE_STATE_START =>
      let s := upd_hw (set_TxNextPacketTimer TimerInit) s in
      let s := upd_hw (set_Led4Timer (TimerSetValue 25 TimerInit)) s in
      let s := upd_hw (set_Led2Timer (TimerSetValue 25 TimerInit)) s in
      let s := upd_hw (set_LedBeaconTimer (TimerSetValue 5000 TimerInit)) s in
      let s := MibSet (MIB_PUBLIC_NETWORK (LORAWAN_PUBLIC_NETWORK cfg)) s in
      let s := MibSet (MIB_ADR LORAWAN_ADR_ON) s in
      let s := TestSetDutyCycleOn LORAWAN_DUTYCYCLE_ON s in
      let s := MibSet (MIB_SYSTEM_MAX_RX_ERROR 20) s in
      let s := set_mac (LoRaMacStart (mac s)) s in
      let (status, activation) := LoRaMacMibGetNetworkActivation (mac s) in
      match status with
      | LORAMAC_STATUS_OK =>
          match activation with
          | ACTIVATION_TYPE_NONE => upd_g (set_DeviceState DEVICE_STATE_JOIN) s
          | _ => upd_g (set_NextTx true) (upd_g (set_DeviceState DEVICE_STATE_SEND) s)
          end
      | _ => s
      end
  | DEVICE_STATE_JOIN =>
      (* DEV_EUI, JOIN_EUI and SE_PIN are read and printed *)
      let dev_eui_read := LoRaMacMibGetRequestConfirm Get.MIB_DEV_EUI (mac s) in
      let join_eui_read := LoRaMacMibGetRequestConfirm Get.MIB_JOIN_EUI (mac s) in
      let se_pin_read := LoRaMacMibGetRequestConfirm Get.MIB_SE_PIN (mac s) in
      if OVER_THE_AIR_ACTIVATION cfg then JoinNetwork s
      else
        let s := MibSet (MIB_NETWORK_ACTIVATION ACTIVATION_TYPE_ABP) s in
        upd_g (set_DeviceState timing_request_state) s
  | DEVICE_STATE_REQ_DEVICE_TIME =>
      let s :=
        if NextTx (g s) then
          let (status, s) := MlmeRequest_st MlmeReq_DeviceTime s in
          match status with
          | LORAMAC_STATUS_OK => upd_g (set_WakeUpState DEVICE_STATE_SEND) s
          | _ => s
          end
        else s in
      upd_g (set_DeviceState DEVICE_STATE_SEND) s
  | DEVICE_STATE_REQ_BEACON_TIMING =>
      let s :=
        if NextTx (g s) then
          let (status, s) := MlmeRequest_st MlmeReq_BeaconTiming s in
          match status with
          | LORAMAC_STATUS_OK => upd_g (set_WakeUpState DEVICE_STATE_SEND) s
          | _ => s
          end
        else s in
      upd_g (set_DeviceState DEVICE_STATE_SEND) s
  | DEVICE_STATE_BEACON_ACQUISITION =>
      let s :=
        if NextTx (g s) then
          let s := snd (MlmeRequest_st MlmeReq_BeaconAcquisition s) in
          upd_g (set_NextTx false) s
        else s in
      upd_g (set_DeviceState DEVICE_STATE_SEND) s
  | DEVICE_STATE_REQ_PINGSLOT_ACK =>
      let s :=
        if NextTx (g s) then
          let s := snd (MlmeRequest_st MlmeReq_LinkCheck s) in
          let (status, s) :=
            MlmeRequest_st
              (MlmeReq_PingSlotInfo
                 (Z.lor LORAWAN_DEFAULT_PING_SLOT_PERIODICITY (Z.shiftl 0 3))) s in
          match status with
          | LORAMAC_STATUS_OK => upd_g (set_WakeUpState DEVICE_STATE_SEND) s
          | _ => s
          end
        else s in
      upd_g (set_DeviceState DEVICE_STATE_SEND) s
  | DEVICE_STATE_SEND =>
      let s :=
        if NextTx (g s) then
          let s := PrepareTxFrame inp (AppPort (g s)) s in
          let (retry, s) := SendFrame s in
          upd_g (set_NextTx retry) s
        else s in
      upd_g (set_DeviceState DEVICE_STATE_CYCLE) s
  | DEVICE_STATE_CYCLE =>
      let s := upd_g (set_DeviceState DEVICE_STATE_SLEEP) s in
      let s :=
        if Running (ComplianceTest (g s)) then
          upd_g (set_TxDutyCycleTime 5000) s
        else
          upd_g (set_TxDutyCycleTime
                   (to_uint32 (APP_TX_DUTYCYCLE
                               + randr (- APP_TX_DUTYCYCLE_RND) APP_TX_DUTYCYCLE_RND
                                       (rand1 inp)))) s in
      upd_hw (fun b =>
        set_TxNextPacketTimer
          (TimerStart (TimerSetValue (TxDutyCycleTime (g s)) (TxNextPacketTimer b))) b) s
  | DEVICE_STATE_SLEEP =>
      let s := set_mac (snd (NvmCtxMgmtStore (mac s))) s in
      if IsMacProcessPending (g s) =? 1 then upd_g (set_IsMacProcessPending 0) s
      else s (* BoardLowPowerHandler: the MCU waits for the next event *)
  | DEVICE_STATE_SWITCH_CLASS =>
      (* no case of its own: the default branch *)
      upd_g (set_DeviceState DEVICE_STATE_START) s
  end.

(** The state when the main loop is entered: the static initialisers and
    the two assignments in front of the loop. *)
Definition init (m0 : M) : Sys M :=
  mkSys
    (mkGlobals (LORAWAN_DEVICE_ADDRESS cfg) LORAWAN_APP_PORT 4 4
               (replicate (Z.to_nat LORAWAN_APP_DATA_MAX_SIZE) 0)
               LORAWAN_CONFIRMED_MSG_ON 0 false true 0
               DEVICE_STATE_RESTORE DEVICE_STATE_START
               ComplianceTest_init AppData_init)
    Board_init m0.

(** ** Executions

    Between two passes of the switch, Radio.IrqProcess, LoRaMacProcess and
    the timer interrupts run the callbacks. An execution is a sequence of
    events, each run to completion; [EvMacProgress] is the engine changing
    its own state. *)
Inductive Event :=
  | EvMainLoop (inp : BoardInputs)
  | EvTxNextPacketTimer
  | EvLed4Timer
  | EvLed2Timer
  | EvLedBeaconTimer
  | EvMacProcessNotify
  | EvMacProgress (f : M → M)
  | EvMcpsConfirm (c : McpsConfirm_t)
  | EvMcpsIndication (i : McpsIndication_t)
  | EvMlmeConfirm (c : MlmeConfirm_t)
  | EvMlmeIndication (i : MlmeIndication_t).

Definition step (s : Sys M) (e : Event) : Sys M :=
  match e with
  | EvMainLoop inp => main_step inp s
  | EvTxNextPacketTimer => OnTxNextPacketTimerEvent s
  | EvLed4Timer => OnLed4TimerEvent s
  | EvLed2Timer => OnLed2TimerEvent s
  | EvLedBeaconTimer => OnLedBeaconTimerEvent s
  | EvMacProcessNotify => OnMacProcessNotify s
  | EvMacProgress f => set_mac (f (mac s)) s
  | EvMcpsConfirm c => McpsConfirm c s
  | EvMcpsIndication i => McpsIndication i s
  | EvMlmeConfirm c => MlmeConfirm c s
  | EvMlmeIndication i => MlmeIndication i s
  end.

Definition run (evs : list Event) (s : Sys M) : Sys M := foldl step s evs.

End Program.

Arguments Event : clear implicits.

(** ** A MAC engine to run the program on

    The engine answers every request with the status its [accept] flag
    selects, records the requests it was given and stores the device class
    and the activation written through the MIB. *)
Module SimMac.

Record t := mk {
  accept : bool;
  activation : ActivationType_t;
  device_class : Z;
  mlme_log : list MlmeReq_t;
  mcps_log : list McpsReq_t
}.

Definition status (m : t) : LoRaMacStatus_t :=
  if accept m then LORAMAC_STATUS_OK else LORAMAC_STATUS_DUTYCYCLE_RESTRICTED.

Definition mlme_request (r : MlmeReq_t) (m : t) : LoRaMacStatus_t * t :=
  (status m,
   mk (accept m) (activation m) (device_class m) (r :: mlme_log m) (mcps_log m)).

Definition mcps_request (r : McpsReq_t) (m : t) : LoRaMacStatus_t * t :=
  (status m,
   mk (accept m) (activation m) (device_class m) (mlme_log m) (r :: mcps_log m)).

Definition mib_set (r : MibSet_t) (m : t) : t :=
  match r with
  | MIB_DEVICE_CLASS c => mk (accept m) (activation m) c (mlme_log m) (mcps_log m)
  | MIB_NETWORK_ACTIVATION a =>
      mk (accept m) a (device_class m) (mlme_log m) (mcps_log m)
  | _ => m
  end.

#[global] Instance engine : MacEngine t := {|
  LoRaMacMlmeRequest := mlme_request;
  LoRaMacMcpsRequest := mcps_request;
  LoRaMacQueryTxPossible := fun _ m => status m;
  LoRaMacMibGetNetworkActivation := fun m => (LORAMAC_STATUS_OK, activation m);
  LoRaMacMibGetRequestConfirm := fun _ _ => LORAMAC_STATUS_OK;
  LoRaMacMibSetRequestConfirm := mib_set;
  LoRaMacTestSetDutyCycleOn := fun _ m => m;
  LoRaMacStart := fun m => m;
  NvmCtxMgmtRestore := fun m => (false, m);
  NvmCtxMgmtStore := fun m => (true, m)
|}.

(** An engine that accepts requests and one that refuses them, neither joined. *)
Definition accepting : t := mk true ACTIVATION_TYPE_NONE CLASS_A [] [].
Definition refusing : t := mk false ACTIVATION_TYPE_NONE CLASS_A [] [].

End SimMac.

(** * The I2C driver (system/i2c.c)

    The functions of i2c.c guard the board driver (i2c-board.c, not under
    src/) with the flag I2cInitialized and repeat a failed write once. The
    board driver is an abstract bus with the operations i2c.c calls; the
    I2c_t object is part of the bus. A buffer passed by pointer is the list
    of bytes behind it; the read operations return the bytes behind the
    pointer after the call. *)
Module I2c.

Inductive LmnStatus_t :=
  | LMN_STATUS_ERROR
  | LMN_STATUS_OK.

(** The values of the format parameters i2c.c names (i2c.h declares the
    enumerations). *)
Inductive I2cMode := MODE_I2C.
Inductive I2cDutyCycle := I2C_DUTY_CYCLE_2.
Inductive I2cAckAddrMode := I2C_ACK_ADD_7_BIT.

Class I2cMcu (B : Type) := {
  I2cMcuInit : Z → Z → Z → B → B;
  I2cMcuFormat : I2cMode → I2cDutyCycle → bool → I2cAckAddrMode → Z → B → B;
  I2cMcuDeInit : B → B;
  I2cMcuResetBus : B → B;
  I2cMcuWriteBuffer : Z → list Z → Z → B → LmnStatus_t * B;
  I2cMcuWriteMemBuffer : Z → Z → list Z → Z → B → LmnStatus_t * B;
  I2cMcuReadBuffer : Z → list Z → Z → B → LmnStatus_t * list Z * B;
  I2cMcuReadMemBuffer : Z → Z → list Z → Z → B → LmnStatus_t * list Z * B
}.

(** The flag of i2c.c and the bus. *)
Record Driver (B : Type) := mkDriver {
  I2cInitialized : bool;
  bus : B
}.

Arguments mkDriver {B} _ _.
Arguments I2cInitialized {B} _.
Arguments bus {B} _.

Section Driver.

Context {B : Type} {mcu : I2cMcu B}.

Definition I2cInit (i2cId scl sda : Z) (d : Driver B) : Driver B :=
  if negb (I2cInitialized d) then
    mkDriver true
      (I2cMcuFormat MODE_I2C I2C_DUTY_CYCLE_2 true I2C_ACK_ADD_7_BIT 400000
         (I2cMcuInit i2cId scl sda (bus d)))
  else d.

Definition I2cDeInit (d : Driver B) : Driver B :=
  mkDriver false (I2cMcuDeInit (bus d)).

Definition I2cResetBus (d : Driver B) : Driver B :=
  mkDriver (I2cInitialized d) (I2cMcuResetBus (bus d)).

Definition I2cWriteBuffer (deviceAddr : Z) (buffer : list Z) (size : Z) (d : Driver B)
  : LmnStatus_t * Driver B :=
  if I2cInitialized d then
    match I2cMcuWriteBuffer deviceAddr buffer size (bus d) with
    | (LMN_STATUS_ERROR, b1) =>
        (* if the first attempt fails due to an IRQ, try a second time *)
        match I2cMcuWriteBuffer deviceAddr buffer size b1 with
        | (LMN_STATUS_ERROR, b2) => (LMN_STATUS_ERROR, mkDriver true b2)
        | (_, b2) => (LMN_STATUS_OK, mkDriver true b2)
        end
    | (_, b1) => (LMN_STATUS_OK, mkDriver true b1)
    end
  else (LMN_STATUS_ERROR, d).

Definition I2cWrite (deviceAddr data : Z) (d : Driver B) : LmnStatus_t * Driver B :=
  if I2cInitialized d then
    match I2cMcuWriteBuffer deviceAddr [data] 1 (bus d) with
    | (LMN_STATUS_ERROR, b1) =>
        match I2cMcuWriteBuffer deviceAddr [data] 1 b1 with
        | (LMN_STATUS_ERROR, b2) => (LMN_STATUS_ERROR, mkDriver true b2)
        | (_, b2) => (LMN_STATUS_OK, mkDriver true b2)
        end
    | (_, b1) => (LMN_STATUS_OK, mkDriver true b1)
    end
  else (LMN_STATUS_ERROR, d).

Definition I2cWriteMemBuffer (deviceAddr addr : Z) (buffer : list Z) (size : Z)
    (d : Driver B) : LmnStatus_t * Driver B :=
  if I2cInitialized d then
    match I2cMcuWriteMemBuffer deviceAddr addr buffer size (bus d) with
    | (LMN_STATUS_ERROR, b1) =>
        match I2cMcuWriteMemBuffer deviceAddr addr buffer size b1 with
        | (LMN_STATUS_ERROR, b2) => (LMN_STATUS_ERROR, mkDriver true b2)
        | (_, b2) => (LMN_STATUS_OK, mkDriver true b2)
        end
    | (_, b1) => (LMN_STATUS_OK, mkDriver true b1)
    end
  else (LMN_STATUS_ERROR, d).

Definition I2cWriteMem (deviceAddr addr data : Z) (d : Driver B)
  : LmnStatus_t * Driver B :=
  if I2cInitialized d then
    match I2cMcuWriteMemBuffer deviceAddr addr [data] 1 (bus d) with
    | (LMN_STATUS_ERROR, b1) =>
        match I2cMcuWriteMemBuffer deviceAddr addr [data] 1 b1 with
        | (LMN_STATUS_ERROR, b2) => (LMN_STATUS_ERROR, mkDriver true b2)
        | (_, b2) => (LMN_STATUS_OK, mkDriver true b2)
        end
    | (_, b1) => (LMN_STATUS_OK, mkDriver true b1)
    end
  else (LMN_STATUS_ERROR, d).

Definition I2cReadBuffer (deviceAddr : Z) (buffer : list Z) (size : Z) (d : Driver B)
  : LmnStatus_t * list Z * Driver B :=
  if I2cInitialized d then
    let '(status, data, b1) := I2cMcuReadBuffer deviceAddr buffer size (bus d) in
    (status, data, mkDriver true b1)
  else (LMN_STATUS_ERROR, buffer, d).

Definition I2cRead (deviceAddr : Z) (data : list Z) (d : Driver B)
  : LmnStatus_t * list Z * Driver B :=
  if I2cInitialized d then
    let '(status, data, b1) := I2cMcuReadBuffer deviceAddr data 1 (bus d) in
    (status, data, mkDriver true b1)
  else (LMN_STATUS_ERROR, data, d).

Definition I2cReadMemBuffer (deviceAddr addr : Z) (buffer : list Z) (size : Z)
    (d : Driver B) : LmnStatus_t * list Z * Driver B :=
  if I2cInitialized d then
    let '(status, data, b1) := I2cMcuReadMemBuffer deviceAddr addr buffer size (bus d) in
    (status, data, mkDriver true b1)
  else (LMN_STATUS_ERROR, buffer, d).

Definition I2cReadMem (deviceAddr addr : Z) (data : list Z) (d : Driver B)
  : LmnStatus_t * list Z * Driver B :=
  if I2cInitialized d then
    let '(status, data, b1) := I2cMcuReadMemBuffer deviceAddr addr data 1 (bus d) in
    (status, data, mkDriver true b1)
  else (LMN_STATUS_ERROR, data, d).

End Driver.

(** A bus to run the driver on: it counts the transfers it is asked for,
    fails the writes while [fail_next] is positive, and reads zeroes. *)
Record SimBus := mkSimBus {
  configured : bool;
  fail_next : nat;
  transfers : nat
}.

Definition sim_write (b : SimBus) : LmnStatus_t * SimBus :=
  match fail_next b with
  | O => (LMN_STATUS_OK, mkSimBus (configured b) O (S (transfers b)))
  | S k => (LMN_STATUS_ERROR, mkSimBus (configured b) k (S (transfers b)))
  end.

Definition sim_read (size : Z) (b : SimBus) : LmnStatus_t * list Z * SimBus :=
  (LMN_STATUS_OK, replicate (Z.to_nat size) 0,
   mkSimBus (configured b) (fail_next b) (S (transfers b))).

#[global] Instance sim_mcu : I2cMcu SimBus := {|
  I2cMcuInit := fun _ _ _ b => mkSimBus true (fail_next b) (transfers b);
  I2cMcuFormat := fun _ _ _ _ _ b => b;
  I2cMcuDeInit := fun b => mkSimBus false (fail_next b) (transfers b);
  I2cMcuResetBus := fun b => b;
  I2cMcuWriteBuffer := fun _ _ _ b => sim_write b;
  I2cMcuWriteMemBuffer := fun _ _ _ _ b => sim_write b;
  I2cMcuReadBuffer := fun _ _ size b => sim_read size b;
  I2cMcuReadMemBuffer := fun _ _ _ size b => sim_read size b
|}.

End I2c.

(** The build main.c describes as it stands: device-time strategy, OTAA,
    EU868. *)
Definition default_build : BuildConfig :=
  mkBuild false true false true true 0 0 0.

Definition default_inputs : BoardInputs := mkBoardInputs 50 3300 12345.

(** A downlink with the given port and payload. *)
Definition downlink (port : Z) (payload : list Z) : McpsIndication_t :=
  mkMcpsIndication LORAMAC_EVENT_INFO_STATUS_OK MCPS_UNCONFIRMED false true port
    (fun i => nth (Z.to_nat i) payload 0) (Z.of_nat (length payload)).

(** ** Predicates the properties are stated with *)

(** The states WakeUpState is assigned in main.c. *)
Definition wake_up_target (w : eDeviceState) : bool :=
  match w with
  | DEVICE_STATE_START
  | DEVICE_STATE_SEND
  | DEVICE_STATE_REQ_DEVICE_TIME
  | DEVICE_STATE_REQ_PINGSLOT_ACK
  | DEVICE_STATE_REQ_BEACON_TIMING => true
  | _ => false
  end.

(** The states main.c writes into WakeUpState once the loop runs: SEND,
    REQ_PINGSLOT_ACK and the timing request state of the build. *)
Definition assigned_wake_up_state (cfg : BuildConfig) (w : eDeviceState) : bool :=
  match w with
  | DEVICE_STATE_SEND | DEVICE_STATE_REQ_PINGSLOT_ACK => true
  | DEVICE_STATE_REQ_DEVICE_TIME => negb (USE_BEACON_TIMING cfg)
  | DEVICE_STATE_REQ_BEACON_TIMING => USE_BEACON_TIMING cfg
  | _ => false
  end.

(** From [w] to [w']: the value is kept, or one of those states is written. *)
Definition kept_or_assigned (cfg : BuildConfig) (w w' : eDeviceState) : Prop :=
  w' = w ∨ assigned_wake_up_state cfg w' = true.

(** The transmit mode the compliance test overrides. *)
Definition tx_mode (x : Globals) : bool * Z * Z :=
  (IsTxConfirmed x, AppPort x, AppDataSize x).

(** While the test runs the port is 224; outside the test the mode is the
    one of the initialisers. *)
Definition mode_consistent (x : Globals) : bool :=
  if Running (ComplianceTest x) then AppPort x =? 224
  else negb (IsTxConfirmed x) && (AppPort x =? LORAWAN_APP_PORT)
       && (AppDataSize x =? 4).

(** What holds of the variables of main.c in every state of an execution. *)
Definition ginv (x : Globals) : bool :=
  (length (AppDataBuffer x) =? Z.to_nat LORAWAN_APP_DATA_MAX_SIZE)%nat
  && (AppDataSizeBackup x =? 4)
  && wake_up_target (WakeUpState x)
  && mode_consistent x.

(** The port and the size backup: what a running test leaves alone. *)
Definition session_vars (x : Globals) : Z * Z :=
  (AppPort x, AppDataSizeBackup x).

(** A downlink the port switch hands to the compliance test. *)
Definition compliance_downlink (ind : McpsIndication_t) : bool :=
  match ind_Status ind with
  | LORAMAC_EVENT_INFO_STATUS_OK => RxData ind && (Port ind =? 224)
  | _ => false
  end.

Definition is_exit_command (ind : McpsIndication_t) : bool :=
  (Buffer ind 0 =? 0) || (Buffer ind 0 =? 6).

(** What the specification asks of WakeUpState. *)
Definition never_RESTORE_START_JOIN (w : eDeviceState) : Prop :=
  w ≠ DEVICE_STATE_RESTORE ∧ w ≠ DEVICE_STATE_START ∧ w ≠ DEVICE_STATE_JOIN.

(** What the specification asks of a downlink that is to be ignored. *)
Definition ignored {M} (s s' : Sys M) : Prop :=
  g s' = g s ∧ mac s' = mac s.

(** The compliance test runs after each of the events [evs], run from [s]. *)
Fixpoint running_throughout {M} {mac_engine : MacEngine M} (cfg : BuildConfig)
    (evs : list (Event M)) (s : Sys M) : bool :=
  match evs with
  | [] => true
  | e :: evs' =>
      Running (ComplianceTest (g (step cfg s e)))
      && running_throughout cfg evs' (step cfg s e)
  end.

(** ** States and inputs the properties are run on *)

(** An inactive state with confirmed mode on, port 5 and payload size 7. *)
Definition confirmed_port5_state : Sys SimMac.t :=
  upd_g (fun x => set_AppDataSize 7 (set_AppPort 5 (set_IsTxConfirmed true x)))
        (init default_build SimMac.accepting).

Definition enable_downlink : McpsIndication_t := downlink 224 [1; 1; 1; 1].

(** The compliance test just entered, from the initial state. *)
Definition active_state : Sys SimMac.t :=
  run default_build [EvMcpsIndication enable_downlink]
      (init default_build SimMac.accepting).

Definition refusing_state : Sys SimMac.t := init default_build SimMac.refusing.

(** The CYCLE step reached outside the test, on a refused join. *)
Definition cycle_state : Sys SimMac.t :=
  run default_build
      [EvMainLoop default_inputs; EvMainLoop default_inputs; EvMainLoop default_inputs]
      refusing_state.

(** A step 4 downlink of 250 bytes. *)
Definition oversize_echo : McpsIndication_t := downlink 224 (4 :: replicate 249 7).

Definition link_check_ok : MlmeConfirm_t :=
  mkMlmeConfirm LORAMAC_EVENT_INFO_STATUS_OK MLME_LINK_CHECK 17 2.

Definition join_failed : MlmeConfirm_t :=
  mkMlmeConfirm LORAMAC_EVENT_INFO_STATUS_JOIN_FAIL MLME_JOIN 0 0.

Definition ping_slot_ok : MlmeConfirm_t :=
  mkMlmeConfirm LORAMAC_EVENT_INFO_STATUS_OK MLME_PING_SLOT_INFO 0 0.

Definition ping_slot_failed : MlmeConfirm_t :=
  mkMlmeConfirm LORAMAC_EVENT_INFO_STATUS_RX2_TIMEOUT MLME_PING_SLOT_INFO 0 0.

Definition device_time_failed : MlmeConfirm_t :=
  mkMlmeConfirm LORAMAC_EVENT_INFO_STATUS_RX2_TIMEOUT MLME_DEVICE_TIME 0 0.

(** ** Further predicates and inputs *)

(** Reads a hex dump back: line breaks are skipped, every other character
    starts a group of two digits and a blank. *)
Definition hex_value (c : ascii) : Z :=
  let n := Z.of_N (N_of_ascii c) in
  if (48 <=? n) && (n <=? 57) then n - 48 else n - 55.

Fixpoint read_hex_dump (text : list ascii) : list Z :=
  match text with
  | [] => []
  | c :: rest =>
      if Ascii.eqb c newline_char then read_hex_dump rest
      else
        match rest with
        | lo :: _ :: rest' => (16 * hex_value c + hex_value lo) :: read_hex_dump rest'
        | _ => []
        end
  end.


(** The states in which the main loop asks the engine for something, and the
    state each of them leads to. *)
Definition request_step_target (d : eDeviceState) : option eDeviceState :=
  match d with
  | DEVICE_STATE_SEND => Some DEVICE_STATE_CYCLE
  | DEVICE_STATE_REQ_DEVICE_TIME
  | DEVICE_STATE_REQ_PINGSLOT_ACK
  | DEVICE_STATE_REQ_BEACON_TIMING
  | DEVICE_STATE_BEACON_ACQUISITION => Some DEVICE_STATE_SEND
  | _ => None
  end.

Definition is_SWITCH_CLASS (d : eDeviceState) : bool :=
  match d with
  | DEVICE_STATE_SWITCH_CLASS => true
  | _ => false
  end.

(** What holds of the control variables in every state of an execution. *)
Definition ctl_ok (x : Globals) : bool :=
  negb (is_SWITCH_CLASS (DeviceState x))
  && wake_up_target (WakeUpState x)
  && ((IsMacProcessPending x =? 0) || (IsMacProcessPending x =? 1)).

(** A downlink the engine delivers with status OK that is not one of the
    two commands leaving the compliance test. *)
Definition counted_downlink (ind : McpsIndication_t) : bool :=
  match ind_Status ind with
  | LORAMAC_EVENT_INFO_STATUS_OK =>
      negb (RxData ind && (Port ind =? 224) && is_exit_command ind)
  | _ => false
  end.

Definition status_ok (status : LoRaMacStatus_t) : bool :=
  match status with
  | LORAMAC_STATUS_OK => true
  | _ => false
  end.

(** The request of the acquisition strategy the build selects. *)
Definition timing_request (cfg : BuildConfig) : MlmeReq_t :=
  if USE_BEACON_TIMING cfg then MlmeReq_BeaconTiming else MlmeReq_DeviceTime.

(** The engine once the network is joined. *)
Definition joined_state : Sys SimMac.t :=
  init default_build (SimMac.mk true ACTIVATION_TYPE_OTAA CLASS_A [] []).

Definition beacon_lost : MlmeIndication_t :=
  mkMlmeIndication LORAMAC_EVENT_INFO_STATUS_BEACON_LOST MLME_BEACON_LOST.

Definition join_ok : MlmeConfirm_t :=
  mkMlmeConfirm LORAMAC_EVENT_INFO_STATUS_OK MLME_JOIN 0 0.

Definition beacon_acquisition_ok : MlmeConfirm_t :=
  mkMlmeConfirm LORAMAC_EVENT_INFO_STATUS_OK MLME_BEACON_ACQUISITION 0 0.

(** SEND reached with NextTx set, on a restored and activated device. *)
Definition send_ready_state : Sys SimMac.t :=
  run default_build [EvMainLoop default_inputs; EvMainLoop default_inputs]
      joined_state.

(** The timing request state, after a join confirmation. *)
Definition timing_state : Sys SimMac.t :=
  MlmeConfirm default_build join_ok (init default_build SimMac.accepting).

(** BEACON_ACQUISITION with NextTx set, after a device-time confirmation. *)
Definition acquisition_state : Sys SimMac.t :=
  MlmeConfirm default_build device_time_failed (init default_build SimMac.accepting).

(** SEND with NextTx cleared, after the acquisition pass. *)
Definition silent_state : Sys SimMac.t :=
  main_step default_build default_inputs acquisition_state.

(** REQ_PINGSLOT_ACK resumed by the transmit timer after the beacon was
    acquired. *)
Definition pingslot_state : Sys SimMac.t :=
  run default_build [EvMlmeConfirm beacon_acquisition_ok; EvTxNextPacketTimer]
      joined_state.

(** SLEEP reached on an accepted join, then a notification of the engine. *)
Definition sleep_pending_events : list (Event SimMac.t) :=
  [EvMainLoop default_inputs; EvMainLoop default_inputs; EvMainLoop default_inputs;
   EvMacProcessNotify].

(** An initialised driver on a bus that fails the next [k] writes. *)
Definition flaky_driver (k : nat) : I2c.Driver I2c.SimBus :=
  I2c.mkDriver true (I2c.mkSimBus true k 0).

Definition idle_driver : I2c.Driver I2c.SimBus :=
  I2c.mkDriver false (I2c.mkSimBus false 0 0).

(** The request compliance steps 8, 10 and 11 submit. *)
Definition forced_send_request (ind : McpsIndication_t) : MlmeReq_t :=
  if Buffer ind 0 =? 8 then MlmeReq_DeviceTime
  else if Buffer ind 0 =? 10 then MlmeReq_PingSlotInfo (Buffer ind 1)
  else MlmeReq_BeaconTiming.

(** Payload bytes 1..6 of a downlink are bytes. *)
Definition command_bytes (ind : McpsIndication_t) : Prop :=
  ∀ k, 1 ≤ k ≤ 6 → 0 ≤ Buffer ind k < 256.

(** * Properties *)

Section Properties.

Context {M : Type} {mac_engine : MacEngine M}.
Variable cfg : BuildConfig.

(** ** The join operation *)

Lemma JoinNetwork_unfold (s : Sys M) :
  JoinNetwork s =
  mkSys
    (set_DeviceState
       (match fst (LoRaMacMlmeRequest (MlmeReq_Join LORAWAN_DEFAULT_DATARATE) (mac s)) with
        | LORAMAC_STATUS_OK => DEVICE_STATE_SLEEP
        | _ => DEVICE_STATE_CYCLE
        end) (g s))
    (hw s)
    (snd (LoRaMacMlmeRequest (MlmeReq_Join LORAWAN_DEFAULT_DATARATE) (mac s))).
Proof.
  unfold JoinNetwork, MlmeRequest_st.
  destruct (LoRaMacMlmeRequest _ (mac s)) as [status m].
  destruct status; reflexivity.
Qed.

Lemma DeviceState_set_DeviceState v x : DeviceState (set_DeviceState v x) = v.
Proof. destruct x; reflexivity. Qed.

(** C8: the join operation submits a join request at the default data rate;
    when the MAC engine accepts it DeviceState becomes SLEEP, when the engine
    rejects it (whatever the status, duty-cycle restriction included)
    DeviceState becomes CYCLE; a join confirmation that reports a failure
    runs the join operation again. *)
Theorem JoinNetwork_outcome (s : Sys M) (c : MlmeConfirm_t) :
  let status :=
    fst (LoRaMacMlmeRequest (MlmeReq_Join LORAWAN_DEFAULT_DATARATE) (mac s)) in
  (status = LORAMAC_STATUS_OK →
     DeviceState (g (JoinNetwork s)) = DEVICE_STATE_SLEEP)
  ∧ (status ≠ LORAMAC_STATUS_OK →
     DeviceState (g (JoinNetwork s)) = DEVICE_STATE_CYCLE)
  ∧ (MlmeRequest c = MLME_JOIN →
     Status c ≠ LORAMAC_EVENT_INFO_STATUS_OK →
     MlmeConfirm cfg c s = JoinNetwork s).
Proof.
  intros status. split; [| split].
  - intros Hok. rewrite JoinNetwork_unfold. cbn [g].
    rewrite DeviceState_set_DeviceState. fold status. rewrite Hok. reflexivity.
  - intros Hne. rewrite JoinNetwork_unfold. cbn [g].
    rewrite DeviceState_set_DeviceState. fold status.
    destruct status; congruence.
  - intros Hreq Hst. unfold MlmeConfirm. rewrite Hreq.
    destruct (Status c); congruence.
Qed.

(** ** The confirmations of the class B bring-up *)

(** C9: a ping-slot-info confirmation with status OK asks the engine for class
    B, sets WakeUpState and DeviceState to SEND and NextTx to true; with any
    other status it sets WakeUpState to REQ_PINGSLOT_ACK and leaves
    DeviceState, NextTx and the engine as they were. *)
Theorem MlmeConfirm_ping_slot_info (s : Sys M) (c : MlmeConfirm_t) :
  MlmeRequest c = MLME_PING_SLOT_INFO →
  let s' := MlmeConfirm cfg c s in
  (Status c = LORAMAC_EVENT_INFO_STATUS_OK →
     mac s' = LoRaMacMibSetRequestConfirm (MIB_DEVICE_CLASS CLASS_B) (mac s)
     ∧ WakeUpState (g s') = DEVICE_STATE_SEND
     ∧ DeviceState (g s') = DEVICE_STATE_SEND
     ∧ NextTx (g s') = true)
  ∧ (Status c ≠ LORAMAC_EVENT_INFO_STATUS_OK →
     WakeUpState (g s') = DEVICE_STATE_REQ_PINGSLOT_ACK
     ∧ DeviceState (g s') = DeviceState (g s)
     ∧ NextTx (g s') = NextTx (g s)
     ∧ mac s' = mac s).
Proof.
  intros Hreq s'. subst s'. unfold MlmeConfirm. rewrite Hreq.
  destruct s as [x b m]. destruct x.
  split.
  - intros ->. cbn. auto.
  - intros Hne. destruct (Status c); try congruence; cbn; auto.
Qed.

(** C10: a device-time confirmation and a beacon-timing confirmation set
    WakeUpState to SEND, DeviceState to BEACON_ACQUISITION and NextTx to true,
    and the outcome is the same for every status the confirmation carries. *)
Theorem MlmeConfirm_time_sync (s : Sys M) (c : MlmeConfirm_t) :
  MlmeRequest c = MLME_DEVICE_TIME ∨ MlmeRequest c = MLME_BEACON_TIMING →
  let s' := MlmeConfirm cfg c s in
  WakeUpState (g s') = DEVICE_STATE_SEND
  ∧ DeviceState (g s') = DEVICE_STATE_BEACON_ACQUISITION
  ∧ NextTx (g s') = true
  ∧ ∀ status,
      MlmeConfirm cfg
        (mkMlmeConfirm status (MlmeRequest c) (cnf_DemodMargin c) (cnf_NbGateways c)) s
      = s'.
Proof.
  intros Hreq s'. subst s'. unfold MlmeConfirm. cbn [MlmeRequest].
  destruct s as [x b m]. destruct x.
  destruct Hreq as [-> | ->]; cbn; auto.
Qed.

(** ** The delay computed by the CYCLE step *)

Lemma randr_range (lo hi raw : Z) : lo ≤ hi → lo ≤ randr lo hi raw ≤ hi.
Proof.
  intros Hle. unfold randr.
  pose proof (Z.mod_pos_bound raw (hi - lo + 1)). lia.
Qed.

(** C7: the CYCLE step sets the next-transmit delay to 5000 ms when the
    compliance test runs and otherwise to a value between 30000-5000 and
    30000+5000 ms, whatever the generator draws; the transmit timer is armed
    with that delay and DeviceState becomes SLEEP. *)
Theorem cycle_delay (inp : BoardInputs) (s : Sys M) :
  DeviceState (g s) = DEVICE_STATE_CYCLE →
  let s' := main_step cfg inp s in
  let delay := TxDutyCycleTime (g s') in
  (Running (ComplianceTest (g s)) = true → delay = 5000)
  ∧ (Running (ComplianceTest (g s)) = false →
     APP_TX_DUTYCYCLE - APP_TX_DUTYCYCLE_RND ≤ delay
       ≤ APP_TX_DUTYCYCLE + APP_TX_DUTYCYCLE_RND)
  ∧ TxNextPacketTimer (hw s') = mkTimer delay true
  ∧ DeviceState (g s') = DEVICE_STATE_SLEEP.
Proof.
  intros Hst s' delay. subst delay s'. unfold main_step. rewrite Hst.
  destruct s as [x b m]. destruct x as [? ? ? ? ? ? ? ? ? ? ? ? ct ?].
  destruct b. cbn. destruct (Running ct) eqn:Hrun; cbn.
  - repeat split; congruence.
  - pose proof (randr_range (- APP_TX_DUTYCYCLE_RND) APP_TX_DUTYCYCLE_RND
                  (rand1 inp)) as Hr.
    unfold APP_TX_DUTYCYCLE, APP_TX_DUTYCYCLE_RND, to_uint32 in *.
    rewrite Z.mod_small by lia.
    repeat split; try congruence; lia.
Qed.

(** ** What every execution preserves *)

Lemma ginv_spec (x : Globals) :
  ginv x = true ↔
  length (AppDataBuffer x) = 242%nat
  ∧ AppDataSizeBackup x = 4
  ∧ wake_up_target (WakeUpState x) = true
  ∧ (if Running (ComplianceTest x) then AppPort x = 224
     else IsTxConfirmed x = false ∧ AppPort x = 3 ∧ AppDataSize x = 4).
Proof.
  unfold ginv, mode_consistent, LORAWAN_APP_PORT.
  rewrite !andb_true_iff, Nat.eqb_eq, Z.eqb_eq.
  change (Z.to_nat LORAWAN_APP_DATA_MAX_SIZE) with 242%nat.
  destruct (Running (ComplianceTest x)).
  - rewrite Z.eqb_eq. tauto.
  - rewrite !andb_true_iff, !Z.eqb_eq, negb_true_iff. tauto.
Qed.

Lemma length_echo_loop (bound : Z) (rx : Z → Z) (buf : list Z) :
  length (echo_loop bound rx buf) = length buf.
Proof.
  unfold echo_loop. generalize (seq 1 (Z.to_nat bound - 1)). intros l.
  revert buf. induction l as [| i l IH]; intros buf; cbn [foldl].
  - reflexivity.
  - rewrite IH. apply length_insert.
Qed.

(** Splits the state into its fields and the answers of the engine into
    their cases. *)
Ltac split_state s :=
  destruct s as [[dev port size backup buf conf duty led ntx pend ds ws
                  [running st c1 c2 c3 dlc lc dm ng] ad] b m].

Ltac case_engine :=
  repeat match goal with
  | |- context [LoRaMacMlmeRequest ?r ?m] =>
      destruct (LoRaMacMlmeRequest r m) as [[] ?]
  | |- context [LoRaMacMcpsRequest ?r ?m] =>
      destruct (LoRaMacMcpsRequest r m) as [[] ?]
  | |- context [LoRaMacMibGetNetworkActivation ?m] =>
      destruct (LoRaMacMibGetNetworkActivation m) as [[] []]
  | |- context [LoRaMacQueryTxPossible ?n ?m] =>
      destruct (LoRaMacQueryTxPossible n m)
  | |- context [NvmCtxMgmtRestore ?m] =>
      destruct (NvmCtxMgmtRestore m) as [[] ?]
  end.

Ltac close_inv :=
  apply ginv_spec; cbn;
  rewrite ?length_echo_loop, ?length_insert;
  repeat split; first [assumption | reflexivity | congruence | lia | tauto].

Lemma if_same_ct (c : bool) (s : Sys M) {t : Sys M} :
  ComplianceTest (g t) = ComplianceTest (g s) →
  ComplianceTest (g (if c then t else s)) = ComplianceTest (g s).
Proof. destruct c; auto. Qed.

Lemma JoinNetwork_ginv (s : Sys M) :
  ginv (g s) = true → ginv (g (JoinNetwork s)) = true.
Proof.
  rewrite JoinNetwork_unfold. cbn [g]. intros H.
  destruct (g s). exact H.
Qed.

Ltac open_inv H :=
  apply ginv_spec in H; cbn in H;
  destruct H as (Hlen & Hbackup & Hwake & Hmode).

Ltac case_if :=
  repeat match goal with
  | |- context [if ?c then _ else _] => destruct c eqn:?; cbn
  end.

Lemma OnTxNextPacketTimerEvent_ginv (s : Sys M) :
  ginv (g s) = true → ginv (g (OnTxNextPacketTimerEvent s)) = true.
Proof.
  intros H. unfold OnTxNextPacketTimerEvent. cbn [mac upd_hw].
  destruct (LoRaMacMibGetNetworkActivation (mac s)) as [[] []];
    try exact H; try (apply JoinNetwork_ginv; exact H).
  all: split_state s; open_inv H; close_inv.
Qed.

Lemma PrepareTxFrame_ginv (inp : BoardInputs) (s : Sys M) :
  ginv (g s) = true → ginv (g (PrepareTxFrame inp (AppPort (g s)) s)) = true.
Proof.
  intros H. split_state s. open_inv H. unfold PrepareTxFrame. cbn.
  destruct running; cbn in Hmode.
  - subst. cbn. case_if; close_inv.
  - destruct Hmode as (-> & -> & ->). cbn. close_inv.
Qed.

Lemma SendFrame_ginv (s : Sys M) :
  ginv (g s) = true → ginv (g (snd (SendFrame s))) = true.
Proof.
  intros H. split_state s. unfold SendFrame. cbn.
  case_engine; cbn; exact H.
Qed.

Lemma compliance_disable_ginv (s : Sys M) :
  ginv (g s) = true → ginv (g (compliance_disable cfg s)) = true.
Proof.
  intros H. split_state s. open_inv H.
  unfold compliance_disable, TestSetDutyCycleOn. cbn.
  destruct (DUTYCYCLE_REGION cfg); close_inv.
Qed.

Lemma compliance_enable_ginv (ind : McpsIndication_t) (s : Sys M) :
  Running (ComplianceTest (g s)) = false →
  ginv (g s) = true → ginv (g (compliance_enable cfg ind s)) = true.
Proof.
  intros Hrun H. unfold compliance_enable.
  destruct (is_enable_command ind); [| exact H].
  split_state s. cbn in Hrun. subst running. open_inv H.
  unfold TestSetDutyCycleOn. cbn.
  destruct (DUTYCYCLE_REGION cfg); close_inv.
Qed.

Lemma compliance_command_ginv (ind : McpsIndication_t) (s : Sys M) :
  Running (ComplianceTest (g s)) = true →
  ginv (g s) = true → ginv (g (compliance_command cfg ind s)) = true.
Proof.
  intros Hrun H. unfold compliance_command.
  set (s1 := upd_ct (set_State (Buffer ind 0)) s).
  assert (H1 : ginv (g s1) = true).
  { subst s1. split_state s. exact H. }
  assert (Hrun1 : Running (ComplianceTest (g s1)) = true).
  { subst s1. split_state s. exact Hrun. }
  clearbody s1. clear H Hrun s.
  destruct (State (ComplianceTest (g s1)) =? 0).
  { apply compliance_disable_ginv, H1. }
  destruct (State (ComplianceTest (g s1)) =? 6) eqn:H6.
  { replace (State (ComplianceTest (g s1))) with 6 by (symmetry; apply Z.eqb_eq, H6).
    cbn. apply JoinNetwork_ginv, compliance_disable_ginv, H1. }
  split_state s1. cbn in Hrun1. subst running. open_inv H1.
  unfold MlmeRequest_st. cbn in *.
  case_if; case_engine; close_inv.
Qed.

Lemma port_dispatch_ginv (ind : McpsIndication_t) (s : Sys M) :
  ginv (g s) = true → ginv (g (port_dispatch cfg ind s)) = true.
Proof.
  intros H. unfold port_dispatch.
  destruct ((Port ind =? 1) || (Port ind =? 2)).
  { destruct (BufferSize ind =? 1); [| exact H]. split_state s. exact H. }
  destruct (Port ind =? 224); [| exact H].
  destruct (Running (ComplianceTest (g s))) eqn:Hrun; cbn.
  - apply compliance_command_ginv; assumption.
  - apply compliance_enable_ginv; assumption.
Qed.

Lemma McpsIndication_ginv (ind : McpsIndication_t) (s : Sys M) :
  ginv (g s) = true → ginv (g (McpsIndication cfg ind s)) = true.
Proof.
  intros H. unfold McpsIndication.
  destruct (ind_Status ind); try exact H.
  cbn [g upd_hw].
  match goal with |- context [port_dispatch cfg ind ?t] => set (s2 := t) end.
  assert (H2 : ginv (g s2) = true).
  { subst s2.
    match goal with |- context [Running (ComplianceTest (g ?t))] => set (s1 := t) end.
    assert (H1 : ginv (g s1) = true).
    { subst s1. destruct (FramePending ind);
        [apply OnTxNextPacketTimerEvent_ginv |]; exact H. }
    clearbody s1. destruct (Running (ComplianceTest (g s1))) eqn:Hrun; [| exact H1].
    split_state s1. cbn in Hrun. subst running. exact H1. }
  clearbody s2. destruct (RxData ind); [apply port_dispatch_ginv |]; exact H2.
Qed.

Lemma MlmeConfirm_ginv (c : MlmeConfirm_t) (s : Sys M) :
  ginv (g s) = true → ginv (g (MlmeConfirm cfg c s)) = true.
Proof.
  intros H. unfold MlmeConfirm, timing_request_state.
  destruct (MlmeRequest c), (Status c);
    try exact H; try (apply JoinNetwork_ginv; exact H).
  all: split_state s; open_inv H; cbn;
       destruct (USE_BEACON_TIMING cfg); case_if; close_inv.
Qed.

Lemma MlmeIndication_ginv (i : MlmeIndication_t) (s : Sys M) :
  ginv (g s) = true → ginv (g (MlmeIndication cfg i s)) = true.
Proof.
  intros H. unfold MlmeIndication, timing_request_state.
  destruct (MlmeIndication_kind i);
    try exact H; try (apply OnTxNextPacketTimerEvent_ginv; exact H).
  - destruct (mi_Status i); exact H.
  - split_state s. open_inv H. cbn.
    destruct (USE_BEACON_TIMING cfg); close_inv.
Qed.

Lemma main_step_ginv (inp : BoardInputs) (s : Sys M) :
  ginv (g s) = true → ginv (g (main_step cfg inp s)) = true.
Proof.
  intros H. unfold main_step.
  destruct (DeviceState (g s)) eqn:Hds.
  - (* RESTORE *)
    split_state s. open_inv H. unfold MibSet. cbn.
    case_engine; cbn; case_if; close_inv.
  - (* START *)
    split_state s. open_inv H. unfold MibSet, TestSetDutyCycleOn. cbn.
    destruct (DUTYCYCLE_REGION cfg); cbn; case_engine; close_inv.
  - (* JOIN *)
    destruct (OVER_THE_AIR_ACTIVATION cfg); [apply JoinNetwork_ginv, H |].
    split_state s. open_inv H. unfold timing_request_state. cbn.
    case_if; close_inv.
  - (* SEND *)
    destruct (NextTx (g s)).
    + pose proof (SendFrame_ginv _ (PrepareTxFrame_ginv inp s H)) as H'.
      destruct (SendFrame (PrepareTxFrame inp (AppPort (g s)) s)) as [retry s'].
      cbn [snd] in H'. split_state s'. exact H'.
    + split_state s. exact H.
  - (* REQ_DEVICE_TIME *)
    split_state s. open_inv H. unfold MlmeRequest_st. cbn.
    case_if; case_engine; close_inv.
  - (* REQ_PINGSLOT_ACK *)
    split_state s. open_inv H. unfold MlmeRequest_st. cbn.
    case_if; case_engine; cbn; case_engine; close_inv.
  - (* REQ_BEACON_TIMING *)
    split_state s. open_inv H. unfold MlmeRequest_st. cbn.
    case_if; case_engine; close_inv.
  - (* BEACON_ACQUISITION *)
    split_state s. open_inv H. unfold MlmeRequest_st. cbn.
    case_if; case_engine; close_inv.
  - (* SWITCH_CLASS *)
    split_state s. exact H.
  - (* CYCLE *)
    split_state s. open_inv H. cbn. case_if; close_inv.
  - (* SLEEP *)
    split_state s. open_inv H. cbn. case_if; close_inv.
Qed.

Lemma step_ginv (s : Sys M) (e : Event M) :
  ginv (g s) = true → ginv (g (step cfg s e)) = true.
Proof.
  intros H. destruct e; cbn [step]; try exact H.
  - apply main_step_ginv, H.
  - apply OnTxNextPacketTimerEvent_ginv, H.
  - split_state s. exact H.
  - unfold McpsConfirm. destruct (cnf_Status c); exact H.
  - apply McpsIndication_ginv, H.
  - apply MlmeConfirm_ginv, H.
  - apply MlmeIndication_ginv, H.
Qed.

Lemma run_ginv (evs : list (Event M)) (s : Sys M) :
  ginv (g s) = true → ginv (g (run cfg evs s)) = true.
Proof.
  unfold run. revert s.
  induction evs as [| e evs IH]; intros s H; cbn [foldl].
  - exact H.
  - apply IH, step_ginv, H.
Qed.

Lemma init_ginv (m0 : M) : ginv (g (init cfg m0)) = true.
Proof. reflexivity. Qed.

(** [ginv] holds in every state of every execution. *)
Lemma reachable_ginv (m0 : M) (evs : list (Event M)) :
  ginv (g (run cfg evs (init cfg m0))) = true.
Proof. apply run_ginv, init_ginv. Qed.

Lemma run_app (evs1 evs2 : list (Event M)) (s : Sys M) :
  run cfg (evs1 ++ evs2) s = run cfg evs2 (run cfg evs1 s).
Proof. unfold run. apply foldl_app. Qed.

(** ** WakeUpState *)

Lemma kept_or_assigned_trans (w1 w2 w3 : eDeviceState) :
  kept_or_assigned cfg w1 w2 → kept_or_assigned cfg w2 w3 →
  kept_or_assigned cfg w1 w3.
Proof.
  unfold kept_or_assigned. intros [-> | H12] [-> | H23]; auto.
Qed.

Lemma assigned_timing_request_state :
  assigned_wake_up_state cfg (timing_request_state cfg) = true.
Proof.
  unfold timing_request_state.
  destruct (USE_BEACON_TIMING cfg) eqn:E; cbn; rewrite E; reflexivity.
Qed.

Ltac close_wake :=
  unfold kept_or_assigned; cbn;
  first [ left; reflexivity
        | right; reflexivity
        | right; apply assigned_timing_request_state ].

Lemma JoinNetwork_wake (s : Sys M) :
  WakeUpState (g (JoinNetwork s)) = WakeUpState (g s).
Proof. rewrite JoinNetwork_unfold. cbn [g]. destruct (g s). reflexivity. Qed.

Lemma OnTxNextPacketTimerEvent_wake (s : Sys M) :
  WakeUpState (g (OnTxNextPacketTimerEvent s)) = WakeUpState (g s).
Proof.
  unfold OnTxNextPacketTimerEvent. cbn [mac upd_hw].
  destruct (LoRaMacMibGetNetworkActivation (mac s)) as [[] []];
    try rewrite JoinNetwork_wake; split_state s; reflexivity.
Qed.

Lemma compliance_command_wake (ind : McpsIndication_t) (s : Sys M) :
  kept_or_assigned cfg (WakeUpState (g s))
    (WakeUpState (g (compliance_command cfg ind s))).
Proof.
  unfold compliance_command.
  destruct (State (ComplianceTest (g (upd_ct (set_State (Buffer ind 0)) s))) =? 0).
  { left. split_state s. unfold compliance_disable, TestSetDutyCycleOn. cbn.
    destruct (DUTYCYCLE_REGION cfg); reflexivity. }
  destruct (State (ComplianceTest (g (upd_ct (set_State (Buffer ind 0)) s))) =? 6)
    eqn:H6.
  { replace (State (ComplianceTest (g (upd_ct (set_State (Buffer ind 0)) s))))
      with 6 by (symmetry; apply Z.eqb_eq, H6).
    cbn [Z.eqb Pos.eqb]. left. rewrite JoinNetwork_wake.
    split_state s. unfold compliance_disable, TestSetDutyCycleOn. cbn.
    destruct (DUTYCYCLE_REGION cfg); reflexivity. }
  split_state s. unfold MlmeRequest_st. cbn in *.
  case_if; case_engine; close_wake.
Qed.

Lemma McpsIndication_wake (ind : McpsIndication_t) (s : Sys M) :
  kept_or_assigned cfg (WakeUpState (g s))
    (WakeUpState (g (McpsIndication cfg ind s))).
Proof.
  unfold McpsIndication.
  destruct (ind_Status ind); try (left; reflexivity).
  cbn [g upd_hw].
  match goal with |- context [port_dispatch cfg ind ?t] => set (s2 := t) end.
  assert (H2 : WakeUpState (g s2) = WakeUpState (g s)).
  { subst s2.
    match goal with |- context [Running (ComplianceTest (g ?t))] => set (s1 := t) end.
    assert (H1 : WakeUpState (g s1) = WakeUpState (g s)).
    { subst s1. destruct (FramePending ind);
        [apply OnTxNextPacketTimerEvent_wake | reflexivity]. }
    rewrite <- H1. clearbody s1.
    destruct (Running (ComplianceTest (g s1))); [| reflexivity].
    split_state s1. reflexivity. }
  rewrite <- H2. clearbody s2.
  destruct (RxData ind); [| left; reflexivity].
  unfold port_dispatch.
  destruct ((Port ind =? 1) || (Port ind =? 2)).
  { left. destruct (BufferSize ind =? 1); [| reflexivity]. split_state s2. reflexivity. }
  destruct (Port ind =? 224); [| left; reflexivity].
  destruct (negb (Running (ComplianceTest (g s2)))).
  - left. unfold compliance_enable. destruct (is_enable_command ind); [| reflexivity].
    split_state s2. unfold TestSetDutyCycleOn. cbn.
    destruct (DUTYCYCLE_REGION cfg); reflexivity.
  - apply compliance_command_wake.
Qed.

Lemma MlmeConfirm_wake (c : MlmeConfirm_t) (s : Sys M) :
  kept_or_assigned cfg (WakeUpState (g s)) (WakeUpState (g (MlmeConfirm cfg c s))).
Proof.
  unfold MlmeConfirm.
  destruct (MlmeRequest c), (Status c);
    try (left; reflexivity); try (left; apply JoinNetwork_wake).
  all: split_state s; cbn; case_if; close_wake.
Qed.

Lemma MlmeIndication_wake (i : MlmeIndication_t) (s : Sys M) :
  kept_or_assigned cfg (WakeUpState (g s))
    (WakeUpState (g (MlmeIndication cfg i s))).
Proof.
  unfold MlmeIndication.
  destruct (MlmeIndication_kind i);
    try (left; reflexivity); try (left; apply OnTxNextPacketTimerEvent_wake).
  - destruct (mi_Status i); left; reflexivity.
  - split_state s. close_wake.
Qed.

Lemma main_step_wake (inp : BoardInputs) (s : Sys M) :
  kept_or_assigned cfg (WakeUpState (g s)) (WakeUpState (g (main_step cfg inp s))).
Proof.
  unfold main_step.
  destruct (DeviceState (g s)) eqn:Hd.
  - split_state s. unfold MibSet. cbn. case_engine; cbn; case_if; close_wake.
  - split_state s. unfold MibSet, TestSetDutyCycleOn. cbn.
    destruct (DUTYCYCLE_REGION cfg); cbn; case_engine; close_wake.
  - cbn zeta. destruct (OVER_THE_AIR_ACTIVATION cfg);
      [left; apply JoinNetwork_wake |].
    split_state s. close_wake.
  - left. destruct (NextTx (g s)).
    + destruct (SendFrame (PrepareTxFrame inp (AppPort (g s)) s)) as [retry s'] eqn:E.
      assert (Hs : WakeUpState (g s') = WakeUpState (g s)).
      { replace s' with (snd (SendFrame (PrepareTxFrame inp (AppPort (g s)) s)))
          by (rewrite E; reflexivity).
        clear E. split_state s. unfold SendFrame, PrepareTxFrame. cbn.
        case_if; case_engine; reflexivity. }
      rewrite <- Hs. split_state s'. reflexivity.
    + split_state s. reflexivity.
  - split_state s. unfold MlmeRequest_st. cbn. case_if; case_engine; close_wake.
  - split_state s. unfold MlmeRequest_st. cbn.
    case_if; case_engine; cbn; case_engine; close_wake.
  - split_state s. unfold MlmeRequest_st. cbn. case_if; case_engine; close_wake.
  - split_state s. unfold MlmeRequest_st. cbn. case_if; case_engine; close_wake.
  - split_state s. close_wake.
  - split_state s. cbn. case_if; close_wake.
  - split_state s. cbn. case_if; close_wake.
Qed.

(** Every event keeps WakeUpState or writes one of the assigned states. *)
Lemma step_wake (s : Sys M) (e : Event M) :
  kept_or_assigned cfg (WakeUpState (g s)) (WakeUpState (g (step cfg s e))).
Proof.
  destruct e; cbn [step]; try (left; reflexivity).
  - apply main_step_wake.
  - left. apply OnTxNextPacketTimerEvent_wake.
  - left. split_state s. reflexivity.
  - left. unfold McpsConfirm. destruct (cnf_Status c); reflexivity.
  - apply McpsIndication_wake.
  - apply MlmeConfirm_wake.
  - apply MlmeIndication_wake.
Qed.

Lemma run_wake (evs : list (Event M)) (s : Sys M) :
  kept_or_assigned cfg (WakeUpState (g s)) (WakeUpState (g (run cfg evs s))).
Proof.
  unfold run. revert s.
  induction evs as [| e evs IH]; intros s; cbn [foldl]; [left; reflexivity |].
  eapply kept_or_assigned_trans; [apply step_wake | apply IH].
Qed.

(** C1, as amended: in every state of every execution WakeUpState is neither
    RESTORE nor JOIN. Immediately after initialisation it is START, and it
    stays START until a pass of the main loop or a callback assigns it; each
    event keeps it or writes SEND, REQ_PINGSLOT_ACK or the timing request
    state of the build (REQ_DEVICE_TIME, or REQ_BEACON_TIMING with
    USE_BEACON_TIMING), so once it has left START it is one of those states
    and is never START again. *)
Theorem WakeUpState_never_RESTORE_JOIN (m0 : M) (evs : list (Event M)) :
  let w := WakeUpState (g (run cfg evs (init cfg m0))) in
  w ≠ DEVICE_STATE_RESTORE ∧ w ≠ DEVICE_STATE_JOIN
  ∧ wake_up_target w = true
  ∧ WakeUpState (g (init cfg m0)) = DEVICE_STATE_START
  ∧ (w = DEVICE_STATE_START ∨ assigned_wake_up_state cfg w = true)
  ∧ (∀ evs1 evs2,
       evs = evs1 ++ evs2 →
       WakeUpState (g (run cfg evs1 (init cfg m0))) ≠ DEVICE_STATE_START →
       assigned_wake_up_state cfg w = true)
  ∧ (∀ e, kept_or_assigned cfg w
            (WakeUpState (g (step cfg (run cfg evs (init cfg m0)) e)))).
Proof.
  intros w.
  assert (Hw : wake_up_target w = true).
  { pose proof (reachable_ginv m0 evs) as H.
    apply ginv_spec in H. tauto. }
  assert (Hstart : ∀ l, WakeUpState (g (run cfg l (init cfg m0))) = DEVICE_STATE_START
                        ∨ assigned_wake_up_state cfg
                            (WakeUpState (g (run cfg l (init cfg m0)))) = true).
  { intros l. destruct (run_wake l (init cfg m0)) as [H | H]; [left | right]; exact H. }
  split; [intros Heq; rewrite Heq in Hw; discriminate |].
  split; [intros Heq; rewrite Heq in Hw; discriminate |].
  split; [exact Hw |]. split; [reflexivity |]. split; [apply Hstart |].
  split; [| intros e; apply step_wake].
  intros evs1 evs2 Hevs Hne. subst w. rewrite Hevs, run_app.
  destruct (Hstart evs1) as [H1 | H1]; [contradiction |].
  destruct (run_wake evs2 (run cfg evs1 (init cfg m0))) as [H2 | H2].
  - rewrite H2. exact H1.
  - exact H2.
Qed.

(** ** Entering and leaving the compliance test *)

(** [JoinNetwork] and the transmit timer callback write DeviceState and
    NextTx and no other variable of main.c. *)
Lemma JoinNetwork_g (s : Sys M) :
  g (JoinNetwork s) = set_DeviceState (DeviceState (g (JoinNetwork s))) (g s).
Proof. rewrite JoinNetwork_unfold. cbn [g]. destruct (g s). reflexivity. Qed.

Lemma OnTxNextPacketTimerEvent_g (s : Sys M) :
  let s' := OnTxNextPacketTimerEvent s in
  g s' = set_NextTx (NextTx (g s')) (set_DeviceState (DeviceState (g s')) (g s)).
Proof.
  unfold OnTxNextPacketTimerEvent. cbn [mac upd_hw].
  destruct (LoRaMacMibGetNetworkActivation (mac s)) as [[] []];
    try rewrite JoinNetwork_unfold.
  all: split_state s; reflexivity.
Qed.

Lemma JoinNetwork_ComplianceTest (s : Sys M) :
  ComplianceTest (g (JoinNetwork s)) = ComplianceTest (g s).
Proof. rewrite JoinNetwork_g. destruct (g s). reflexivity. Qed.

Lemma OnTxNextPacketTimerEvent_ComplianceTest (s : Sys M) :
  ComplianceTest (g (OnTxNextPacketTimerEvent s)) = ComplianceTest (g s).
Proof. rewrite OnTxNextPacketTimerEvent_g. destruct (g s). reflexivity. Qed.

Lemma OnTxNextPacketTimerEvent_AppDataSize (s : Sys M) :
  AppDataSize (g (OnTxNextPacketTimerEvent s)) = AppDataSize (g s).
Proof. rewrite OnTxNextPacketTimerEvent_g. destruct (g s). reflexivity. Qed.

Lemma compliance_disable_Running (s : Sys M) :
  Running (ComplianceTest (g (compliance_disable cfg s))) = false.
Proof.
  split_state s. unfold compliance_disable, TestSetDutyCycleOn. cbn.
  destruct (DUTYCYCLE_REGION cfg); reflexivity.
Qed.

Lemma McpsIndication_enable (ind : McpsIndication_t) (s : Sys M) :
  compliance_downlink ind = true →
  is_enable_command ind = true →
  Running (ComplianceTest (g s)) = false →
  let s' := McpsIndication cfg ind s in
  Running (ComplianceTest (g s')) = true
  ∧ AppDataSizeBackup (g s') = AppDataSize (g s).
Proof.
  unfold compliance_downlink, McpsIndication. intros Hdl Hen Hrun.
  destruct (ind_Status ind); try discriminate.
  apply andb_true_iff in Hdl as [-> Hport]. apply Z.eqb_eq in Hport.
  cbn zeta. rewrite (if_same_ct (FramePending ind) s), Hrun. 2: {
    apply OnTxNextPacketTimerEvent_ComplianceTest. }
  unfold port_dispatch. rewrite Hport. cbn [Z.eqb Pos.eqb orb].
  rewrite (if_same_ct (FramePending ind) s), Hrun. 2: {
    apply OnTxNextPacketTimerEvent_ComplianceTest. }
  cbn [negb]. unfold compliance_enable. rewrite Hen.
  assert (Hsz : AppDataSize (g (if FramePending ind
                                 then OnTxNextPacketTimerEvent s else s))
                = AppDataSize (g s)).
  { destruct (FramePending ind);
      [apply OnTxNextPacketTimerEvent_AppDataSize | reflexivity]. }
  rewrite <- Hsz.
  generalize (if FramePending ind then OnTxNextPacketTimerEvent s else s).
  intros t. split_state t. unfold TestSetDutyCycleOn. cbn.
  destruct (DUTYCYCLE_REGION cfg); split; reflexivity.
Qed.

Lemma McpsIndication_exit (ind : McpsIndication_t) (s : Sys M) :
  compliance_downlink ind = true →
  is_exit_command ind = true →
  Running (ComplianceTest (g s)) = true →
  Running (ComplianceTest (g (McpsIndication cfg ind s))) = false.
Proof.
  unfold compliance_downlink, is_exit_command, McpsIndication.
  intros Hdl Hex Hrun.
  destruct (ind_Status ind); try discriminate.
  apply andb_true_iff in Hdl as [-> Hport]. apply Z.eqb_eq in Hport.
  cbn zeta. rewrite (if_same_ct (FramePending ind) s), Hrun. 2: {
    apply OnTxNextPacketTimerEvent_ComplianceTest. }
  unfold port_dispatch. rewrite Hport. cbn [Z.eqb Pos.eqb orb].
  match goal with |- context [compliance_command cfg ind ?u] => set (t := u) end.
  assert (Ht : Running (ComplianceTest (g t)) = true).
  { subst t. cbn [upd_ct upd_g g]. rewrite (if_same_ct (FramePending ind) s).
    - destruct (ComplianceTest (g s)).
      destruct (g (if FramePending ind then OnTxNextPacketTimerEvent s else s)).
      exact Hrun.
    - apply OnTxNextPacketTimerEvent_ComplianceTest. }
  rewrite Ht. cbn [negb upd_hw g].
  clearbody t. unfold compliance_command.
  assert (Hst : State (ComplianceTest (g (upd_ct (set_State (Buffer ind 0)) t)))
                = Buffer ind 0).
  { split_state t. reflexivity. }
  rewrite Hst.
  apply orb_true_iff in Hex as [H0 | H6]; apply Z.eqb_eq in H0 || apply Z.eqb_eq in H6.
  - rewrite H0. cbn [Z.eqb]. apply compliance_disable_Running.
  - rewrite H6. cbn [Z.eqb Pos.eqb].
    rewrite JoinNetwork_ComplianceTest. apply compliance_disable_Running.
Qed.

Lemma tx_mode_inactive (x : Globals) :
  ginv x = true → Running (ComplianceTest x) = false →
  tx_mode x = (LORAWAN_CONFIRMED_MSG_ON, LORAWAN_APP_PORT, 4)
  ∧ AppDataSizeBackup x = AppDataSize x.
Proof.
  intros H Hrun. apply ginv_spec in H. rewrite Hrun in H.
  destruct H as (_ & Hb & _ & Hc & Hp & Hs).
  unfold tx_mode. rewrite Hc, Hp, Hs, Hb. split; reflexivity.
Qed.

Lemma McpsIndication_enable_port (ind : McpsIndication_t) (s : Sys M) :
  compliance_downlink ind = true →
  is_enable_command ind = true →
  Running (ComplianceTest (g s)) = false →
  AppPort (g (McpsIndication cfg ind s)) = 224.
Proof.
  unfold compliance_downlink, McpsIndication. intros Hdl Hen Hrun.
  destruct (ind_Status ind); try discriminate.
  apply andb_true_iff in Hdl as [-> Hport]. apply Z.eqb_eq in Hport.
  cbn zeta. rewrite (if_same_ct (FramePending ind) s), Hrun. 2: {
    apply OnTxNextPacketTimerEvent_ComplianceTest. }
  unfold port_dispatch. rewrite Hport. cbn [Z.eqb Pos.eqb orb].
  rewrite (if_same_ct (FramePending ind) s), Hrun. 2: {
    apply OnTxNextPacketTimerEvent_ComplianceTest. }
  cbn [negb]. unfold compliance_enable. rewrite Hen.
  generalize (if FramePending ind then OnTxNextPacketTimerEvent s else s).
  intros t. split_state t. unfold TestSetDutyCycleOn. cbn.
  destruct (DUTYCYCLE_REGION cfg); reflexivity.
Qed.

(** *** A running test keeps the port and the size backup *)

Lemma JoinNetwork_session (s : Sys M) :
  session_vars (g (JoinNetwork s)) = session_vars (g s).
Proof. rewrite JoinNetwork_g. destruct (g s). reflexivity. Qed.

Lemma OnTxNextPacketTimerEvent_session (s : Sys M) :
  session_vars (g (OnTxNextPacketTimerEvent s)) = session_vars (g s).
Proof. rewrite OnTxNextPacketTimerEvent_g. destruct (g s). reflexivity. Qed.

Lemma main_step_session (inp : BoardInputs) (s : Sys M) :
  AppPort (g s) = 224 →
  session_vars (g (main_step cfg inp s)) = session_vars (g s)
  ∧ ComplianceTest (g (main_step cfg inp s)) = ComplianceTest (g s)
    ∨ DeviceState (g s) = DEVICE_STATE_SEND
      ∧ session_vars (g (main_step cfg inp s)) = session_vars (g s)
      ∧ Running (ComplianceTest (g (main_step cfg inp s)))
        = Running (ComplianceTest (g s)).
Proof.
  intros Hport. unfold main_step.
  destruct (DeviceState (g s)) eqn:Hd.
  - left. split_state s. unfold MibSet. cbn.
    case_engine; cbn; case_if; split; reflexivity.
  - left. split_state s. unfold MibSet, TestSetDutyCycleOn. cbn.
    destruct (DUTYCYCLE_REGION cfg); cbn; case_engine; split; reflexivity.
  - left. cbn zeta. destruct (OVER_THE_AIR_ACTIVATION cfg).
    + split; [apply JoinNetwork_session | apply JoinNetwork_ComplianceTest].
    + split_state s. split; reflexivity.
  - right. split; [reflexivity |]. rewrite Hport. destruct (NextTx (g s)).
    + destruct (SendFrame (PrepareTxFrame inp 224 s)) as [retry s'] eqn:E.
      assert (Hs : session_vars (g s') = session_vars (g s)
                   ∧ Running (ComplianceTest (g s')) = Running (ComplianceTest (g s))).
      { replace s' with (snd (SendFrame (PrepareTxFrame inp 224 s)))
          by (rewrite E; reflexivity).
        clear E. split_state s. unfold SendFrame, PrepareTxFrame. cbn.
        case_if; case_engine; split; reflexivity. }
      destruct Hs as [Hs1 Hs2]. rewrite <- Hs1, <- Hs2.
      split_state s'. split; reflexivity.
    + split_state s. split; reflexivity.
  - left. split_state s. unfold MlmeRequest_st. cbn.
    case_if; case_engine; split; reflexivity.
  - left. split_state s. unfold MlmeRequest_st. cbn.
    case_if; case_engine; cbn; case_engine; split; reflexivity.
  - left. split_state s. unfold MlmeRequest_st. cbn.
    case_if; case_engine; split; reflexivity.
  - left. split_state s. unfold MlmeRequest_st. cbn.
    case_if; case_engine; split; reflexivity.
  - left. split_state s. split; reflexivity.
  - left. split_state s. cbn. case_if; split; reflexivity.
  - left. split_state s. cbn. case_if; split; reflexivity.
Qed.

Lemma MlmeConfirm_session (c : MlmeConfirm_t) (s : Sys M) :
  session_vars (g (MlmeConfirm cfg c s)) = session_vars (g s).
Proof.
  unfold MlmeConfirm.
  destruct (MlmeRequest c), (Status c);
    try reflexivity; try apply JoinNetwork_session.
  all: split_state s; cbn; case_if; reflexivity.
Qed.

Lemma MlmeIndication_session (i : MlmeIndication_t) (s : Sys M) :
  session_vars (g (MlmeIndication cfg i s)) = session_vars (g s).
Proof.
  unfold MlmeIndication.
  destruct (MlmeIndication_kind i);
    try reflexivity; try apply OnTxNextPacketTimerEvent_session.
  - destruct (mi_Status i); reflexivity.
  - split_state s. reflexivity.
Qed.

Lemma compliance_command_session (ind : McpsIndication_t) (s : Sys M) :
  Running (ComplianceTest (g (compliance_command cfg ind s))) = true →
  session_vars (g (compliance_command cfg ind s)) = session_vars (g s).
Proof.
  unfold compliance_command.
  destruct (State (ComplianceTest (g (upd_ct (set_State (Buffer ind 0)) s))) =? 0).
  { rewrite compliance_disable_Running. discriminate. }
  destruct (State (ComplianceTest (g (upd_ct (set_State (Buffer ind 0)) s))) =? 6)
    eqn:H6.
  { replace (State (ComplianceTest (g (upd_ct (set_State (Buffer ind 0)) s))))
      with 6 by (symmetry; apply Z.eqb_eq, H6).
    cbn [Z.eqb Pos.eqb].
    rewrite JoinNetwork_ComplianceTest, compliance_disable_Running. discriminate. }
  intros _. split_state s. unfold MlmeRequest_st. cbn in *.
  case_if; case_engine; reflexivity.
Qed.

Lemma McpsIndication_session (ind : McpsIndication_t) (s : Sys M) :
  Running (ComplianceTest (g s)) = true →
  Running (ComplianceTest (g (McpsIndication cfg ind s))) = true →
  session_vars (g (McpsIndication cfg ind s)) = session_vars (g s).
Proof.
  unfold McpsIndication. intros Hrun.
  destruct (ind_Status ind); try reflexivity.
  cbn zeta. rewrite (if_same_ct (FramePending ind) s), Hrun. 2: {
    apply OnTxNextPacketTimerEvent_ComplianceTest. }
  cbn [upd_hw g].
  match goal with |- context [port_dispatch cfg ind ?u] => set (t := u) end.
  assert (Ht : session_vars (g t) = session_vars (g s)
               ∧ Running (ComplianceTest (g t)) = true).
  { subst t. cbn [upd_ct upd_g g].
    assert (H0 : session_vars
                   (g (if FramePending ind then OnTxNextPacketTimerEvent s else s))
                 = session_vars (g s)).
    { destruct (FramePending ind);
        [apply OnTxNextPacketTimerEvent_session | reflexivity]. }
    rewrite <- H0.
    rewrite (if_same_ct (FramePending ind) s)
      by apply OnTxNextPacketTimerEvent_ComplianceTest.
    destruct (ComplianceTest (g s)).
    destruct (g (if FramePending ind then OnTxNextPacketTimerEvent s else s)).
    cbn in *. auto. }
  clearbody t. destruct Ht as [Hst Hrt]. rewrite <- Hst.
  destruct (RxData ind); [| reflexivity].
  unfold port_dispatch.
  destruct ((Port ind =? 1) || (Port ind =? 2)).
  { intros _. destruct (BufferSize ind =? 1); [| reflexivity].
    split_state t. reflexivity. }
  destruct (Port ind =? 224); [| reflexivity].
  rewrite Hrt. cbn [negb]. apply compliance_command_session.
Qed.

Lemma step_session (s : Sys M) (e : Event M) :
  Running (ComplianceTest (g s)) = true →
  AppPort (g s) = 224 →
  Running (ComplianceTest (g (step cfg s e))) = true →
  session_vars (g (step cfg s e)) = session_vars (g s).
Proof.
  intros Hrun Hport Hrun'. destruct e; cbn [step] in *; try reflexivity.
  - destruct (main_step_session inp s Hport) as [[H _] | (_ & H & _)]; exact H.
  - apply OnTxNextPacketTimerEvent_session.
  - split_state s. reflexivity.
  - unfold McpsConfirm. destruct (cnf_Status c); reflexivity.
  - apply McpsIndication_session; assumption.
  - apply MlmeConfirm_session.
  - apply MlmeIndication_session.
Qed.

Lemma run_session (evs : list (Event M)) (s : Sys M) :
  running_throughout cfg evs s = true →
  Running (ComplianceTest (g s)) = true →
  AppPort (g s) = 224 →
  session_vars (g (run cfg evs s)) = session_vars (g s).
Proof.
  unfold run. revert s.
  induction evs as [| e evs IH]; intros s Hall Hrun Hport; cbn [foldl]; [reflexivity |].
  cbn [running_throughout] in Hall. apply andb_true_iff in Hall as [Hrun' Hall].
  pose proof (step_session s e Hrun Hport Hrun') as Hs.
  rewrite IH; [exact Hs | exact Hall | exact Hrun' |].
  unfold session_vars in Hs. congruence.
Qed.

(** *** Leaving the test *)

Lemma compliance_disable_mode (s : Sys M) :
  tx_mode (g (compliance_disable cfg s))
  = (LORAWAN_CONFIRMED_MSG_ON, LORAWAN_APP_PORT, AppDataSizeBackup (g s)).
Proof.
  split_state s. unfold compliance_disable, TestSetDutyCycleOn. cbn.
  destruct (DUTYCYCLE_REGION cfg); reflexivity.
Qed.

Lemma JoinNetwork_tx_mode (s : Sys M) :
  tx_mode (g (JoinNetwork s)) = tx_mode (g s).
Proof. rewrite JoinNetwork_g. destruct (g s). reflexivity. Qed.

Lemma McpsIndication_exit_mode (ind : McpsIndication_t) (s : Sys M) :
  compliance_downlink ind = true →
  is_exit_command ind = true →
  Running (ComplianceTest (g s)) = true →
  tx_mode (g (McpsIndication cfg ind s))
  = (LORAWAN_CONFIRMED_MSG_ON, LORAWAN_APP_PORT, AppDataSizeBackup (g s)).
Proof.
  unfold compliance_downlink, is_exit_command, McpsIndication.
  intros Hdl Hex Hrun.
  destruct (ind_Status ind); try discriminate.
  apply andb_true_iff in Hdl as [-> Hport]. apply Z.eqb_eq in Hport.
  cbn zeta. rewrite (if_same_ct (FramePending ind) s), Hrun. 2: {
    apply OnTxNextPacketTimerEvent_ComplianceTest. }
  unfold port_dispatch. rewrite Hport. cbn [Z.eqb Pos.eqb orb].
  match goal with |- context [compliance_command cfg ind ?u] => set (t := u) end.
  assert (Ht : Running (ComplianceTest (g t)) = true
               ∧ AppDataSizeBackup (g t) = AppDataSizeBackup (g s)).
  { subst t. cbn [upd_ct upd_g g].
    assert (H0 : session_vars
                   (g (if FramePending ind then OnTxNextPacketTimerEvent s else s))
                 = session_vars (g s)).
    { destruct (FramePending ind);
        [apply OnTxNextPacketTimerEvent_session | reflexivity]. }
    rewrite (if_same_ct (FramePending ind) s)
      by apply OnTxNextPacketTimerEvent_ComplianceTest.
    unfold session_vars in H0.
    destruct (ComplianceTest (g s)).
    destruct (g (if FramePending ind then OnTxNextPacketTimerEvent s else s)).
    cbn in *. split; [exact Hrun | congruence]. }
  destruct Ht as [Hrt Hbk]. rewrite Hrt, <- Hbk. cbn [negb upd_hw g].
  clearbody t. unfold compliance_command.
  assert (Hst : State (ComplianceTest (g (upd_ct (set_State (Buffer ind 0)) t)))
                = Buffer ind 0).
  { split_state t. reflexivity. }
  assert (Hbt : AppDataSizeBackup (g (upd_ct (set_State (Buffer ind 0)) t))
                = AppDataSizeBackup (g t)).
  { split_state t. reflexivity. }
  rewrite Hst, <- Hbt.
  apply orb_true_iff in Hex as [H0 | H6]; apply Z.eqb_eq in H0 || apply Z.eqb_eq in H6.
  - rewrite H0. cbn [Z.eqb]. apply compliance_disable_mode.
  - rewrite H6. cbn [Z.eqb Pos.eqb].
    rewrite JoinNetwork_tx_mode. apply compliance_disable_mode.
Qed.

(** C2, as amended: when the compliance test is entered from an inactive state
    by the enable downlink and later, while it runs, left by a step 0 or step 6
    downlink, the entry copies the payload size into its backup and the exit
    writes the compile-time defaults into the confirmed mode and the port
    (unconfirmed, port 3), which are not backed up. If the test ran throughout,
    the payload size after the exit is the one before the entry, for every
    state the entry starts from. In every execution of the program the
    defaults are the values in force before the entry, so there the whole
    triple after the exit equals the one before the entry. *)
Theorem compliance_exit_restores_mode
    (s0 : Sys M) (during : list (Event M)) (enable leave : McpsIndication_t) :
  let s1 := McpsIndication cfg enable s0 in
  let s2 := run cfg during s1 in
  let s3 := McpsIndication cfg leave s2 in
  Running (ComplianceTest (g s0)) = false →
  compliance_downlink enable = true →
  is_enable_command enable = true →
  Running (ComplianceTest (g s2)) = true →
  compliance_downlink leave = true →
  is_exit_command leave = true →
  Running (ComplianceTest (g s1)) = true
  ∧ AppDataSizeBackup (g s1) = AppDataSize (g s0)
  ∧ Running (ComplianceTest (g s3)) = false
  ∧ IsTxConfirmed (g s3) = LORAWAN_CONFIRMED_MSG_ON
  ∧ AppPort (g s3) = LORAWAN_APP_PORT
  ∧ AppDataSize (g s3) = AppDataSizeBackup (g s2)
  ∧ (running_throughout cfg during s1 = true →
     AppDataSize (g s3) = AppDataSize (g s0))
  ∧ (∀ (m0 : M) (before : list (Event M)),
       s0 = run cfg before (init cfg m0) → tx_mode (g s3) = tx_mode (g s0)).
Proof.
  intros s1 s2 s3 Hrun0 Hdl1 Hen Hrun2 Hdl3 Hex.
  destruct (McpsIndication_enable enable s0 Hdl1 Hen Hrun0) as [Hrun1 Hbk].
  pose proof (McpsIndication_enable_port enable s0 Hdl1 Hen Hrun0) as Hport1.
  pose proof (McpsIndication_exit leave s2 Hdl3 Hex Hrun2) as Hrun3.
  pose proof (McpsIndication_exit_mode leave s2 Hdl3 Hex Hrun2) as Hmode3.
  fold s1 in Hrun1, Hbk, Hport1. fold s3 in Hrun3, Hmode3.
  unfold tx_mode in Hmode3.
  assert (Hc3 : IsTxConfirmed (g s3) = LORAWAN_CONFIRMED_MSG_ON) by congruence.
  assert (Hp3 : AppPort (g s3) = LORAWAN_APP_PORT) by congruence.
  assert (Hs3 : AppDataSize (g s3) = AppDataSizeBackup (g s2)) by congruence.
  repeat split; try assumption.
  - intros Hall.
    pose proof (run_session during s1 Hall Hrun1 Hport1) as Hs. fold s2 in Hs.
    unfold session_vars in Hs. congruence.
  - intros m0 before Hs0.
    assert (H0 : ginv (g s0) = true) by (rewrite Hs0; apply reachable_ginv).
    assert (H3 : ginv (g s3) = true).
    { apply McpsIndication_ginv, run_ginv, McpsIndication_ginv, H0. }
    destruct (tx_mode_inactive _ H0 Hrun0) as [Hm0 _].
    destruct (tx_mode_inactive _ H3 Hrun3) as [Hm3 _].
    rewrite Hm0, Hm3. reflexivity.
Qed.

(** ** The payloads of the compliance test *)

Lemma uint16_bytes (c : Z) :
  0 ≤ c < 65536 →
  to_uint8 (Z.shiftr c 8) = Z.shiftr c 8 ∧ to_uint8 c = Z.land c 255.
Proof.
  intros Hc. unfold to_uint8. rewrite Z.shiftr_div_pow2 by lia.
  change (2 ^ 8) with 256. split.
  - apply Z.mod_small. split; [apply Z.div_pos; lia |].
    apply Z.div_lt_upper_bound; lia.
  - change 255 with (Z.ones 8). rewrite Z.land_ones by lia. reflexivity.
Qed.

(** C6: when the compliance test runs at step 1 with no link-check result
    latched, the frame builder called with the current port produces, for
    every 16-bit value c of the downlink counter, exactly the two bytes
    c >> 8 and c & 0xFF. *)
Theorem counter_echo (inp : BoardInputs) (s : Sys M) (c : Z) :
  ginv (g s) = true →
  Running (ComplianceTest (g s)) = true →
  State (ComplianceTest (g s)) = 1 →
  LinkCheck (ComplianceTest (g s)) = false →
  DownLinkCounter (ComplianceTest (g s)) = c →
  0 ≤ c < 65536 →
  tx_payload (g (PrepareTxFrame inp (AppPort (g s)) s))
  = [Z.shiftr c 8; Z.land c 255].
Proof.
  intros H Hrun Hst Hlc Hc Hrange.
  split_state s. cbn in Hrun, Hst, Hlc, Hc. subst running st lc dlc.
  open_inv H. subst port.
  destruct buf as [| x0 [| x1 rest]]; try discriminate Hlen.
  destruct (uint16_bytes c Hrange) as [Hhi Hlo].
  unfold PrepareTxFrame, tx_payload. cbn. rewrite Hhi, Hlo. reflexivity.
Qed.

(** C4: a link-check confirmation with status OK that arrives while the
    compliance test runs latches the margin m and the gateway count g; the
    frame builder called next produces exactly the bytes 5, m, g whatever the
    compliance step is, and leaves the step at 1 and the latch cleared. *)
Theorem link_check_report (inp : BoardInputs) (s : Sys M) (c : MlmeConfirm_t) :
  ginv (g s) = true →
  Running (ComplianceTest (g s)) = true →
  MlmeRequest c = MLME_LINK_CHECK →
  Status c = LORAMAC_EVENT_INFO_STATUS_OK →
  let s1 := MlmeConfirm cfg c s in
  let s2 := PrepareTxFrame inp (AppPort (g s1)) s1 in
  LinkCheck (ComplianceTest (g s1)) = true
  ∧ tx_payload (g s2) = [5; cnf_DemodMargin c; cnf_NbGateways c]
  ∧ State (ComplianceTest (g s2)) = 1
  ∧ LinkCheck (ComplianceTest (g s2)) = false.
Proof.
  intros H Hrun Hreq Hst s1 s2. subst s2 s1.
  unfold MlmeConfirm. rewrite Hreq, Hst, Hrun.
  split_state s. cbn in Hrun. subst running. open_inv H. subst port.
  destruct buf as [| x0 [| x1 [| x2 rest]]]; try discriminate Hlen.
  unfold PrepareTxFrame, tx_payload. cbn. auto.
Qed.

(** *** Step 4: the echo *)

Lemma foldl_insert_lookup_notin (f : nat → Z) (l : list nat) (buf : list Z) (j : nat) :
  j ∉ l → foldl (fun b i => <[i := f i]> b) buf l !! j = buf !! j.
Proof.
  revert buf. induction l as [| i l IH]; intros buf Hj; cbn [foldl].
  - reflexivity.
  - apply not_elem_of_cons in Hj as [Hne Hj].
    rewrite IH by exact Hj. apply list_lookup_insert_ne. congruence.
Qed.

Lemma foldl_insert_lookup_in (f : nat → Z) (l : list nat) (buf : list Z) (j : nat) :
  j ∈ l → (j < length buf)%nat →
  foldl (fun b i => <[i := f i]> b) buf l !! j = Some (f j).
Proof.
  revert buf. induction l as [| i l IH]; intros buf Hj Hlen; cbn [foldl].
  - apply elem_of_nil in Hj. contradiction.
  - destruct (decide (j ∈ l)) as [Hin | Hnotin].
    + apply IH; [exact Hin | rewrite length_insert; exact Hlen].
    + apply elem_of_cons in Hj as [-> | Hin]; [| contradiction].
      rewrite foldl_insert_lookup_notin by exact Hnotin.
      apply list_lookup_insert_eq, Hlen.
Qed.

Lemma take_echo_loop (n : Z) (rx : Z → Z) (buf : list Z) :
  length buf = 242%nat →
  1 ≤ n ≤ LORAWAN_APP_DATA_MAX_SIZE →
  take (Z.to_nat n)
       (echo_loop (Z.min n LORAWAN_APP_DATA_MAX_SIZE) rx (<[0%nat := 4]> buf))
  = 4 :: ((fun i => to_uint8 (rx (Z.of_nat i) + 1)) <$> seq 1 (Z.to_nat n - 1)).
Proof.
  unfold LORAWAN_APP_DATA_MAX_SIZE. intros Hlen Hn.
  rewrite Z.min_l by lia. unfold echo_loop.
  set (f := fun i : nat => to_uint8 (rx (Z.of_nat i) + 1)).
  set (N := Z.to_nat n). assert (HN : (1 ≤ N ≤ 242)%nat) by lia.
  clearbody N. apply list_eq. intros i.
  destruct (decide (i < N)%nat) as [Hlt | Hge].
  - rewrite lookup_take_lt by exact Hlt. destruct i as [| i].
    + rewrite foldl_insert_lookup_notin.
      * cbn. apply list_lookup_insert_eq. lia.
      * rewrite elem_of_seq. lia.
    + rewrite foldl_insert_lookup_in.
      * replace ((4 :: (f <$> seq 1 (N - 1))) !! S i)
          with ((f <$> seq 1 (N - 1)) !! i) by reflexivity.
        rewrite list_lookup_fmap, lookup_seq_lt by lia. reflexivity.
      * rewrite elem_of_seq. lia.
      * rewrite length_insert. lia.
  - rewrite lookup_take_ge by lia. symmetry. apply lookup_ge_None_2.
    cbn [length]. rewrite length_fmap, length_seq. lia.
Qed.

(** The echo for a downlink that fits the application buffer: the next
    payload is 4 followed by the received bytes past the first, each
    incremented modulo 256. *)
Lemma echo_payload (inp : BoardInputs) (ind : McpsIndication_t) (s : Sys M) :
  ginv (g s) = true →
  Running (ComplianceTest (g s)) = true →
  LinkCheck (ComplianceTest (g s)) = false →
  compliance_downlink ind = true →
  Buffer ind 0 = 4 →
  1 ≤ BufferSize ind ≤ LORAWAN_APP_DATA_MAX_SIZE →
  let s1 := McpsIndication cfg ind s in
  let s2 := PrepareTxFrame inp (AppPort (g s1)) s1 in
  tx_payload (g s2)
  = 4 :: ((fun i => to_uint8 (Buffer ind (Z.of_nat i) + 1))
          <$> seq 1 (Z.to_nat (BufferSize ind) - 1))
  ∧ AppDataSize (g s2) = BufferSize ind.
Proof.
  intros H Hrun Hlc Hdl Hb0 Hsize s1 s2. subst s2 s1.
  unfold compliance_downlink in Hdl. unfold McpsIndication.
  destruct (ind_Status ind); try discriminate.
  apply andb_true_iff in Hdl as [-> Hport]. apply Z.eqb_eq in Hport.
  cbn zeta.
  assert (Ht : ginv (g (if FramePending ind then OnTxNextPacketTimerEvent s else s))
               = true
             ∧ ComplianceTest
                 (g (if FramePending ind then OnTxNextPacketTimerEvent s else s))
               = ComplianceTest (g s)).
  { destruct (FramePending ind); split; try assumption; try reflexivity.
    - apply OnTxNextPacketTimerEvent_ginv, H.
    - apply OnTxNextPacketTimerEvent_ComplianceTest. }
  revert Ht. generalize (if FramePending ind then OnTxNextPacketTimerEvent s else s).
  intros t [Hinv Hct]. rewrite <- Hct in Hrun, Hlc. clear Hct H s.
  split_state t. cbn in Hrun, Hlc. subst running lc. open_inv Hinv. subst port.
  unfold port_dispatch, compliance_command. rewrite Hport, Hb0.
  unfold PrepareTxFrame, tx_payload. cbn.
  split; [| reflexivity].
  apply take_echo_loop; assumption.
Qed.

(** ** Downlinks on port 224 that are no command *)

(** C5, as amended: for a port 224 downlink, apart from what its
    frame-pending flag triggers, (a) while the test is inactive a payload
    other than the four bytes 0x01 changes no variable of main.c and leaves
    the engine alone; (b) while the test runs a first byte outside 0..11 runs
    no command and leaves the engine alone, the downlink counter is
    incremented as for every downlink and the compliance step is overwritten
    with that byte, and no other variable changes. *)
Theorem unrecognised_compliance_downlink (ind : McpsIndication_t) (s : Sys M) :
  compliance_downlink ind = true →
  let s0 := if FramePending ind then OnTxNextPacketTimerEvent s else s in
  let s' := McpsIndication cfg ind s in
  let ct := ComplianceTest (g s) in
  (Running ct = false → is_enable_command ind = false → ignored s0 s')
  ∧ (Running ct = true → ¬ (0 ≤ Buffer ind 0 ≤ 11) →
     g s' = set_ComplianceTest
              (set_State (Buffer ind 0)
                 (set_DownLinkCounter (to_uint16 (DownLinkCounter ct + 1)) ct))
              (g s0)
     ∧ mac s' = mac s0).
Proof.
  intros Hdl s0 s' ct. subst s' ct.
  unfold compliance_downlink in Hdl. unfold McpsIndication.
  destruct (ind_Status ind); try discriminate.
  apply andb_true_iff in Hdl as [-> Hport]. apply Z.eqb_eq in Hport.
  cbn zeta. fold s0.
  assert (Hct : ComplianceTest (g s0) = ComplianceTest (g s)).
  { subst s0. apply if_same_ct, OnTxNextPacketTimerEvent_ComplianceTest. }
  rewrite <- Hct. clearbody s0. clear Hct.
  unfold port_dispatch, ignored. rewrite Hport. cbn [Z.eqb Pos.eqb orb].
  split.
  - intros Hrun Hen. rewrite Hrun. cbn [negb].
    unfold compliance_enable. rewrite Hrun, Hen.
    split_state s0. split; reflexivity.
  - intros Hrun Hcmd. rewrite Hrun.
    split_state s0. cbn in Hrun. subst running. cbn.
    unfold compliance_command. cbn.
    repeat match goal with
    | |- context [Buffer ind 0 =? ?k] =>
        destruct (Z.eqb_spec (Buffer ind 0) k); [lia |]
    end.
    cbn. split; reflexivity.
Qed.

End Properties.

(** * The properties on concrete executions *)

(** C1: immediately after initialisation WakeUpState is START, which the
    claim excludes. *)
Lemma WakeUpState_START_at_initialisation :
  ¬ never_RESTORE_START_JOIN
      (WakeUpState (g (run default_build [] (init default_build SimMac.accepting)))).
Proof. intros (_ & Hstart & _). apply Hstart. reflexivity. Qed.

(** The value reaches DeviceState too: on a device whose restored context is
    already activated, the transmit timer sends the main loop back to START. *)
Example DeviceState_START_after_timer :
  DeviceState
    (g (run default_build
          [EvMacProgress
             (fun m => SimMac.mk true ACTIVATION_TYPE_OTAA CLASS_A [] []);
           EvMainLoop default_inputs; EvMainLoop default_inputs;
           EvMainLoop default_inputs; EvMainLoop default_inputs;
           EvTxNextPacketTimer]
          (init default_build SimMac.accepting)))
  = DEVICE_STATE_START.
Proof. reflexivity. Qed.

(** C2: from a state with confirmed mode on, port 5 and payload size 7, the
    test entered and left by step 0 ends in unconfirmed mode on port 3: of the
    triple only the payload size is restored. *)
Lemma exit_resets_mode_to_defaults :
  Running (ComplianceTest (g confirmed_port5_state)) = false
  ∧ tx_mode (g confirmed_port5_state) = (true, 5, 7)
  ∧ tx_mode
      (g (McpsIndication default_build (downlink 224 [0])
            (McpsIndication default_build enable_downlink confirmed_port5_state)))
    = (false, 3, 7)
  ∧ tx_mode
      (g (McpsIndication default_build (downlink 224 [0])
            (McpsIndication default_build enable_downlink confirmed_port5_state)))
    ≠ tx_mode (g confirmed_port5_state).
Proof. repeat split. intros H. discriminate H. Qed.

Lemma compliance_exit_restores_mode_witness :
  let during :=
    [EvMcpsIndication (downlink 224 [2]);
     EvMainLoop default_inputs;
     EvMcpsIndication (downlink 224 [4; 9; 9])] in
  AppDataSize
    (g (McpsIndication default_build (downlink 224 [6])
          (run default_build during
             (McpsIndication default_build enable_downlink confirmed_port5_state))))
  = 7
  ∧ IsTxConfirmed (g (run default_build during active_state)) = true
  ∧ tx_mode
      (g (McpsIndication default_build (downlink 224 [6])
            (run default_build during active_state)))
    = tx_mode (g (init default_build SimMac.accepting)).
Proof.
  split; [| split; [reflexivity |]].
  - pose proof (compliance_exit_restores_mode default_build confirmed_port5_state
                  [EvMcpsIndication (downlink 224 [2]);
                   EvMainLoop default_inputs;
                   EvMcpsIndication (downlink 224 [4; 9; 9])]
                  enable_downlink (downlink 224 [6])
                  eq_refl eq_refl eq_refl eq_refl eq_refl eq_refl) as H.
    cbn zeta in H. destruct H as (_ & _ & _ & _ & _ & _ & H & _).
    rewrite (H eq_refl). reflexivity.
  - pose proof (compliance_exit_restores_mode default_build
                  (init default_build SimMac.accepting)
                  [EvMcpsIndication (downlink 224 [2]);
                   EvMainLoop default_inputs;
                   EvMcpsIndication (downlink 224 [4; 9; 9])]
                  enable_downlink (downlink 224 [6])
                  eq_refl eq_refl eq_refl eq_refl eq_refl eq_refl) as H.
    cbn zeta in H. destruct H as (_ & _ & _ & _ & _ & _ & _ & H).
    exact (H SimMac.accepting [] eq_refl).
Defined.

(** C3: a step 4 downlink of 250 bytes leaves a recorded payload length of
    250, above the 242 bytes of the application buffer. *)
Theorem echo_size_exceeds_buffer :
  BufferSize oversize_echo = 250
  ∧ AppDataSize (g (McpsIndication default_build oversize_echo active_state)) = 250
  ∧ LORAWAN_APP_DATA_MAX_SIZE < 250
  ∧ AppDataSize
      (g (PrepareTxFrame default_inputs 224
            (McpsIndication default_build oversize_echo active_state))) = 250.
Proof. repeat split; vm_compute; reflexivity. Qed.

Example echo_three_bytes :
  tx_payload
    (g (PrepareTxFrame default_inputs 224
          (McpsIndication default_build (downlink 224 [4; 9; 255]) active_state)))
  = [4; 10; 0].
Proof. reflexivity. Qed.

Lemma link_check_report_witness :
  tx_payload
    (g (PrepareTxFrame default_inputs 224
          (MlmeConfirm default_build link_check_ok active_state)))
  = [5; 17; 2].
Proof.
  apply (link_check_report default_build default_inputs active_state link_check_ok);
    reflexivity.
Defined.

(** C5: while the test runs, a downlink whose first byte is 12 is no command,
    and it moves the compliance step from 1 to 12 and the downlink counter
    from 0 to 1. *)
Lemma unknown_command_not_ignored :
  Running (ComplianceTest (g active_state)) = true
  ∧ ¬ (0 ≤ Buffer (downlink 224 [12]) 0 ≤ 11)
  ∧ ¬ ignored active_state
        (McpsIndication default_build (downlink 224 [12]) active_state).
Proof.
  split; [reflexivity |]. split.
  - change (Buffer (downlink 224 [12]) 0) with 12. lia.
  - intros [Hg _].
    apply (f_equal (fun x => State (ComplianceTest x))) in Hg.
    vm_compute in Hg. discriminate Hg.
Qed.

Example unknown_command_step_and_counter :
  let s' := McpsIndication default_build (downlink 224 [12]) active_state in
  State (ComplianceTest (g active_state)) = 1
  ∧ State (ComplianceTest (g s')) = 12
  ∧ DownLinkCounter (ComplianceTest (g active_state)) = 0
  ∧ DownLinkCounter (ComplianceTest (g s')) = 1.
Proof. repeat split. Qed.

Lemma unrecognised_compliance_downlink_witness :
  ignored (init default_build SimMac.accepting)
    (McpsIndication default_build (downlink 224 [1; 1; 1])
       (init default_build SimMac.accepting))
  ∧ State (ComplianceTest
             (g (McpsIndication default_build (downlink 224 [12]) active_state)))
    = 12.
Proof.
  split.
  - apply (unrecognised_compliance_downlink default_build (downlink 224 [1; 1; 1])
             (init default_build SimMac.accepting));
      reflexivity.
  - destruct (unrecognised_compliance_downlink default_build (downlink 224 [12])
                active_state eq_refl) as [_ Hactive].
    destruct Hactive as [Hg _];
      [reflexivity | change (Buffer (downlink 224 [12]) 0) with 12; lia |].
    rewrite Hg. reflexivity.
Defined.

Lemma counter_echo_witness :
  tx_payload (g (PrepareTxFrame default_inputs 224 active_state)) = [0; 0].
Proof.
  apply (counter_echo default_inputs active_state 0);
    first [reflexivity | lia].
Defined.

Lemma cycle_delay_witness :
  DeviceState (g cycle_state) = DEVICE_STATE_CYCLE
  ∧ 25000 ≤ TxDutyCycleTime (g (main_step default_build default_inputs cycle_state))
      ≤ 35000.
Proof.
  split; [reflexivity |].
  apply (cycle_delay default_build default_inputs cycle_state); reflexivity.
Defined.

Lemma JoinNetwork_outcome_witness :
  DeviceState (g (JoinNetwork (init default_build SimMac.accepting)))
  = DEVICE_STATE_SLEEP
  ∧ DeviceState (g (JoinNetwork refusing_state)) = DEVICE_STATE_CYCLE
  ∧ MlmeConfirm default_build join_failed refusing_state
    = JoinNetwork refusing_state.
Proof.
  split; [| split].
  - apply (JoinNetwork_outcome default_build
             (init default_build SimMac.accepting) join_failed).
    reflexivity.
  - apply (JoinNetwork_outcome default_build refusing_state join_failed).
    discriminate.
  - apply (JoinNetwork_outcome default_build refusing_state join_failed).
    + reflexivity.
    + discriminate.
Defined.

Lemma MlmeConfirm_ping_slot_info_witness :
  SimMac.device_class (mac (MlmeConfirm default_build ping_slot_ok active_state))
  = CLASS_B
  ∧ DeviceState (g (MlmeConfirm default_build ping_slot_ok active_state))
    = DEVICE_STATE_SEND
  ∧ WakeUpState (g (MlmeConfirm default_build ping_slot_failed active_state))
    = DEVICE_STATE_REQ_PINGSLOT_ACK.
Proof.
  destruct (MlmeConfirm_ping_slot_info default_build active_state ping_slot_ok
              eq_refl) as [Hok _].
  destruct (MlmeConfirm_ping_slot_info default_build active_state ping_slot_failed
              eq_refl) as [_ Hfail].
  destruct (Hok eq_refl) as (Hmac & _ & Hds & _).
  destruct Hfail as (Hws & _); [discriminate |].
  split; [rewrite Hmac; reflexivity | split; assumption].
Defined.

Lemma MlmeConfirm_time_sync_witness :
  DeviceState (g (MlmeConfirm default_build device_time_failed active_state))
  = DEVICE_STATE_BEACON_ACQUISITION
  ∧ NextTx (g (MlmeConfirm default_build device_time_failed active_state)) = true.
Proof.
  destruct (MlmeConfirm_time_sync default_build active_state device_time_failed)
    as (_ & Hds & Hntx & _).
  - left. reflexivity.
  - split; assumption.
Defined.

(** * Further properties of main.c *)

Ltac split_state s :=
  destruct s as [[dev port size backup buf conf duty led ntx pend ds ws
                  [running st c1 c2 c3 dlc lc dm ng] ad] b m].

Ltac case_engine :=
  repeat match goal with
  | |- context [LoRaMacMlmeRequest ?r ?m] =>
      destruct (LoRaMacMlmeRequest r m) as [[] ?]
  | |- context [LoRaMacMcpsRequest ?r ?m] =>
      destruct (LoRaMacMcpsRequest r m) as [[] ?]
  | |- context [LoRaMacMibGetNetworkActivation ?m] =>
      destruct (LoRaMacMibGetNetworkActivation m) as [[] []]
  | |- context [LoRaMacQueryTxPossible ?n ?m] =>
      destruct (LoRaMacQueryTxPossible n m)
  | |- context [NvmCtxMgmtRestore ?m] =>
      destruct (NvmCtxMgmtRestore m) as [[] ?]
  end.

Ltac case_if :=
  repeat match goal with
  | |- context [if ?c then _ else _] => destruct c eqn:?; cbn
  end.

Section MainLoop.

Context {M : Type} {mac_engine : MacEngine M}.
Variable cfg : BuildConfig.

(** ** The telemetry frame of port 3 *)

(** X1: on port 3 the frame builder writes four bytes: the application LED
    state, the potentiometer level and the battery voltage as a 16-bit value,
    high byte first; both size variables become 4 and neither the compliance
    state, the board nor the engine is touched. *)
Theorem telemetry_frame (inp : BoardInputs) (s : Sys M) :
  (4 ≤ length (AppDataBuffer (g s)))%nat →
  let s' := PrepareTxFrame inp 3 s in
  let vdd := to_uint16 (BoardGetBatteryVoltage inp) in
  tx_payload (g s')
  = [if AppLedStateOn (g s) then 1 else 0; to_uint8 (BoardGetPotiLevel inp);
     vdd / 256; vdd mod 256]
  ∧ 0 ≤ vdd / 256 < 256
  ∧ AppDataSize (g s') = 4 ∧ AppDataSizeBackup (g s') = 4
  ∧ ComplianceTest (g s') = ComplianceTest (g s)
  ∧ hw s' = hw s ∧ mac s' = mac s.
Proof.
  intros Hlen s' vdd. subst s'.
  assert (Hv : 0 ≤ vdd < 65536) by (apply Z.mod_pos_bound; lia).
  assert (Hhi : 0 ≤ vdd / 256 < 256).
  { split; [apply Z.div_pos; lia | apply Z.div_lt_upper_bound; lia]. }
  assert (Hb2 : Z.land (Z.shiftr vdd 8) 255 = vdd / 256).
  { rewrite Z.shiftr_div_pow2 by lia. change (2 ^ 8) with 256.
    change 255 with (Z.ones 8). rewrite Z.land_ones by lia.
    apply Z.mod_small. exact Hhi. }
  assert (Hb3 : Z.land vdd 255 = vdd mod 256).
  { change 255 with (Z.ones 8). rewrite Z.land_ones by lia. reflexivity. }
  split_state s. cbn in Hlen.
  destruct buf as [| x0 [| x1 [| x2 [| x3 rest]]]]; cbn in Hlen; try lia.
  unfold PrepareTxFrame, tx_payload. cbn. fold vdd. rewrite Hb2, Hb3.
  repeat split; try reflexivity; lia.
Qed.

(** ** SendFrame and the SEND step *)

(** X2: SendFrame reports that a retry is needed exactly when the engine does
    not answer the request with OK. When the capacity query fails the request
    is an empty unconfirmed frame without port or buffer, whatever the mode;
    otherwise it carries the payload on the current port, confirmed with 8
    trials when IsTxConfirmed and unconfirmed otherwise. Of the variables of
    main.c only AppData changes. *)
Theorem SendFrame_contract (s : Sys M) :
  let x := g s in
  let req := SendFrame_request s in
  let answer := LoRaMacMcpsRequest req (mac s) in
  let s' := snd (SendFrame s) in
  fst (SendFrame s) = negb (status_ok (fst answer))
  ∧ mac s' = snd answer
  ∧ hw s' = hw s
  ∧ g s' = set_AppData (AppData (g s')) x
  ∧ (status_ok (LoRaMacQueryTxPossible (AppDataSize x) (mac s)) = false →
     req = mkMcpsReq MCPS_UNCONFIRMED None None 0 None LORAWAN_DEFAULT_DATARATE)
  ∧ (status_ok (LoRaMacQueryTxPossible (AppDataSize x) (mac s)) = true →
     req = mkMcpsReq (if IsTxConfirmed x then MCPS_CONFIRMED else MCPS_UNCONFIRMED)
             (Some (AppPort x)) (Some (tx_payload x)) (AppDataSize x)
             (if IsTxConfirmed x then Some 8 else None) LORAWAN_DEFAULT_DATARATE).
Proof.
  intros x req answer s'. subst s' answer req x.
  unfold SendFrame. cbn [mac upd_g].
  destruct (LoRaMacMcpsRequest (SendFrame_request s) (mac s)) as [status m'].
  split_state s. unfold SendFrame_request. cbn.
  repeat split.
  - destruct status; reflexivity.
  - destruct status; reflexivity.
  - destruct status; reflexivity.
  - destruct status; reflexivity.
  - destruct (LoRaMacQueryTxPossible size m); cbn; intros H;
      first [discriminate H | reflexivity].
  - destruct (LoRaMacQueryTxPossible size m); cbn; intros H;
      first [discriminate H | destruct conf; reflexivity].
Qed.

(** X3: the SEND step with NextTx set builds the frame for the current port,
    submits it, and leaves in NextTx whether a retry is needed: NextTx is
    false afterwards exactly when the engine accepted the frame. DeviceState
    becomes CYCLE either way. *)
Theorem send_step_result (inp : BoardInputs) (s : Sys M) :
  DeviceState (g s) = DEVICE_STATE_SEND →
  NextTx (g s) = true →
  let p := PrepareTxFrame inp (AppPort (g s)) s in
  let answer := LoRaMacMcpsRequest (SendFrame_request p) (mac p) in
  let s' := main_step cfg inp s in
  DeviceState (g s') = DEVICE_STATE_CYCLE
  ∧ NextTx (g s') = negb (status_ok (fst answer))
  ∧ mac s' = snd answer
  ∧ tx_payload (g s') = tx_payload (g p).
Proof.
  intros Hds Hntx p answer s'. subst s' answer.
  unfold main_step. rewrite Hds, Hntx. fold p.
  unfold SendFrame. cbn [mac upd_g].
  destruct (LoRaMacMcpsRequest (SendFrame_request p) (mac p)) as [status m'].
  clearbody p. split_state p.
  destruct status; cbn; repeat split; reflexivity.
Qed.

(** X4: with NextTx cleared, the SEND step and the four request steps of the
    class B bring-up ask the engine for nothing: the pass changes DeviceState
    (to CYCLE after SEND, to SEND after a request state) and nothing else. *)
Theorem no_request_without_NextTx (inp : BoardInputs) (s : Sys M) (d' : eDeviceState) :
  NextTx (g s) = false →
  request_step_target (DeviceState (g s)) = Some d' →
  main_step cfg inp s = upd_g (set_DeviceState d') s.
Proof.
  intros Hntx Hd. unfold main_step.
  destruct (DeviceState (g s)); cbn in Hd; try discriminate Hd;
    rewrite Hntx; congruence.
Qed.

(** ** The successors of a state *)


(** ** The control variables in every execution *)

Lemma ctl_spec (x : Globals) :
  ctl_ok x = true ↔
  DeviceState x ≠ DEVICE_STATE_SWITCH_CLASS
  ∧ wake_up_target (WakeUpState x) = true
  ∧ (IsMacProcessPending x = 0 ∨ IsMacProcessPending x = 1).
Proof.
  unfold ctl_ok. rewrite !andb_true_iff, orb_true_iff, !Z.eqb_eq, negb_true_iff.
  assert (Hd : is_SWITCH_CLASS (DeviceState x) = false
               ↔ DeviceState x ≠ DEVICE_STATE_SWITCH_CLASS).
  { destruct (DeviceState x); cbn; split; intros; congruence. }
  tauto.
Qed.

Arguments ctl_ok : simpl never.

Lemma wake_up_target_not_SWITCH_CLASS (w : eDeviceState) :
  wake_up_target w = true → w ≠ DEVICE_STATE_SWITCH_CLASS.
Proof. intros H ->. discriminate H. Qed.

Ltac open_ctl H :=
  apply ctl_spec in H; cbn in H; destruct H as (Hds & Hwake & Hpend).

Ltac close_ctl :=
  apply ctl_spec; cbn;
  repeat split;
  first [ assumption | reflexivity | discriminate
        | apply wake_up_target_not_SWITCH_CLASS; assumption
        | left; reflexivity | right; reflexivity ].

Lemma JoinNetwork_ctl (s : Sys M) :
  ctl_ok (g s) = true → ctl_ok (g (JoinNetwork s)) = true.
Proof.
  intros H. unfold JoinNetwork, MlmeRequest_st.
  destruct (LoRaMacMlmeRequest _ (mac s)) as [[] m'];
    split_state s; open_ctl H; close_ctl.
Qed.

Lemma OnTxNextPacketTimerEvent_ctl (s : Sys M) :
  ctl_ok (g s) = true → ctl_ok (g (OnTxNextPacketTimerEvent s)) = true.
Proof.
  intros H. unfold OnTxNextPacketTimerEvent. cbn [mac upd_hw].
  destruct (LoRaMacMibGetNetworkActivation (mac s)) as [[] []];
    try exact H; try (apply JoinNetwork_ctl; exact H).
  all: split_state s; open_ctl H; close_ctl.
Qed.

Lemma PrepareTxFrame_ctl (inp : BoardInputs) (p : Z) (s : Sys M) :
  ctl_ok (g s) = true → ctl_ok (g (PrepareTxFrame inp p s)) = true.
Proof.
  intros H. split_state s. unfold PrepareTxFrame. cbn. case_if; exact H.
Qed.

Lemma SendFrame_ctl (s : Sys M) :
  ctl_ok (g s) = true → ctl_ok (g (snd (SendFrame s))) = true.
Proof.
  intros H. split_state s. unfold SendFrame. cbn. case_engine; cbn; exact H.
Qed.

Lemma compliance_disable_ctl (s : Sys M) :
  ctl_ok (g s) = true → ctl_ok (g (compliance_disable cfg s)) = true.
Proof.
  intros H. split_state s. unfold compliance_disable, TestSetDutyCycleOn. cbn.
  destruct (DUTYCYCLE_REGION cfg); exact H.
Qed.

Lemma compliance_command_ctl (ind : McpsIndication_t) (s : Sys M) :
  ctl_ok (g s) = true → ctl_ok (g (compliance_command cfg ind s)) = true.
Proof.
  intros H. unfold compliance_command.
  set (s1 := upd_ct (set_State (Buffer ind 0)) s).
  assert (H1 : ctl_ok (g s1) = true) by (subst s1; split_state s; exact H).
  clearbody s1. clear H s.
  destruct (State (ComplianceTest (g s1)) =? 0).
  { apply compliance_disable_ctl, H1. }
  destruct (State (ComplianceTest (g s1)) =? 6) eqn:H6.
  { replace (State (ComplianceTest (g s1))) with 6 by (symmetry; apply Z.eqb_eq, H6).
    cbn. apply JoinNetwork_ctl, compliance_disable_ctl, H1. }
  split_state s1. open_ctl H1. unfold MlmeRequest_st. cbn in *.
  case_if; case_engine; close_ctl.
Qed.

Lemma port_dispatch_ctl (ind : McpsIndication_t) (s : Sys M) :
  ctl_ok (g s) = true → ctl_ok (g (port_dispatch cfg ind s)) = true.
Proof.
  intros H. unfold port_dispatch.
  destruct ((Port ind =? 1) || (Port ind =? 2)).
  { destruct (BufferSize ind =? 1); [| exact H]. split_state s. exact H. }
  destruct (Port ind =? 224); [| exact H].
  destruct (negb (Running (ComplianceTest (g s)))).
  - unfold compliance_enable. destruct (is_enable_command ind); [| exact H].
    split_state s. unfold TestSetDutyCycleOn. cbn.
    destruct (DUTYCYCLE_REGION cfg); exact H.
  - apply compliance_command_ctl, H.
Qed.

Lemma McpsIndication_ctl (ind : McpsIndication_t) (s : Sys M) :
  ctl_ok (g s) = true → ctl_ok (g (McpsIndication cfg ind s)) = true.
Proof.
  intros H. unfold McpsIndication.
  destruct (ind_Status ind); try exact H.
  cbn [g upd_hw].
  match goal with |- context [port_dispatch cfg ind ?t] => set (s2 := t) end.
  assert (H2 : ctl_ok (g s2) = true).
  { subst s2.
    match goal with |- context [Running (ComplianceTest (g ?t))] => set (s1 := t) end.
    assert (H1 : ctl_ok (g s1) = true).
    { subst s1. destruct (FramePending ind);
        [apply OnTxNextPacketTimerEvent_ctl |]; exact H. }
    clearbody s1. destruct (Running (ComplianceTest (g s1))); [| exact H1].
    split_state s1. exact H1. }
  clearbody s2. destruct (RxData ind); [apply port_dispatch_ctl |]; exact H2.
Qed.

Lemma MlmeConfirm_ctl (c : MlmeConfirm_t) (s : Sys M) :
  ctl_ok (g s) = true → ctl_ok (g (MlmeConfirm cfg c s)) = true.
Proof.
  intros H. unfold MlmeConfirm, timing_request_state.
  destruct (MlmeRequest c), (Status c);
    try exact H; try (apply JoinNetwork_ctl; exact H).
  all: split_state s; open_ctl H; cbn;
       destruct (USE_BEACON_TIMING cfg); case_if; close_ctl.
Qed.

Lemma MlmeIndication_ctl (i : MlmeIndication_t) (s : Sys M) :
  ctl_ok (g s) = true → ctl_ok (g (MlmeIndication cfg i s)) = true.
Proof.
  intros H. unfold MlmeIndication, timing_request_state.
  destruct (MlmeIndication_kind i);
    try exact H; try (apply OnTxNextPacketTimerEvent_ctl; exact H).
  - destruct (mi_Status i); exact H.
  - split_state s. open_ctl H. cbn.
    destruct (USE_BEACON_TIMING cfg); close_ctl.
Qed.

Lemma main_step_ctl (inp : BoardInputs) (s : Sys M) :
  ctl_ok (g s) = true → ctl_ok (g (main_step cfg inp s)) = true.
Proof.
  intros H. unfold main_step.
  destruct (DeviceState (g s)) eqn:Hd.
  - split_state s. open_ctl H. unfold MibSet. cbn.
    case_engine; cbn; case_if; close_ctl.
  - split_state s. open_ctl H. unfold MibSet, TestSetDutyCycleOn. cbn.
    destruct (DUTYCYCLE_REGION cfg); cbn; case_engine; close_ctl.
  - destruct (OVER_THE_AIR_ACTIVATION cfg); [apply JoinNetwork_ctl, H |].
    split_state s. open_ctl H. unfold timing_request_state. cbn.
    case_if; close_ctl.
  - destruct (NextTx (g s)).
    + pose proof (SendFrame_ctl _ (PrepareTxFrame_ctl inp (AppPort (g s)) s H)) as H'.
      destruct (SendFrame (PrepareTxFrame inp (AppPort (g s)) s)) as [retry s'].
      cbn [snd] in H'. split_state s'. open_ctl H'. close_ctl.
    + split_state s. open_ctl H. close_ctl.
  - split_state s. open_ctl H. unfold MlmeRequest_st. cbn.
    case_if; case_engine; close_ctl.
  - split_state s. open_ctl H. unfold MlmeRequest_st. cbn.
    case_if; case_engine; cbn; case_engine; close_ctl.
  - split_state s. open_ctl H. unfold MlmeRequest_st. cbn.
    case_if; case_engine; close_ctl.
  - split_state s. open_ctl H. unfold MlmeRequest_st. cbn.
    case_if; case_engine; close_ctl.
  - split_state s. open_ctl H. close_ctl.
  - split_state s. open_ctl H. cbn. case_if; close_ctl.
  - split_state s. open_ctl H. cbn. case_if; close_ctl.
Qed.

Lemma run_ctl (evs : list (Event M)) (s : Sys M) :
  ctl_ok (g s) = true → ctl_ok (g (run cfg evs s)) = true.
Proof.
  unfold run. revert s.
  induction evs as [| e evs IH]; intros s H; cbn [foldl]; [exact H |].
  apply IH. destruct e; cbn [step]; try exact H.
  - apply main_step_ctl, H.
  - apply OnTxNextPacketTimerEvent_ctl, H.
  - split_state s. open_ctl H. close_ctl.
  - unfold McpsConfirm. destruct (cnf_Status c); exact H.
  - apply McpsIndication_ctl, H.
  - apply MlmeConfirm_ctl, H.
  - apply MlmeIndication_ctl, H.
Qed.

(** X6: in no state of any execution is DeviceState SWITCH_CLASS, the one
    enumerator without a case of its own: the default branch of the main
    switch is never taken. *)
Theorem DeviceState_never_SWITCH_CLASS (m0 : M) (evs : list (Event M)) :
  DeviceState (g (run cfg evs (init cfg m0))) ≠ DEVICE_STATE_SWITCH_CLASS.
Proof.
  pose proof (run_ctl evs (init cfg m0) eq_refl) as H.
  apply ctl_spec in H. tauto.
Qed.

(** X7: in every execution IsMacProcessPending is 0 or 1, and a pass of the
    main loop in SLEEP leaves it 0: a pending notification is consumed by the
    pass instead of being slept over, DeviceState stays SLEEP and no other
    variable changes. *)
Theorem sleep_step_clears_pending
    (m0 : M) (evs : list (Event M)) (inp : BoardInputs) :
  let s := run cfg evs (init cfg m0) in
  let s' := main_step cfg inp s in
  (IsMacProcessPending (g s) = 0 ∨ IsMacProcessPending (g s) = 1)
  ∧ (DeviceState (g s) = DEVICE_STATE_SLEEP →
     g s' = set_IsMacProcessPending 0 (g s)
     ∧ DeviceState (g s') = DEVICE_STATE_SLEEP).
Proof.
  intros s s'. subst s'.
  pose proof (run_ctl evs (init cfg m0) eq_refl) as H. fold s in H.
  clearbody s. apply ctl_spec in H. destruct H as (_ & _ & Hpend).
  split; [exact Hpend |].
  intros Hds. unfold main_step. rewrite Hds.
  split_state s. cbn in *. subst ds.
  destruct Hpend as [-> | ->]; cbn; split; reflexivity.
Qed.

(** ** Downlinks while the compliance test runs *)

Lemma compliance_command_keeps_counting (ind : McpsIndication_t) (s : Sys M) :
  is_exit_command ind = false →
  let s' := compliance_command cfg ind s in
  Running (ComplianceTest (g s')) = Running (ComplianceTest (g s))
  ∧ DownLinkCounter (ComplianceTest (g s')) = DownLinkCounter (ComplianceTest (g s)).
Proof.
  unfold is_exit_command. intros Hex.
  apply orb_false_iff in Hex as [H0 H6].
  split_state s. unfold compliance_command, MlmeRequest_st. cbn.
  rewrite H0, H6. case_if; case_engine; split; reflexivity.
Qed.

Lemma McpsIndication_counts (ind : McpsIndication_t) (s : Sys M) :
  counted_downlink ind = true →
  Running (ComplianceTest (g s)) = true →
  let s' := McpsIndication cfg ind s in
  Running (ComplianceTest (g s')) = true
  ∧ DownLinkCounter (ComplianceTest (g s'))
    = to_uint16 (DownLinkCounter (ComplianceTest (g s)) + 1).
Proof.
  unfold counted_downlink, McpsIndication. intros Hc Hrun.
  destruct (ind_Status ind); try discriminate Hc.
  cbn zeta. rewrite (if_same_ct (FramePending ind) s), Hrun. 2: {
    apply OnTxNextPacketTimerEvent_ComplianceTest. }
  cbn [upd_hw g].
  match goal with |- context [port_dispatch cfg ind ?u] => set (t := u) end.
  assert (Ht : Running (ComplianceTest (g t)) = true
               ∧ DownLinkCounter (ComplianceTest (g t))
                 = to_uint16 (DownLinkCounter (ComplianceTest (g s)) + 1)).
  { subst t. cbn [upd_ct upd_g g].
    rewrite (if_same_ct (FramePending ind) s)
      by apply OnTxNextPacketTimerEvent_ComplianceTest.
    destruct (ComplianceTest (g s)).
    destruct (g (if FramePending ind then OnTxNextPacketTimerEvent s else s)).
    cbn in *. auto. }
  clearbody t. destruct Ht as [Hrt Hct]. rewrite <- Hct.
  destruct (RxData ind); [| auto]. cbn [andb negb] in Hc.
  unfold port_dispatch.
  destruct ((Port ind =? 1) || (Port ind =? 2)).
  { destruct (BufferSize ind =? 1); [| auto]. split_state t. cbn in *. auto. }
  destruct (Port ind =? 224); [| auto].
  rewrite Hrt. cbn [negb andb] in *. apply negb_true_iff in Hc.
  destruct (compliance_command_keeps_counting ind t Hc) as [Hr Hd].
  rewrite Hr, Hd. auto.
Qed.

(** X8: while the compliance test runs, every downlink the engine delivers
    with status OK, other than the two exit commands, keeps the test running
    and adds one to the downlink counter modulo 65536, whatever its port,
    payload and frame-pending flag; after a sequence of such downlinks the
    counter has advanced by their number. *)
Theorem DownLinkCounter_counts (inds : list McpsIndication_t) (s : Sys M) :
  Running (ComplianceTest (g s)) = true →
  0 ≤ DownLinkCounter (ComplianceTest (g s)) < 65536 →
  Forall (fun ind => counted_downlink ind = true) inds →
  let s' := foldl (fun t ind => McpsIndication cfg ind t) s inds in
  Running (ComplianceTest (g s')) = true
  ∧ DownLinkCounter (ComplianceTest (g s'))
    = to_uint16 (DownLinkCounter (ComplianceTest (g s)) + Z.of_nat (length inds)).
Proof.
  intros Hrun Hc Hall. revert s Hrun Hc.
  induction Hall as [| ind inds Hind Hall IH]; intros s Hrun Hc; cbn [foldl length].
  - split; [exact Hrun |]. unfold to_uint16. rewrite Z.add_0_r, Z.mod_small; lia.
  - destruct (McpsIndication_counts ind s Hind Hrun) as [Hrun1 Hc1].
    destruct (IH (McpsIndication cfg ind s) Hrun1) as [Hrun' Hc'].
    { rewrite Hc1. apply Z.mod_pos_bound. lia. }
    split; [exact Hrun' |]. cbn zeta in Hc'. rewrite Hc', Hc1.
    unfold to_uint16. rewrite Zplus_mod_idemp_l. f_equal. lia.
Qed.

(** ** The application LED *)

Lemma OnTxNextPacketTimerEvent_hw (s : Sys M) :
  hw (OnTxNextPacketTimerEvent s)
  = set_TxNextPacketTimer (TimerStop (TxNextPacketTimer (hw s))) (hw s).
Proof.
  unfold OnTxNextPacketTimerEvent. cbn [mac upd_hw].
  destruct (LoRaMacMibGetNetworkActivation (mac s)) as [[] []];
    try rewrite JoinNetwork_unfold; reflexivity.
Qed.

Lemma land_1_bit (b : Z) : Z.land b 1 = 0 ∨ Z.land b 1 = 1.
Proof.
  change 1 with (Z.ones 1) at 1 2. rewrite Z.land_ones by lia.
  pose proof (Z.mod_pos_bound b (2 ^ 1)). lia.
Qed.

(** X9: a downlink on port 1 or 2 with exactly one byte sets the application
    LED to bit 0 of that byte: the LED output takes the bit and the next
    telemetry frame reports it in its first byte. With any other length the
    LED state and the output stay as they are. *)
Theorem led_downlink_round_trip (inp : BoardInputs) (ind : McpsIndication_t) (s : Sys M) :
  ind_Status ind = LORAMAC_EVENT_INFO_STATUS_OK →
  RxData ind = true →
  Port ind = 1 ∨ Port ind = 2 →
  (4 ≤ length (AppDataBuffer (g s)))%nat →
  let s1 := McpsIndication cfg ind s in
  let bit := Z.land (Buffer ind 0) 1 in
  (BufferSize ind = 1 →
     Led3 (hw s1) = bit
     ∧ tx_payload (g (PrepareTxFrame inp 3 s1)) !! 0%nat = Some bit)
  ∧ (BufferSize ind ≠ 1 →
     AppLedStateOn (g s1) = AppLedStateOn (g s) ∧ Led3 (hw s1) = Led3 (hw s)).
Proof.
  intros Hst Hrx Hport Hlen s1 bit. subst s1.
  unfold McpsIndication. rewrite Hst, Hrx. cbn zeta.
  assert (Ht : AppLedStateOn (g (if FramePending ind
                                  then OnTxNextPacketTimerEvent s else s))
               = AppLedStateOn (g s)
             ∧ Led3 (hw (if FramePending ind then OnTxNextPacketTimerEvent s else s))
               = Led3 (hw s)
             ∧ (4 ≤ length (AppDataBuffer
                              (g (if FramePending ind
                                  then OnTxNextPacketTimerEvent s else s))))%nat).
  { destruct (FramePending ind); [| auto].
    rewrite OnTxNextPacketTimerEvent_g, OnTxNextPacketTimerEvent_hw.
    destruct (g s), (hw s). cbn in *. auto. }
  revert Ht. generalize (if FramePending ind then OnTxNextPacketTimerEvent s else s).
  intros t (Hled & Hled3 & Hlen'). rewrite <- Hled, <- Hled3. clear Hled Hled3 Hlen s.
  assert (Hp : (Port ind =? 1) || (Port ind =? 2) = true).
  { destruct Hport as [-> | ->]; reflexivity. }
  unfold port_dispatch. rewrite Hp.
  split_state t. destruct b. cbn in Hlen'.
  destruct buf as [| x0 [| x1 [| x2 [| x3 rest]]]]; cbn in Hlen'; try lia.
  split.
  - intros ->. unfold PrepareTxFrame, tx_payload. cbn.
    destruct (land_1_bit (Buffer ind 0)) as [H | H]; fold bit in H |- *;
      rewrite H; destruct running; cbn; auto.
  - intros Hne. destruct (Z.eqb_spec (BufferSize ind) 1); [contradiction |].
    destruct running; cbn; auto.
Qed.

(** ** Compliance steps *)

(** X10: the echo of step 4 writes the bytes 0 to BufferSize-1 of the
    application buffer and no other: every byte at an index from 1 on that is
    not below the received length keeps its value, the buffer keeps its
    length, and the compliance step is left at 4 for the frame builder. *)
Theorem echo_leaves_rest (ind : McpsIndication_t) (s : Sys M) (i : nat) :
  Running (ComplianceTest (g s)) = true →
  compliance_downlink ind = true →
  Buffer ind 0 = 4 →
  (1 ≤ i)%nat →
  BufferSize ind ≤ Z.of_nat i →
  let s1 := McpsIndication cfg ind s in
  AppDataBuffer (g s1) !! i = AppDataBuffer (g s) !! i
  ∧ length (AppDataBuffer (g s1)) = length (AppDataBuffer (g s))
  ∧ State (ComplianceTest (g s1)) = 4.
Proof.
  intros Hrun Hdl Hb0 Hi Hsize s1. subst s1.
  unfold compliance_downlink in Hdl. unfold McpsIndication.
  destruct (ind_Status ind); try discriminate.
  apply andb_true_iff in Hdl as [-> Hport]. apply Z.eqb_eq in Hport.
  cbn zeta.
  assert (Ht : AppDataBuffer (g (if FramePending ind
                                  then OnTxNextPacketTimerEvent s else s))
               = AppDataBuffer (g s)
             ∧ Running (ComplianceTest
                          (g (if FramePending ind
                              then OnTxNextPacketTimerEvent s else s))) = true).
  { destruct (FramePending ind); [| auto].
    rewrite OnTxNextPacketTimerEvent_g. destruct (g s). cbn in *. auto. }
  revert Ht. generalize (if FramePending ind then OnTxNextPacketTimerEvent s else s).
  intros t [Hbuf Hrt]. rewrite <- Hbuf. clear Hbuf Hrun s.
  split_state t. cbn in Hrt. subst running.
  unfold port_dispatch, compliance_command. rewrite Hport, Hb0. cbn.
  rewrite length_echo_loop, length_insert. repeat split.
  unfold echo_loop. rewrite foldl_insert_lookup_notin.
  - apply list_lookup_insert_ne. lia.
  - rewrite elem_of_seq. unfold LORAWAN_APP_DATA_MAX_SIZE. lia.
Qed.

(** X11: the enable command received while the test is inactive starts the
    test in a fixed state whatever was left from an earlier session: step 1,
    counter 0, no link-check result latched, unconfirmed mode, port 224,
    payload size 2. The engine is told to switch ADR on and, in the duty-cycle
    regions, duty-cycle enforcement off, in that order; the first frame built
    afterwards is the counter echo 0, 0. *)
Theorem compliance_enable_effect (inp : BoardInputs) (ind : McpsIndication_t) (s : Sys M) :
  compliance_downlink ind = true →
  is_enable_command ind = true →
  Running (ComplianceTest (g s)) = false →
  (2 ≤ length (AppDataBuffer (g s)))%nat →
  let s0 := if FramePending ind then OnTxNextPacketTimerEvent s else s in
  let s1 := McpsIndication cfg ind s in
  let ct := ComplianceTest (g s) in
  ComplianceTest (g s1)
  = mkComplianceTest true 1 (ct_IsTxConfirmed ct) (ct_AppPort ct) (ct_AppDataSize ct)
      0 false 0 0
  ∧ tx_mode (g s1) = (false, 224, 2)
  ∧ mac s1
    = (if DUTYCYCLE_REGION cfg then LoRaMacTestSetDutyCycleOn false else id)
        (LoRaMacMibSetRequestConfirm (MIB_ADR true) (mac s0))
  ∧ tx_payload (g (PrepareTxFrame inp (AppPort (g s1)) s1)) = [0; 0].
Proof.
  intros Hdl Hen Hrun Hlen s0 s1 ct. subst s1 ct.
  unfold compliance_downlink in Hdl. unfold McpsIndication.
  destruct (ind_Status ind); try discriminate.
  apply andb_true_iff in Hdl as [-> Hport]. apply Z.eqb_eq in Hport.
  cbn zeta. fold s0.
  assert (Ht : ComplianceTest (g s0) = ComplianceTest (g s)
             ∧ (2 ≤ length (AppDataBuffer (g s0)))%nat).
  { subst s0. destruct (FramePending ind); [| auto].
    rewrite OnTxNextPacketTimerEvent_g. destruct (g s). cbn in *. auto. }
  destruct Ht as [Hct Hlen0]. rewrite <- Hct in Hrun |- *.
  clearbody s0. clear Hct Hlen s.
  split_state s0. cbn in Hrun, Hlen0. subst running.
  destruct buf as [| x0 [| x1 rest]]; cbn in Hlen0; try lia.
  unfold port_dispatch, compliance_enable, TestSetDutyCycleOn. rewrite Hport, Hen.
  unfold PrepareTxFrame, tx_payload. cbn.
  destruct (DUTYCYCLE_REGION cfg); cbn; auto.
Qed.

(** X12: compliance steps 2 and 3 switch the confirmed mode on and off and
    fall back to step 1; with the mode on, the next frame the engine has room
    for is requested as a confirmed frame with 8 trials, with the mode off as
    an unconfirmed frame. *)
Theorem confirmed_mode_commands (ind : McpsIndication_t) (s : Sys M) :
  compliance_downlink ind = true →
  Running (ComplianceTest (g s)) = true →
  Buffer ind 0 = 2 ∨ Buffer ind 0 = 3 →
  let s1 := McpsIndication cfg ind s in
  let req := SendFrame_request s1 in
  IsTxConfirmed (g s1) = (Buffer ind 0 =? 2)
  ∧ State (ComplianceTest (g s1)) = 1
  ∧ Running (ComplianceTest (g s1)) = true
  ∧ (status_ok (LoRaMacQueryTxPossible (AppDataSize (g s1)) (mac s1)) = true →
     mcps_Type req = (if Buffer ind 0 =? 2 then MCPS_CONFIRMED else MCPS_UNCONFIRMED)
     ∧ NbTrials req = (if Buffer ind 0 =? 2 then Some 8 else None)).
Proof.
  intros Hdl Hrun Hb0 s1 req. subst req s1.
  unfold compliance_downlink in Hdl. unfold McpsIndication.
  destruct (ind_Status ind); try discriminate.
  apply andb_true_iff in Hdl as [-> Hport]. apply Z.eqb_eq in Hport.
  cbn zeta.
  assert (Ht : Running (ComplianceTest
                          (g (if FramePending ind
                              then OnTxNextPacketTimerEvent s else s))) = true).
  { rewrite (if_same_ct (FramePending ind) s); [exact Hrun |].
    apply OnTxNextPacketTimerEvent_ComplianceTest. }
  revert Ht. generalize (if FramePending ind then OnTxNextPacketTimerEvent s else s).
  intros t Hrt. clear Hrun s.
  split_state t. cbn in Hrt. subst running.
  unfold port_dispatch, compliance_command, SendFrame_request. rewrite Hport.
  destruct Hb0 as [-> | ->]; cbn; repeat split;
    destruct (LoRaMacQueryTxPossible size m); cbn in *; congruence.
Qed.

(** ** The requests of the class B bring-up *)

Lemma timing_request_step_eq (inp : BoardInputs) (s : Sys M) :
  DeviceState (g s) = timing_request_state cfg →
  NextTx (g s) = true →
  let answer := LoRaMacMlmeRequest (timing_request cfg) (mac s) in
  main_step cfg inp s
  = mkSys
      (set_DeviceState DEVICE_STATE_SEND
         (if status_ok (fst answer)
          then set_WakeUpState DEVICE_STATE_SEND (g s) else g s))
      (hw s) (snd answer).
Proof.
  unfold timing_request_state, timing_request. intros Hds Hntx.
  unfold main_step, MlmeRequest_st. rewrite Hds.
  destruct (USE_BEACON_TIMING cfg); rewrite Hntx; cbn zeta;
    destruct (LoRaMacMlmeRequest _ (mac s)) as [[] m']; reflexivity.
Qed.

(** X13: in the timing request state of the build (device time, or beacon
    timing), a pass with NextTx set submits exactly the request of that
    strategy, arms WakeUpState = SEND only if the engine accepted it, and goes
    to SEND with NextTx still set, so the next pass sends a data frame. *)
Theorem timing_request_step (inp : BoardInputs) (s : Sys M) :
  DeviceState (g s) = timing_request_state cfg →
  NextTx (g s) = true →
  let answer := LoRaMacMlmeRequest (timing_request cfg) (mac s) in
  let s' := main_step cfg inp s in
  mac s' = snd answer
  ∧ DeviceState (g s') = DEVICE_STATE_SEND
  ∧ WakeUpState (g s')
    = (if status_ok (fst answer) then DEVICE_STATE_SEND else WakeUpState (g s))
  ∧ NextTx (g s') = true.
Proof.
  intros Hds Hntx answer s'. subst s'.
  rewrite (timing_request_step_eq inp s Hds Hntx). fold answer.
  split_state s. cbn in Hntx. subst ntx.
  destruct (status_ok (fst answer)); cbn; auto.
Qed.

(** X14: a beacon-lost indication asks the engine for class A, stops the
    beacon indicator timer and sets WakeUpState to the timing request state,
    leaving DeviceState alone. Once the transmit timer then fires on a device
    that is still activated, the main loop resumes there and its next pass
    submits the timing request again. *)
Theorem beacon_lost_reacquires
    (inp : BoardInputs) (i : MlmeIndication_t) (s : Sys M) (a : ActivationType_t) :
  MlmeIndication_kind i = MLME_BEACON_LOST →
  let s1 := MlmeIndication cfg i s in
  let s2 := OnTxNextPacketTimerEvent s1 in
  let s3 := main_step cfg inp s2 in
  LoRaMacMibGetNetworkActivation (mac s1) = (LORAMAC_STATUS_OK, a) →
  a ≠ ACTIVATION_TYPE_NONE →
  mac s1 = LoRaMacMibSetRequestConfirm (MIB_DEVICE_CLASS CLASS_A) (mac s)
  ∧ DeviceState (g s1) = DeviceState (g s)
  ∧ LedBeaconTimer (hw s1) = TimerStop (LedBeaconTimer (hw s))
  ∧ DeviceState (g s2) = timing_request_state cfg
  ∧ NextTx (g s2) = true
  ∧ mac s3 = snd (LoRaMacMlmeRequest (timing_request cfg) (mac s1))
  ∧ DeviceState (g s3) = DEVICE_STATE_SEND.
Proof.
  intros Hkind s1 s2 s3 Hact Ha.
  assert (H1 : s1 = mkSys (set_WakeUpState (timing_request_state cfg) (g s))
                      (set_LedBeaconTimer (TimerStop (LedBeaconTimer (hw s))) (hw s))
                      (LoRaMacMibSetRequestConfirm (MIB_DEVICE_CLASS CLASS_A) (mac s))).
  { subst s1. unfold MlmeIndication. rewrite Hkind. reflexivity. }
  assert (H2 : s2 = mkSys (set_NextTx true
                             (set_DeviceState (timing_request_state cfg) (g s1)))
                      (set_TxNextPacketTimer (TimerStop (TxNextPacketTimer (hw s1)))
                         (hw s1))
                      (mac s1)).
  { assert (Hw1 : WakeUpState (g s1) = timing_request_state cfg).
    { rewrite H1. cbn [g]. destruct (g s). reflexivity. }
    subst s2. unfold OnTxNextPacketTimerEvent. cbn [mac upd_hw]. rewrite Hact.
    rewrite <- Hw1. destruct a; try contradiction; reflexivity. }
  assert (Hds2 : DeviceState (g s2) = timing_request_state cfg).
  { rewrite H2. cbn [g]. destruct (g s1). reflexivity. }
  assert (Hntx2 : NextTx (g s2) = true).
  { rewrite H2. cbn [g]. destruct (g s1). reflexivity. }
  subst s3. rewrite (timing_request_step_eq inp s2 Hds2 Hntx2). cbn [g mac].
  split; [rewrite H1; reflexivity |].
  split; [rewrite H1; cbn [g]; destruct (g s); reflexivity |].
  split; [rewrite H1; cbn [hw]; destruct (hw s); reflexivity |].
  split; [exact Hds2 |]. split; [exact Hntx2 |].
  split; [rewrite H2; reflexivity |].
  apply DeviceState_set_DeviceState.
Qed.

(** X15: the REQ_PINGSLOT_ACK pass with NextTx set submits a link-check
    request and then a ping-slot-info request with periodicity 0; the answer
    to the link-check request is ignored, and WakeUpState becomes SEND exactly
    when the ping-slot-info request is accepted. DeviceState becomes SEND. *)
Theorem pingslot_step (inp : BoardInputs) (s : Sys M) :
  DeviceState (g s) = DEVICE_STATE_REQ_PINGSLOT_ACK →
  NextTx (g s) = true →
  let m1 := snd (LoRaMacMlmeRequest MlmeReq_LinkCheck (mac s)) in
  let answer := LoRaMacMlmeRequest (MlmeReq_PingSlotInfo 0) m1 in
  let s' := main_step cfg inp s in
  mac s' = snd answer
  ∧ DeviceState (g s') = DEVICE_STATE_SEND
  ∧ WakeUpState (g s')
    = (if status_ok (fst answer) then DEVICE_STATE_SEND else WakeUpState (g s)).
Proof.
  intros Hds Hntx m1 answer s'. subst s' answer m1.
  unfold main_step, MlmeRequest_st. rewrite Hds, Hntx.
  change (Z.lor LORAWAN_DEFAULT_PING_SLOT_PERIODICITY (Z.shiftl 0 3)) with 0.
  split_state s. cbn.
  destruct (LoRaMacMlmeRequest MlmeReq_LinkCheck m) as [st1 m1]. cbn.
  destruct (LoRaMacMlmeRequest (MlmeReq_PingSlotInfo 0) m1) as [[] m2];
    cbn; auto.
Qed.

(** X16: the BEACON_ACQUISITION pass with NextTx set submits the acquisition
    request and clears NextTx whatever the engine answers, so the SEND pass
    that follows transmits nothing: after the two passes the engine has seen
    the acquisition request only and DeviceState is CYCLE. *)
Theorem beacon_acquisition_then_silent_send (inp1 inp2 : BoardInputs) (s : Sys M) :
  DeviceState (g s) = DEVICE_STATE_BEACON_ACQUISITION →
  NextTx (g s) = true →
  let s1 := main_step cfg inp1 s in
  let s2 := main_step cfg inp2 s1 in
  mac s1 = snd (LoRaMacMlmeRequest MlmeReq_BeaconAcquisition (mac s))
  ∧ NextTx (g s1) = false
  ∧ DeviceState (g s1) = DEVICE_STATE_SEND
  ∧ WakeUpState (g s1) = WakeUpState (g s)
  ∧ mac s2 = mac s1
  ∧ DeviceState (g s2) = DEVICE_STATE_CYCLE
  ∧ tx_payload (g s2) = tx_payload (g s).
Proof.
  intros Hds Hntx s1 s2.
  assert (H1 : s1 = mkSys (set_DeviceState DEVICE_STATE_SEND (set_NextTx false (g s)))
                      (hw s)
                      (snd (LoRaMacMlmeRequest MlmeReq_BeaconAcquisition (mac s)))).
  { subst s1. unfold main_step, MlmeRequest_st. rewrite Hds, Hntx.
    destruct (LoRaMacMlmeRequest MlmeReq_BeaconAcquisition (mac s)) as [st1 m1].
    reflexivity. }
  subst s2. rewrite H1. clear H1 s1.
  split_state s. cbn. repeat split.
Qed.

(** ** What the indicator callbacks leave alone *)


(** ** The transmit mode in every execution *)

(** X18: in every state of every execution the application buffer has 242
    bytes, the size backup is 4 and the port tells whether the compliance test
    runs: 224 while it runs; outside the test the device sends unconfirmed
    frames of 4 bytes on port 3. *)
Theorem tx_mode_in_every_execution (m0 : M) (evs : list (Event M)) :
  let x := g (run cfg evs (init cfg m0)) in
  length (AppDataBuffer x) = 242%nat
  ∧ AppDataSizeBackup x = 4
  ∧ (Running (ComplianceTest x) = true → AppPort x = 224)
  ∧ (Running (ComplianceTest x) = false → tx_mode x = (false, 3, 4)).
Proof.
  intros x. pose proof (reachable_ginv cfg m0 evs) as H. fold x in H.
  clearbody x. apply ginv_spec in H. destruct H as (Hlen & Hb & _ & Hmode).
  repeat split; try assumption.
  - intros Hrun. rewrite Hrun in Hmode. exact Hmode.
  - intros Hrun. rewrite Hrun in Hmode. destruct Hmode as (Hc & Hp & Hs).
    unfold tx_mode. rewrite Hc, Hp, Hs. reflexivity.
Qed.

End MainLoop.

(** * Further compliance steps *)

Section ComplianceSteps.

Context {M : Type} {mac_engine : MacEngine M}.
Variable cfg : BuildConfig.

Lemma lor_shiftl_byte (hi lo : Z) :
  0 ≤ lo < 256 → Z.lor (Z.shiftl hi 8) lo = hi * 256 + lo.
Proof.
  intros Hlo. rewrite Z.shiftl_mul_pow2 by lia. change (2 ^ 8) with 256.
  assert (Hland : Z.land (hi * 256) lo = 0).
  { apply Z.bits_inj'. intros n Hn. rewrite Z.land_spec, Z.bits_0.
    destruct (Z.lt_ge_cases n 8) as [Hlt | Hge].
    - change 256 with (2 ^ 8). rewrite Z.mul_pow2_bits_low by lia. reflexivity.
    - replace lo with (lo mod 2 ^ 8) by (apply Z.mod_small; lia).
      rewrite Z.mod_pow2_bits_high by lia. apply andb_false_r. }
  rewrite <- Z.lxor_lor by exact Hland.
  symmetry. apply Z.add_nocarry_lxor, Hland.
Qed.

(** The state the port switch sees: the frame-pending handling and the
    counter keep the compliance test running. *)
Lemma McpsIndication_running (ind : McpsIndication_t) (s : Sys M) :
  compliance_downlink ind = true →
  Running (ComplianceTest (g s)) = true →
  let s0 := if FramePending ind then OnTxNextPacketTimerEvent s else s in
  let t := upd_ct (fun c => set_DownLinkCounter (to_uint16 (DownLinkCounter c + 1)) c) s0 in
  McpsIndication cfg ind s
  = upd_hw (fun b => set_Led2Timer (TimerStart (Led2Timer b)) (set_Led2 1 b))
      (compliance_command cfg ind t)
  ∧ Running (ComplianceTest (g s0)) = true.
Proof.
  intros Hdl Hrun s0 t.
  assert (Hrun0 : Running (ComplianceTest (g s0)) = true).
  { subst s0. rewrite (if_same_ct (FramePending ind) s); [exact Hrun |].
    apply OnTxNextPacketTimerEvent_ComplianceTest. }
  split; [| exact Hrun0].
  unfold compliance_downlink in Hdl. unfold McpsIndication.
  destruct (ind_Status ind); try discriminate.
  apply andb_true_iff in Hdl as [-> Hport]. apply Z.eqb_eq in Hport.
  cbn zeta. fold s0. rewrite Hrun0. fold t.
  unfold port_dispatch. rewrite Hport. cbn [Z.eqb Pos.eqb orb].
  assert (Hrt : Running (ComplianceTest (g t)) = true).
  { subst t. clearbody s0. split_state s0. exact Hrun0. }
  rewrite Hrt. reflexivity.
Qed.

(** X26: compliance step 7 asks for an unmodulated carrier only when the
    downlink has 3 or 7 bytes. With 3 bytes the timeout is bytes 1 and 2, high
    byte first; with 7 bytes the frequency is bytes 3 to 5, high byte first,
    in units of 100 Hz, and the power is byte 6. With any other length no
    request is made. The step is 1 afterwards in every case. *)
Theorem txcw_command (ind : McpsIndication_t) (s : Sys M) :
  compliance_downlink ind = true →
  Running (ComplianceTest (g s)) = true →
  Buffer ind 0 = 7 →
  command_bytes ind →
  let s0 := if FramePending ind then OnTxNextPacketTimerEvent s else s in
  let s1 := McpsIndication cfg ind s in
  let timeout := Buffer ind 1 * 256 + Buffer ind 2 in
  let frequency :=
    (Buffer ind 3 * 65536 + Buffer ind 4 * 256 + Buffer ind 5) * 100 in
  State (ComplianceTest (g s1)) = 1
  ∧ (BufferSize ind = 3 →
     mac s1 = snd (LoRaMacMlmeRequest (MlmeReq_TxCw timeout) (mac s0)))
  ∧ (BufferSize ind = 7 →
     mac s1 = snd (LoRaMacMlmeRequest
                     (MlmeReq_TxCw1 timeout frequency (Buffer ind 6)) (mac s0)))
  ∧ (BufferSize ind ≠ 3 → BufferSize ind ≠ 7 → mac s1 = mac s0).
Proof.
  intros Hdl Hrun Hb0 Hbytes s0 s1 timeout frequency. subst s1.
  destruct (McpsIndication_running ind s Hdl Hrun) as [-> Hrun0]. fold s0 in Hrun0 |- *.
  pose proof (Hbytes 1 ltac:(lia)) as H1. pose proof (Hbytes 2 ltac:(lia)) as H2.
  pose proof (Hbytes 3 ltac:(lia)) as H3. pose proof (Hbytes 4 ltac:(lia)) as H4.
  pose proof (Hbytes 5 ltac:(lia)) as H5.
  assert (Ht : to_uint16 (Z.lor (Z.shiftl (Buffer ind 1) 8) (Buffer ind 2)) = timeout).
  { rewrite lor_shiftl_byte by lia. apply Z.mod_small. subst timeout. lia. }
  assert (Hf : to_uint32
                 (to_uint32 (Z.lor (Z.lor (Z.shiftl (Buffer ind 3) 16)
                                          (Z.shiftl (Buffer ind 4) 8))
                                   (Buffer ind 5)) * 100) = frequency).
  { replace (Z.shiftl (Buffer ind 3) 16) with (Z.shiftl (Z.shiftl (Buffer ind 3) 8) 8)
      by (rewrite Z.shiftl_shiftl by lia; reflexivity).
    rewrite <- Z.shiftl_lor, !lor_shiftl_byte by lia.
    unfold to_uint32. rewrite (Z.mod_small (_ + Buffer ind 5)) by lia.
    subst frequency. rewrite Z.mod_small by lia. f_equal. lia. }
  clearbody s0. split_state s0. cbn in Hrun0. subst running.
  unfold compliance_command, MlmeRequest_st. cbn. rewrite Hb0. cbn.
  rewrite Ht, Hf.
  destruct (Z.eqb_spec (BufferSize ind) 3) as [E3 | E3];
    [| destruct (Z.eqb_spec (BufferSize ind) 7) as [E7 | E7]].
  - destruct (LoRaMacMlmeRequest (MlmeReq_TxCw timeout) m) as [st1 m1]. cbn.
    repeat split; intros; try reflexivity; lia.
  - destruct (LoRaMacMlmeRequest _ m) as [st1 m1]. cbn.
    repeat split; intros; try reflexivity; lia.
  - cbn. repeat split; intros; try reflexivity; lia.
Qed.

(** X27: compliance steps 8, 10 and 11 submit a device-time, a ping-slot-info
    (parameter: payload byte 1) or a beacon-timing request and set both
    DeviceState and WakeUpState to SEND without looking at the answer of the
    engine; step 9 passes payload byte 1 to the engine as the device class
    and sets DeviceState to SEND, leaving WakeUpState alone. None of them
    touches NextTx or leaves the test. *)
Theorem forced_send_commands (ind : McpsIndication_t) (s : Sys M) :
  compliance_downlink ind = true →
  Running (ComplianceTest (g s)) = true →
  8 ≤ Buffer ind 0 ≤ 11 →
  let s0 := if FramePending ind then OnTxNextPacketTimerEvent s else s in
  let s1 := McpsIndication cfg ind s in
  DeviceState (g s1) = DEVICE_STATE_SEND
  ∧ NextTx (g s1) = NextTx (g s0)
  ∧ Running (ComplianceTest (g s1)) = true
  ∧ (Buffer ind 0 ≠ 9 →
     WakeUpState (g s1) = DEVICE_STATE_SEND
     ∧ mac s1 = snd (LoRaMacMlmeRequest (forced_send_request ind) (mac s0)))
  ∧ (Buffer ind 0 = 9 →
     WakeUpState (g s1) = WakeUpState (g s0)
     ∧ mac s1 = LoRaMacMibSetRequestConfirm (MIB_DEVICE_CLASS (Buffer ind 1)) (mac s0)).
Proof.
  intros Hdl Hrun Hb0 s0 s1. subst s1.
  destruct (McpsIndication_running ind s Hdl Hrun) as [-> Hrun0]. fold s0 in Hrun0 |- *.
  clearbody s0. split_state s0. cbn in Hrun0. subst running.
  unfold compliance_command, MlmeRequest_st, forced_send_request, MibSet. cbn.
  assert (Hc : Buffer ind 0 = 8 ∨ Buffer ind 0 = 9 ∨ Buffer ind 0 = 10
               ∨ Buffer ind 0 = 11) by lia.
  destruct Hc as [E | [E | [E | E]]]; rewrite E; cbn;
    try (destruct (LoRaMacMlmeRequest _ m) as [st1 m1]; cbn);
    repeat split; intros; try reflexivity; try lia.
Qed.

(** X28: the echo of step 4 is sent once: with step 4 pending and no
    link-check result latched, the frame builder keeps the payload and its
    size and falls back to step 1, so the frame built after that is the
    two-byte counter echo. *)
Theorem echo_sent_once (inp1 inp2 : BoardInputs) (s : Sys M) (c : Z) :
  State (ComplianceTest (g s)) = 4 →
  LinkCheck (ComplianceTest (g s)) = false →
  DownLinkCounter (ComplianceTest (g s)) = c →
  0 ≤ c < 65536 →
  (2 ≤ length (AppDataBuffer (g s)))%nat →
  let s1 := PrepareTxFrame inp1 224 s in
  let s2 := PrepareTxFrame inp2 224 s1 in
  tx_payload (g s1) = tx_payload (g s)
  ∧ State (ComplianceTest (g s1)) = 1
  ∧ tx_payload (g s2) = [Z.shiftr c 8; Z.land c 255]
  ∧ State (ComplianceTest (g s2)) = 1.
Proof.
  intros Hst Hlc Hc Hrange Hlen s1 s2. subst s2 s1.
  split_state s. cbn in Hst, Hlc, Hc, Hlen. subst st lc dlc.
  destruct buf as [| x0 [| x1 rest]]; cbn in Hlen; try lia.
  destruct (uint16_bytes c Hrange) as [Hhi Hlo].
  unfold PrepareTxFrame, tx_payload. cbn. rewrite Hhi, Hlo.
  repeat split.
Qed.

End ComplianceSteps.

(** * PrintHexBuffer *)

Section HexDump.

Variable buffer : Z → Z.

Lemma div16_succ (i : Z) :
  0 ≤ i → (i + 1) / 16 = i / 16 + (if (i + 1) mod 16 =? 0 then 1 else 0).
Proof.
  intros Hi. destruct (Z.eqb_spec ((i + 1) mod 16) 0) as [H0 | H0];
    Z.div_mod_to_equations; lia.
Qed.

Lemma length_PrintHexBuffer_loop (n : nat) (i newline : Z) :
  0 ≤ i → newline = 0 ∨ newline = 1 →
  Z.of_nat (length (PrintHexBuffer_loop buffer n i newline))
  = match n with
    | O => 0
    | S _ => 3 * Z.of_nat n + newline + (i + Z.of_nat n - 1) / 16 - i / 16
    end.
Proof.
  revert i newline. induction n as [| r IH]; intros i newline Hi Hnl; [reflexivity |].
  cbn [PrintHexBuffer_loop]. rewrite !length_app. cbn [hex_byte length].
  rewrite !Nat2Z.inj_add, IH; [| lia | destruct (_ =? 0); auto].
  pose proof (div16_succ i Hi) as Hs.
  assert (Hflag : Z.of_nat (length (if negb (newline =? 0)
                                    then [newline_char] else [])) = newline).
  { destruct Hnl as [-> | ->]; reflexivity. }
  rewrite Hflag. destruct r as [| r'].
  - replace (i + Z.of_nat 1 - 1) with i by lia. lia.
  - replace (i + 1 + Z.of_nat (S r') - 1) with (i + Z.of_nat (S (S r')) - 1) by lia.
    destruct ((i + 1) mod 16 =? 0); lia.
Qed.

(** X19: the dump of a non-empty buffer has three characters for each byte
    and one line break for each started group of 16 bytes, so a size that is
    a multiple of 16 does not end in an empty line; the dump of an empty
    buffer is a single line break. *)
Theorem PrintHexBuffer_length (size : Z) :
  0 ≤ size →
  Z.of_nat (length (PrintHexBuffer buffer size))
  = if size =? 0 then 1 else 3 * size + (size + 15) / 16.
Proof.
  intros Hsize. unfold PrintHexBuffer.
  rewrite length_app, Nat2Z.inj_add, length_PrintHexBuffer_loop by lia.
  cbn [length]. destruct (Z.eqb_spec size 0) as [-> | Hne]; [reflexivity |].
  destruct (Z.to_nat size) as [| n] eqn:Hn; [lia |].
  rewrite <- Hn, Z2Nat.id by lia.
  Z.div_mod_to_equations. lia.
Qed.

Lemma hex_value_digit (d : Z) : 0 ≤ d < 16 → hex_value (hex_digit d) = d.
Proof.
  intros Hd. destruct d as [| p | p]; try lia; [reflexivity |].
  do 4 (destruct p as [p | p |]; try lia; try reflexivity).
Qed.

Lemma hex_digit_not_newline (d : Z) :
  0 ≤ d < 16 → Ascii.eqb (hex_digit d) newline_char = false.
Proof.
  intros Hd. destruct d as [| p | p]; try lia; [reflexivity |].
  do 4 (destruct p as [p | p |]; try lia; try reflexivity).
Qed.

Lemma read_hex_byte (v : Z) (rest : list ascii) :
  0 ≤ v < 256 → read_hex_dump (hex_byte v ++ rest) = v :: read_hex_dump rest.
Proof.
  intros Hv.
  assert (Hhi : 0 ≤ v / 16 < 16) by (Z.div_mod_to_equations; lia).
  assert (Hlo : 0 ≤ v mod 16 < 16) by (apply Z.mod_pos_bound; lia).
  unfold hex_byte. cbn [app read_hex_dump].
  rewrite hex_digit_not_newline, !hex_value_digit by assumption.
  f_equal. Z.div_mod_to_equations. lia.
Qed.

Lemma read_PrintHexBuffer_loop (n : nat) (i newline : Z) :
  read_hex_dump (PrintHexBuffer_loop buffer n i newline ++ [newline_char])
  = (fun k => to_uint8 (buffer k)) <$> seqZ i (Z.of_nat n).
Proof.
  revert i newline. induction n as [| r IH]; intros i newline; [reflexivity |].
  cbn [PrintHexBuffer_loop].
  rewrite (seqZ_cons i (Z.of_nat (S r))) by lia. cbn [fmap list_fmap].
  replace (Z.pred (Z.of_nat (S r))) with (Z.of_nat r) by lia.
  rewrite <- !app_assoc.
  assert (Hb : 0 ≤ to_uint8 (buffer i) < 256) by (apply Z.mod_pos_bound; lia).
  destruct (negb (newline =? 0)); cbn [app];
    [change (read_hex_dump (newline_char :: ?l)) with (read_hex_dump l) |];
    rewrite read_hex_byte by exact Hb; f_equal; apply IH.
Qed.

(** X20: reading the dump back, two hex digits at a time and skipping the
    line breaks, gives the size bytes of the buffer in order: no byte is
    dropped, repeated or misprinted, whatever the size. *)
Theorem PrintHexBuffer_round_trip (size : Z) :
  read_hex_dump (PrintHexBuffer buffer size)
  = (fun k => to_uint8 (buffer k)) <$> seqZ 0 size.
Proof.
  unfold PrintHexBuffer. rewrite read_PrintHexBuffer_loop.
  destruct (Z.le_gt_cases 0 size) as [Hs | Hs].
  - rewrite Z2Nat.id by exact Hs. reflexivity.
  - replace (Z.to_nat size) with O by lia.
    rewrite (seqZ_nil 0 size) by lia. reflexivity.
Qed.

End HexDump.

(** * The I2C driver *)

Section I2cProperties.

Context {B : Type} {mcu : I2c.I2cMcu B}.

(** X21: while the driver is not initialised, each of the eight transfer
    functions returns LMN_STATUS_ERROR and neither the bus nor the buffer of
    the caller is touched; this is the state I2cDeInit leaves behind. *)
Theorem I2c_uninitialised_fails
    (d : I2c.Driver B) (deviceAddr addr data size : Z) (buffer : list Z) :
  I2c.I2cInitialized d = false →
  I2c.I2cWrite deviceAddr data d = (I2c.LMN_STATUS_ERROR, d)
  ∧ I2c.I2cWriteBuffer deviceAddr buffer size d = (I2c.LMN_STATUS_ERROR, d)
  ∧ I2c.I2cWriteMem deviceAddr addr data d = (I2c.LMN_STATUS_ERROR, d)
  ∧ I2c.I2cWriteMemBuffer deviceAddr addr buffer size d = (I2c.LMN_STATUS_ERROR, d)
  ∧ I2c.I2cRead deviceAddr buffer d = (I2c.LMN_STATUS_ERROR, buffer, d)
  ∧ I2c.I2cReadBuffer deviceAddr buffer size d = (I2c.LMN_STATUS_ERROR, buffer, d)
  ∧ I2c.I2cReadMem deviceAddr addr buffer d = (I2c.LMN_STATUS_ERROR, buffer, d)
  ∧ I2c.I2cReadMemBuffer deviceAddr addr buffer size d
    = (I2c.LMN_STATUS_ERROR, buffer, d)
  ∧ I2c.I2cInitialized (I2c.I2cDeInit d) = false.
Proof.
  intros Hinit.
  unfold I2c.I2cWrite, I2c.I2cWriteBuffer, I2c.I2cWriteMem, I2c.I2cWriteMemBuffer,
    I2c.I2cRead, I2c.I2cReadBuffer, I2c.I2cReadMem, I2c.I2cReadMemBuffer.
  rewrite Hinit. repeat split.
Qed.

(** X22: on an initialised driver a buffer write is tried on the bus once,
    and a second time only if the first attempt reported an error: the result
    is OK when either attempt succeeded and ERROR when both failed, the bus is
    left as the last attempt made it, and the driver stays initialised. The
    single-byte write is the buffer write of that one byte. *)
Theorem I2cWriteBuffer_retries_once
    (d : I2c.Driver B) (deviceAddr size data : Z) (buffer : list Z) :
  I2c.I2cInitialized d = true →
  let first := I2c.I2cMcuWriteBuffer deviceAddr buffer size (I2c.bus d) in
  let second := I2c.I2cMcuWriteBuffer deviceAddr buffer size (snd first) in
  let result := I2c.I2cWriteBuffer deviceAddr buffer size d in
  (fst first = I2c.LMN_STATUS_OK → result = (I2c.LMN_STATUS_OK, I2c.mkDriver true (snd first)))
  ∧ (fst first = I2c.LMN_STATUS_ERROR →
     result = (fst second, I2c.mkDriver true (snd second)))
  ∧ I2c.I2cWrite deviceAddr data d = I2c.I2cWriteBuffer deviceAddr [data] 1 d.
Proof.
  intros Hinit first second result. subst result second first.
  unfold I2c.I2cWriteBuffer, I2c.I2cWrite. rewrite Hinit.
  destruct (I2c.I2cMcuWriteBuffer deviceAddr buffer size (I2c.bus d)) as [[] b1];
    cbn [fst snd].
  - repeat split; try discriminate.
    intros _. destruct (I2c.I2cMcuWriteBuffer deviceAddr buffer size b1) as [[] b2];
      reflexivity.
  - repeat split; discriminate.
Qed.

(** X23: the memory writes follow the same rule: one attempt, a second one
    only after an error, OK when either succeeded; the single-byte memory
    write is the memory buffer write of that one byte. *)
Theorem I2cWriteMemBuffer_retries_once
    (d : I2c.Driver B) (deviceAddr addr size data : Z) (buffer : list Z) :
  I2c.I2cInitialized d = true →
  let first := I2c.I2cMcuWriteMemBuffer deviceAddr addr buffer size (I2c.bus d) in
  let second := I2c.I2cMcuWriteMemBuffer deviceAddr addr buffer size (snd first) in
  let result := I2c.I2cWriteMemBuffer deviceAddr addr buffer size d in
  (fst first = I2c.LMN_STATUS_OK → result = (I2c.LMN_STATUS_OK, I2c.mkDriver true (snd first)))
  ∧ (fst first = I2c.LMN_STATUS_ERROR →
     result = (fst second, I2c.mkDriver true (snd second)))
  ∧ I2c.I2cWriteMem deviceAddr addr data d
    = I2c.I2cWriteMemBuffer deviceAddr addr [data] 1 d.
Proof.
  intros Hinit first second result. subst result second first.
  unfold I2c.I2cWriteMemBuffer, I2c.I2cWriteMem. rewrite Hinit.
  destruct (I2c.I2cMcuWriteMemBuffer deviceAddr addr buffer size (I2c.bus d))
    as [[] b1]; cbn [fst snd].
  - repeat split; try discriminate.
    intros _.
    destruct (I2c.I2cMcuWriteMemBuffer deviceAddr addr buffer size b1) as [[] b2];
      reflexivity.
  - repeat split; discriminate.
Qed.

(** X24: reads are never repeated: on an initialised driver the status and
    the bytes are those of the single transfer on the bus, an error included,
    and the single-byte reads are the buffer reads of size 1. *)
Theorem I2cRead_single_attempt
    (d : I2c.Driver B) (deviceAddr addr size : Z) (buffer : list Z) :
  I2c.I2cInitialized d = true →
  let r := I2c.I2cMcuReadBuffer deviceAddr buffer size (I2c.bus d) in
  let rm := I2c.I2cMcuReadMemBuffer deviceAddr addr buffer size (I2c.bus d) in
  I2c.I2cReadBuffer deviceAddr buffer size d
  = (fst (fst r), snd (fst r), I2c.mkDriver true (snd r))
  ∧ I2c.I2cReadMemBuffer deviceAddr addr buffer size d
    = (fst (fst rm), snd (fst rm), I2c.mkDriver true (snd rm))
  ∧ I2c.I2cRead deviceAddr buffer d = I2c.I2cReadBuffer deviceAddr buffer 1 d
  ∧ I2c.I2cReadMem deviceAddr addr buffer d
    = I2c.I2cReadMemBuffer deviceAddr addr buffer 1 d.
Proof.
  intros Hinit r rm. subst r rm.
  unfold I2c.I2cReadBuffer, I2c.I2cReadMemBuffer, I2c.I2cRead, I2c.I2cReadMem.
  rewrite Hinit.
  destruct (I2c.I2cMcuReadBuffer deviceAddr buffer size (I2c.bus d)) as [[st1 d1] b1].
  destruct (I2c.I2cMcuReadMemBuffer deviceAddr addr buffer size (I2c.bus d))
    as [[st2 d2] b2].
  repeat split.
Qed.

(** X25: I2cInit configures the bus once: on a driver that is already
    initialised a further I2cInit does nothing, whatever bus and pins it
    names; after I2cDeInit the next I2cInit configures the bus again, at
    400 kHz with 7-bit addresses. *)
Theorem I2cInit_once (d : I2c.Driver B) (id1 scl1 sda1 id2 scl2 sda2 : Z) :
  let d1 := I2c.I2cInit id1 scl1 sda1 d in
  I2c.I2cInitialized d1 = true
  ∧ I2c.I2cInit id2 scl2 sda2 d1 = d1
  ∧ I2c.I2cInit id2 scl2 sda2 (I2c.I2cDeInit d1)
    = I2c.mkDriver true
        (I2c.I2cMcuFormat I2c.MODE_I2C I2c.I2C_DUTY_CYCLE_2 true
           I2c.I2C_ACK_ADD_7_BIT 400000
           (I2c.I2cMcuInit id2 scl2 sda2 (I2c.I2cMcuDeInit (I2c.bus d1)))).
Proof.
  intros d1. subst d1. unfold I2c.I2cInit, I2c.I2cDeInit.
  destruct d as [[] b]; cbn; repeat split.
Qed.

End I2cProperties.

(** * The further properties on concrete executions *)

Lemma telemetry_frame_witness :
  tx_payload (g (PrepareTxFrame default_inputs 3 (init default_build SimMac.accepting)))
  = [0; 50; 12; 228].
Proof.
  pose proof (telemetry_frame default_inputs (init default_build SimMac.accepting)
                ltac:(apply Nat.leb_le; reflexivity)) as H.
  cbn zeta in H. destruct H as [H _]. exact H.
Defined.

Lemma SendFrame_contract_witness :
  fst (SendFrame active_state) = false
  ∧ SendFrame_request refusing_state
    = mkMcpsReq MCPS_UNCONFIRMED None None 0 None LORAWAN_DEFAULT_DATARATE.
Proof.
  split.
  - pose proof (SendFrame_contract active_state) as H. cbn zeta in H.
    destruct H as [H _]. rewrite H. reflexivity.
  - pose proof (SendFrame_contract refusing_state) as H. cbn zeta in H.
    destruct H as (_ & _ & _ & _ & H & _). apply H. reflexivity.
Defined.

Lemma send_step_result_witness :
  NextTx (g (main_step default_build default_inputs send_ready_state)) = false.
Proof.
  pose proof (send_step_result default_build default_inputs send_ready_state
                eq_refl eq_refl) as H.
  cbn zeta in H. destruct H as (_ & H & _). rewrite H. reflexivity.
Defined.

Lemma no_request_without_NextTx_witness :
  mac (main_step default_build default_inputs silent_state) = mac silent_state
  ∧ DeviceState (g (main_step default_build default_inputs silent_state))
    = DEVICE_STATE_CYCLE.
Proof.
  rewrite (no_request_without_NextTx default_build default_inputs silent_state
             DEVICE_STATE_CYCLE eq_refl eq_refl).
  split; reflexivity.
Defined.

Lemma sleep_step_clears_pending_witness :
  let s := run default_build sleep_pending_events (init default_build SimMac.accepting) in
  IsMacProcessPending (g s) = 1
  ∧ IsMacProcessPending (g (main_step default_build default_inputs s)) = 0.
Proof.
  split; [reflexivity |].
  pose proof (sleep_step_clears_pending default_build SimMac.accepting
                sleep_pending_events default_inputs) as H.
  cbn zeta in H. destruct H as [_ H]. destruct (H eq_refl) as [Hg _].
  rewrite Hg. reflexivity.
Defined.

Lemma DownLinkCounter_counts_witness :
  DownLinkCounter
    (ComplianceTest
       (g (foldl (fun t ind => McpsIndication default_build ind t) active_state
             [downlink 224 [1]; downlink 1 [1]; downlink 224 [4; 5]])))
  = 3.
Proof.
  pose proof (DownLinkCounter_counts default_build
                [downlink 224 [1]; downlink 1 [1]; downlink 224 [4; 5]]
                active_state eq_refl
                ltac:(split; [apply Z.leb_le | apply Z.ltb_lt]; reflexivity)
                ltac:(repeat constructor)) as H.
  cbn zeta in H. destruct H as [_ H]. rewrite H. reflexivity.
Defined.

Lemma led_downlink_round_trip_witness :
  let s1 := McpsIndication default_build (downlink 1 [3])
              (init default_build SimMac.accepting) in
  Led3 (hw s1) = 1
  ∧ tx_payload (g (PrepareTxFrame default_inputs 3 s1)) !! 0%nat = Some 1.
Proof.
  pose proof (led_downlink_round_trip default_build default_inputs (downlink 1 [3])
                (init default_build SimMac.accepting) eq_refl eq_refl
                (or_introl eq_refl) ltac:(apply Nat.leb_le; reflexivity)) as H.
  cbn zeta in H. destruct H as [H _]. exact (H eq_refl).
Defined.

Lemma echo_leaves_rest_witness :
  AppDataBuffer (g (McpsIndication default_build (downlink 224 [4; 9]) active_state))
    !! 5%nat
  = AppDataBuffer (g active_state) !! 5%nat.
Proof.
  pose proof (echo_leaves_rest default_build (downlink 224 [4; 9]) active_state 5
                eq_refl eq_refl eq_refl ltac:(lia)
                ltac:(apply Z.leb_le; reflexivity)) as H.
  cbn zeta in H. destruct H as [H _]. exact H.
Defined.

Lemma compliance_enable_effect_witness :
  tx_payload
    (g (PrepareTxFrame default_inputs 224
          (McpsIndication default_build enable_downlink
             (init default_build SimMac.accepting))))
  = [0; 0].
Proof.
  pose proof (compliance_enable_effect default_build default_inputs enable_downlink
                (init default_build SimMac.accepting) eq_refl eq_refl eq_refl
                ltac:(apply Nat.leb_le; reflexivity)) as H.
  cbn zeta in H. destruct H as (_ & _ & _ & H). exact H.
Defined.

Lemma confirmed_mode_commands_witness :
  IsTxConfirmed (g (McpsIndication default_build (downlink 224 [2]) active_state))
  = true.
Proof.
  pose proof (confirmed_mode_commands default_build (downlink 224 [2]) active_state
                eq_refl eq_refl (or_introl eq_refl)) as H.
  cbn zeta in H. destruct H as [H _]. rewrite H. reflexivity.
Defined.

Lemma timing_request_step_witness :
  let s' := main_step default_build default_inputs timing_state in
  WakeUpState (g s') = DEVICE_STATE_SEND
  ∧ SimMac.mlme_log (mac s') = [MlmeReq_DeviceTime].
Proof.
  pose proof (timing_request_step default_build default_inputs timing_state
                eq_refl eq_refl) as H.
  cbn zeta in H. destruct H as (Hmac & _ & Hw & _).
  split; [rewrite Hw | rewrite Hmac]; reflexivity.
Defined.

Lemma beacon_lost_reacquires_witness :
  let s3 := main_step default_build default_inputs
              (OnTxNextPacketTimerEvent
                 (MlmeIndication default_build beacon_lost joined_state)) in
  DeviceState (g s3) = DEVICE_STATE_SEND
  ∧ SimMac.mlme_log (mac s3) = [MlmeReq_DeviceTime].
Proof.
  pose proof (beacon_lost_reacquires default_build default_inputs beacon_lost
                joined_state ACTIVATION_TYPE_OTAA eq_refl eq_refl
                ltac:(discriminate)) as H.
  cbn zeta in H. destruct H as (_ & _ & _ & _ & _ & Hmac & Hds).
  split; [exact Hds | rewrite Hmac; reflexivity].
Defined.

Lemma pingslot_step_witness :
  SimMac.mlme_log (mac (main_step default_build default_inputs pingslot_state))
  = [MlmeReq_PingSlotInfo 0; MlmeReq_LinkCheck].
Proof.
  pose proof (pingslot_step default_build default_inputs pingslot_state
                eq_refl eq_refl) as H.
  cbn zeta in H. destruct H as [H _]. rewrite H. reflexivity.
Defined.

Lemma beacon_acquisition_then_silent_send_witness :
  let s2 := main_step default_build default_inputs
              (main_step default_build default_inputs acquisition_state) in
  DeviceState (g s2) = DEVICE_STATE_CYCLE
  ∧ SimMac.mcps_log (mac s2) = [].
Proof.
  pose proof (beacon_acquisition_then_silent_send default_build default_inputs
                default_inputs acquisition_state eq_refl eq_refl) as H.
  cbn zeta in H. destruct H as (H1 & _ & _ & _ & H2 & Hds & _).
  split; [exact Hds | rewrite H2, H1; reflexivity].
Defined.


Lemma tx_mode_in_every_execution_witness :
  AppPort (g active_state) = 224.
Proof.
  pose proof (tx_mode_in_every_execution default_build SimMac.accepting
                [EvMcpsIndication enable_downlink]) as H.
  cbn zeta in H. destruct H as (_ & _ & H & _). exact (H eq_refl).
Defined.

Lemma PrintHexBuffer_length_witness :
  Z.of_nat (length (PrintHexBuffer (fun k => k) 32)) = 98.
Proof.
  rewrite (PrintHexBuffer_length (fun k => k) 32) by lia. reflexivity.
Defined.

Example PrintHexBuffer_three_bytes :
  PrintHexBuffer (fun k => nth (Z.to_nat k) [1; 171; 255] 0) 3
  = ["0"; "1"; " "; "A"; "B"; " "; "F"; "F"; " "; newline_char]%char.
Proof. reflexivity. Qed.

Lemma I2c_uninitialised_fails_witness :
  I2c.I2cWrite 80 7 idle_driver = (I2c.LMN_STATUS_ERROR, idle_driver)
  ∧ I2c.I2cReadBuffer 80 [1; 2] 2 (I2c.I2cDeInit (flaky_driver 0))
    = (I2c.LMN_STATUS_ERROR, [1; 2], I2c.I2cDeInit (flaky_driver 0)).
Proof.
  split.
  - apply (I2c_uninitialised_fails idle_driver 80 0 7 1 [7] eq_refl).
  - apply (I2c_uninitialised_fails (I2c.I2cDeInit (flaky_driver 0)) 80 0 7 2 [1; 2]
             eq_refl).
Defined.

Lemma I2cWriteBuffer_retries_once_witness :
  fst (I2c.I2cWriteBuffer 80 [1; 2] 2 (flaky_driver 1)) = I2c.LMN_STATUS_OK
  ∧ I2c.transfers (I2c.bus (snd (I2c.I2cWriteBuffer 80 [1; 2] 2 (flaky_driver 1)))) = 2%nat
  ∧ fst (I2c.I2cWriteBuffer 80 [1; 2] 2 (flaky_driver 2)) = I2c.LMN_STATUS_ERROR
  ∧ I2c.transfers (I2c.bus (snd (I2c.I2cWriteBuffer 80 [1; 2] 2 (flaky_driver 0)))) = 1%nat.
Proof.
  pose proof (I2cWriteBuffer_retries_once (flaky_driver 1) 80 2 0 [1; 2] eq_refl) as H1.
  pose proof (I2cWriteBuffer_retries_once (flaky_driver 2) 80 2 0 [1; 2] eq_refl) as H2.
  pose proof (I2cWriteBuffer_retries_once (flaky_driver 0) 80 2 0 [1; 2] eq_refl) as H0.
  cbn zeta in H0, H1, H2.
  destruct H1 as (_ & H1 & _). destruct H2 as (_ & H2 & _). destruct H0 as (H0 & _).
  rewrite (H1 eq_refl), (H2 eq_refl), (H0 eq_refl). repeat split.
Defined.

Lemma I2cWriteMemBuffer_retries_once_witness :
  fst (I2c.I2cWriteMem 80 16 7 (flaky_driver 1)) = I2c.LMN_STATUS_OK
  ∧ fst (I2c.I2cWriteMemBuffer 80 16 [7] 1 (flaky_driver 2)) = I2c.LMN_STATUS_ERROR.
Proof.
  pose proof (I2cWriteMemBuffer_retries_once (flaky_driver 1) 80 16 1 7 [7] eq_refl) as H1.
  pose proof (I2cWriteMemBuffer_retries_once (flaky_driver 2) 80 16 1 7 [7] eq_refl) as H2.
  cbn zeta in H1, H2.
  destruct H1 as (_ & H1 & H1'). destruct H2 as (_ & H2 & _).
  rewrite H1', (H1 eq_refl), (H2 eq_refl). split; reflexivity.
Defined.

Lemma I2cRead_single_attempt_witness :
  I2c.transfers (I2c.bus (snd (I2c.I2cRead 80 [9] (flaky_driver 0)))) = 1%nat.
Proof.
  pose proof (I2cRead_single_attempt (flaky_driver 0) 80 0 1 [9] eq_refl) as H.
  cbn zeta in H. destruct H as (H & _ & H' & _).
  rewrite H', H. reflexivity.
Defined.

Lemma txcw_command_witness :
  SimMac.mlme_log
    (mac (McpsIndication default_build (downlink 224 [7; 1; 2]) active_state))
  = [MlmeReq_TxCw 258].
Proof.
  assert (Hbytes : command_bytes (downlink 224 [7; 1; 2])).
  { intros k Hk.
    assert (Hc : k = 1 ∨ k = 2 ∨ k = 3 ∨ k = 4 ∨ k = 5 ∨ k = 6) by lia.
    destruct Hc as [-> | [-> | [-> | [-> | [-> | ->]]]]];
      (split; [apply Z.leb_le | apply Z.ltb_lt]; reflexivity). }
  pose proof (txcw_command default_build (downlink 224 [7; 1; 2]) active_state
                eq_refl eq_refl eq_refl Hbytes) as H.
  cbn zeta in H. destruct H as (_ & H & _). rewrite (H eq_refl). reflexivity.
Defined.

Lemma forced_send_commands_witness :
  let s1 := McpsIndication default_build (downlink 224 [10; 3]) active_state in
  DeviceState (g s1) = DEVICE_STATE_SEND
  ∧ SimMac.mlme_log (mac s1) = [MlmeReq_PingSlotInfo 3].
Proof.
  pose proof (forced_send_commands default_build (downlink 224 [10; 3]) active_state
                eq_refl eq_refl
                ltac:(split; apply Z.leb_le; reflexivity)) as H.
  cbn zeta in H. destruct H as (Hds & _ & _ & H & _).
  destruct H as [_ Hmac]; [discriminate |].
  split; [exact Hds | rewrite Hmac; reflexivity].
Defined.

Lemma echo_sent_once_witness :
  let s := McpsIndication default_build (downlink 224 [4; 9]) active_state in
  tx_payload (g (PrepareTxFrame default_inputs 224 s)) = [4; 10]
  ∧ tx_payload
      (g (PrepareTxFrame default_inputs 224 (PrepareTxFrame default_inputs 224 s)))
    = [0; 1].
Proof.
  pose proof (echo_sent_once default_inputs default_inputs
                (McpsIndication default_build (downlink 224 [4; 9]) active_state) 1
                eq_refl eq_refl eq_refl ltac:(lia)
                ltac:(apply Nat.leb_le; reflexivity)) as H.
  cbn zeta in H. destruct H as (H1 & _ & H2 & _).
  split; [rewrite H1; reflexivity | exact H2].
Defined.
